(** * api_js_funcionario_cargo: a shallow embedding of the HR REST API

    The development follows the layers of the repository:
    value objects (api/model/Cargo.js, api/model/Funcionario.js),
    data access (api/dao/CargoDAO.js, api/dao/FuncionarioDAO.js),
    services (api/service/CargoService.js, api/services/FuncionarioService.js),
    middleware (JwtMiddleware, FuncionarioMiddleware, CargoMiddleware),
    controllers, routers and the error responder of Server.js.

    JavaScript strings are sequences of UTF-16 code units, numbers are kept
    as integers, non-integral finite numbers, NaN and the infinities; every
    function that can throw returns an [Outcome]; asynchronous DAO and
    service code threads a [World] (the relational store and the trace of
    what was executed) through a state-and-exception monad. *)

From Stdlib Require Import List ZArith NArith QArith Bool Lia String Ascii.
Import ListNotations.

Set Implicit Arguments.
Set Warnings "-register-all".
Local Open Scope Z_scope.

(* ================================================================== *)
(** ** JavaScript strings *)
(* ================================================================== *)

Module JsString.

(** A JavaScript string: its UTF-16 code units. *)
Definition jsstring := list N.

(** Literals of this file are written as Rocq strings (UTF-8 bytes) and
    decoded to code units; the source only uses characters of the Basic
    Multilingual Plane in the strings that matter here. *)
Fixpoint utf8_decode (bs : list N) : jsstring :=
  match bs with
  | [] => []
  | b :: rest =>
      if (b <? 128)%N then b :: utf8_decode rest
      else if (b <? 224)%N then
        match rest with
        | c :: rest' => ((b - 192) * 64 + (c - 128))%N :: utf8_decode rest'
        | [] => [b]
        end
      else
        match rest with
        | c :: d :: rest' =>
            ((b - 224) * 4096 + (c - 128) * 64 + (d - 128))%N :: utf8_decode rest'
        | _ => [b]
        end
  end.

Definition js (s : string) : jsstring :=
  utf8_decode (map N_of_ascii (list_ascii_of_string s)).

(** WhiteSpace and LineTerminator code units of ECMAScript: the characters
    removed by [String.prototype.trim] and matched by [\s]. *)
Definition is_js_space (c : N) : bool :=
  ((c =? 9) || (c =? 10) || (c =? 11) || (c =? 12) || (c =? 13) || (c =? 32)
   || (c =? 160) || (c =? 5760) || ((8192 <=? c) && (c <=? 8202))
   || (c =? 8232) || (c =? 8233) || (c =? 8239) || (c =? 8287)
   || (c =? 12288) || (c =? 65279))%N.

Fixpoint trimStart (s : jsstring) : jsstring :=
  match s with
  | c :: s' => if is_js_space c then trimStart s' else s
  | [] => []
  end.

Definition trimEnd (s : jsstring) : jsstring := rev (trimStart (rev s)).

(** [value.trim()] *)
Definition trim (s : jsstring) : jsstring := trimEnd (trimStart s).

(** [s.length] *)
Definition strlen (s : jsstring) : Z := Z.of_nat (List.length s).

Fixpoint jsstring_eqb (a b : jsstring) : bool :=
  match a, b with
  | [], [] => true
  | x :: a', y :: b' => (x =? y)%N && jsstring_eqb a' b'
  | _, _ => false
  end.

End JsString.
Export JsString.

(* ================================================================== *)
(** ** Regular expressions *)
(* ================================================================== *)

Module RegExp.

(** The fragment of regular expressions the repository uses: character
    classes, concatenation and [+]; [Void] and [Alt] are the residuals the
    matcher produces. *)
Inductive regex : Type :=
| Void
| Eps
| Chr (p : N -> bool)
| Cat (r1 r2 : regex)
| Alt (r1 r2 : regex)
| Star (r : regex).

Definition Plus (r : regex) : regex := Cat r (Star r).
Definition anychar : regex := Chr (fun _ => true).

Fixpoint nullable (r : regex) : bool :=
  match r with
  | Void => false
  | Eps => true
  | Chr _ => false
  | Cat r1 r2 => nullable r1 && nullable r2
  | Alt r1 r2 => nullable r1 || nullable r2
  | Star _ => true
  end.

(** Residual of [r] after reading the code unit [c]. *)
Fixpoint deriv (c : N) (r : regex) : regex :=
  match r with
  | Void => Void
  | Eps => Void
  | Chr p => if p c then Eps else Void
  | Cat r1 r2 =>
      if nullable r1 then Alt (Cat (deriv c r1) r2) (deriv c r2)
      else Cat (deriv c r1) r2
  | Alt r1 r2 => Alt (deriv c r1) (deriv c r2)
  | Star r1 => Cat (deriv c r1) (Star r1)
  end.

(** The whole of [s] is matched by [r]: [/^r$/.test(s)]. *)
Fixpoint accepts (r : regex) (s : jsstring) : bool :=
  match s with
  | [] => nullable r
  | c :: s' => accepts (deriv c r) s'
  end.

(** [/r/.test(s)] for a pattern without anchors: some substring matches. *)
Definition search (r : regex) (s : jsstring) : bool :=
  accepts (Cat (Star anychar) (Cat r (Star anychar))) s.

(** Declarative reading of a pattern. *)
Inductive Matches : regex -> jsstring -> Prop :=
| MEps : Matches Eps []
| MChr p c : p c = true -> Matches (Chr p) [c]
| MCat r1 r2 s1 s2 :
    Matches r1 s1 -> Matches r2 s2 -> Matches (Cat r1 r2) (s1 ++ s2)
| MAltL r1 r2 s : Matches r1 s -> Matches (Alt r1 r2) s
| MAltR r1 r2 s : Matches r2 s -> Matches (Alt r1 r2) s
| MStarNil r : Matches (Star r) []
| MStarApp r s1 s2 :
    Matches r s1 -> Matches (Star r) s2 -> Matches (Star r) (s1 ++ s2).

End RegExp.
Export RegExp.

(* ================================================================== *)
(** ** JavaScript values, errors and outcomes *)
(* ================================================================== *)

(** A JavaScript number: an integer, a finite number that is not an
    integer, NaN, or an infinity. *)
Inductive jsnum : Type :=
| JInt (z : Z)
| JFrac (q : Q)
| JNaN
| JInf (negative : bool).

(** The private fields of api/models/Cargo.js ([#idCargo], [#nomeCargo]);
    [None] is a field still [undefined]. *)
Record Cargo : Type := mkCargo {
  priv_idCargo : option jsnum;
  priv_nomeCargo : option jsstring
}.

(** What a [throw] carries: [new Error(message)] (database driver errors
    are plain errors with a [code]), the engine's [TypeError], and the
    application's api/utils/ErrorResponse.js, whose third argument is always
    an object [{ message }] in this repository. *)
Inductive JsError : Type :=
| Error (message : jsstring) (code : option string)
| TypeError (message : jsstring)
| ErrorResponse (httpCode : Z) (message : jsstring) (error : jsstring).

Inductive Outcome (A : Type) : Type :=
| Ok (a : A)
| Throw (e : JsError).
Arguments Ok {A} a.
Arguments Throw {A} e.

(** Values the code handles dynamically: JSON data parsed from a request
    body or returned by the database driver, [undefined], instances of the
    class [Cargo], and the promise an asynchronous call returns before it
    is awaited (kept with the outcome it settles to). *)
Inductive jsval : Type :=
| VUndefined
| VNull
| VBool (b : bool)
| VNum (n : jsnum)
| VStr (s : jsstring)
| VArr (xs : list jsval)
| VObj (fields : list (string * jsval))
| VCargo (c : Cargo)
| VPromise (settled : Outcome jsval).

Definition obind {A B} (m : Outcome A) (k : A -> Outcome B) : Outcome B :=
  match m with
  | Ok a => k a
  | Throw e => Throw e
  end.

Declare Scope outcome_scope.
Delimit Scope outcome_scope with outcome.
Notation "x <- m ;; k" := (obind m (fun x => k))
  (at level 61, m at next level, right associativity) : outcome_scope.

(** [error instanceof ErrorResponse] *)
Definition instanceof_ErrorResponse (e : JsError) : bool :=
  match e with
  | ErrorResponse _ _ _ => true
  | _ => false
  end.

(** [error.message] *)
Definition error_message (e : JsError) : jsstring :=
  match e with
  | Error m _ => m
  | TypeError m => m
  | ErrorResponse _ m _ => m
  end.

(** The parts of the language whose algorithms lie outside the repository:
    the string-to-number conversion of [Number(value)], the string a value
    that is not a string converts to, and [parseInt]. *)
Class JsRuntime : Type := {
  StringToNumber : jsstring -> jsnum;
  ObjectToString : jsval -> jsstring;
  parseInt : jsval -> jsnum
}.

Section Builtins.
Context {rt : JsRuntime}.

(** [Number(value)] *)
Definition Number (value : jsval) : jsnum :=
  match value with
  | VUndefined => JNaN
  | VNull => JInt 0
  | VBool b => JInt (if b then 1 else 0)
  | VNum n => n
  | VStr s => StringToNumber s
  | VArr _ | VObj _ | VCargo _ | VPromise _ =>
      StringToNumber (ObjectToString value)
  end.

End Builtins.

(** [Number.isInteger(n)] *)
Definition isInteger (n : jsnum) : bool :=
  match n with
  | JInt _ => true
  | _ => false
  end.

(** [n <= 0] *)
Definition num_le_zero (n : jsnum) : bool :=
  match n with
  | JInt z => (z <=? 0)%Z
  | JFrac q => Qle_bool q 0
  | JNaN => false
  | JInf negative => negative
  end.

(** [[0, 1].includes(value)] (SameValueZero against the numbers 0 and 1) *)
Definition includes_0_1 (value : jsval) : bool :=
  match value with
  | VNum (JInt 0) | VNum (JInt 1) => true
  | _ => false
  end.

(** Truthiness, as tested by [if (v)] and [!v]. *)
Definition truthy (v : jsval) : bool :=
  match v with
  | VUndefined | VNull => false
  | VBool b => b
  | VNum (JInt 0) | VNum JNaN => false
  | VNum _ => true
  | VStr [] => false
  | VStr _ => true
  | VArr _ | VObj _ | VCargo _ | VPromise _ => true
  end.

Fixpoint lookup (k : string) (fields : list (string * jsval)) : jsval :=
  match fields with
  | [] => VUndefined
  | (k', v) :: rest => if String.eqb k k' then v else lookup k rest
  end.

Definition opt_str (o : option jsstring) : jsval :=
  match o with Some s => VStr s | None => VUndefined end.
Definition opt_num (o : option jsnum) : jsval :=
  match o with Some n => VNum n | None => VUndefined end.

(** Property read [base.k] for the named properties the repository reads:
    own properties of a plain object, [length] of strings and arrays, and
    the getters of [Cargo]; a promise has none of them; reading through
    [undefined] or [null] throws. *)
Definition get (base : jsval) (k : string) : Outcome jsval :=
  match base with
  | VUndefined | VNull =>
      Throw (TypeError (js "Cannot read properties of undefined"))
  | VObj fields => Ok (lookup k fields)
  | VStr s => Ok (if String.eqb k "length" then VNum (JInt (strlen s)) else VUndefined)
  | VArr xs =>
      Ok (if String.eqb k "length" then VNum (JInt (Z.of_nat (List.length xs)))
          else VUndefined)
  | VCargo c =>
      Ok (if String.eqb k "idCargo" then opt_num (priv_idCargo c)
          else if String.eqb k "nomeCargo" then opt_str (priv_nomeCargo c)
          else VUndefined)
  | VBool _ | VNum _ | VPromise _ => Ok VUndefined
  end.

(** Equality of numbers ([NaN] equals nothing). *)
Definition num_eqb (a b : jsnum) : bool :=
  match a, b with
  | JInt x, JInt y => (x =? y)%Z
  | JFrac p, JFrac q => Qeq_bool p q
  | JInf m, JInf n => Bool.eqb m n
  | _, _ => false
  end.

Section LooseEquality.
Context {rt : JsRuntime}.

(** [a == n] for a number [n]: [undefined] and [null] equal no number, every
    other operand is converted to a number first. *)
Definition loose_eq_number (a : jsval) (n : jsnum) : bool :=
  match a with
  | VUndefined | VNull => false
  | _ => num_eqb (Number a) n
  end.

(** [a !== n] is [negb (strict_eq_number a n)] *)
Definition strict_eq_number (a : jsval) (n : jsnum) : bool :=
  match a with
  | VNum m => num_eqb m n
  | _ => false
  end.

(** [a > 0] *)
Definition gt_zero (a : jsval) : bool :=
  match Number a with
  | JInt z => 0 <? z
  | JFrac q => negb (Qle_bool q 0)
  | JNaN => false
  | JInf negative => negb negative
  end.

(** A value interpolated into a template literal. *)
Definition interpolate (a : jsval) : jsstring :=
  match a with
  | VStr s => s
  | _ => ObjectToString a
  end.

End LooseEquality.

(** [a[0]] *)
Definition first (a : jsval) : jsval :=
  match a with
  | VArr (x :: _) => x
  | _ => VUndefined
  end.

(** [a || b] *)
Definition or_else (a b : jsval) : jsval := if truthy a then a else b.

(* ================================================================== *)
(** ** Value objects *)
(* ================================================================== *)

(** api/models/Cargo.js *)
Module CargoModel.
Section WithRuntime.
Context {rt : JsRuntime}.

(** [new Cargo()] *)
Definition new : Cargo := mkCargo None None.

(** [get idCargo()] and [get nomeCargo()] *)
Definition idCargo (this : Cargo) : jsval := opt_num (priv_idCargo this).
Definition nomeCargo (this : Cargo) : jsval := opt_str (priv_nomeCargo this).

(** [set idCargo(value)] *)
Definition set_idCargo (this : Cargo) (value : jsval) : Outcome Cargo :=
  let parsed := Number value in
  if negb (isInteger parsed) then
    Throw (Error (js "idCargo deve ser um número inteiro.") None)
  else if num_le_zero parsed then
    Throw (Error (js "idCargo deve ser maior que zero.") None)
  else Ok (mkCargo (Some parsed) (priv_nomeCargo this)).

(** [set nomeCargo(value)] *)
Definition set_nomeCargo (this : Cargo) (value : jsval) : Outcome Cargo :=
  match value with
  | VStr s =>
      let nome := trim s in
      if strlen nome <? 3 then
        Throw (Error (js "nomeCargo deve ter pelo menos 3 caracteres.") None)
      else if strlen nome >? 64 then
        Throw (Error (js "nomeCargo deve ter no máximo 64 caracteres.") None)
      else Ok (mkCargo (priv_idCargo this) (Some nome))
  | _ => Throw (Error (js "nomeCargo deve ser uma string.") None)
  end.

End WithRuntime.
End CargoModel.

(** The private fields of api/model/Funcionario.js. *)
Record Funcionario : Type := mkFuncionario {
  priv_idFuncionario : option jsnum;
  priv_cargo : option Cargo;
  priv_nomeFuncionario : option jsstring;
  priv_email : option jsstring;
  priv_senha : option jsstring;
  priv_recebeValeTransporte : option jsval
}.

(** api/model/Funcionario.js *)
Module FuncionarioModel.

(** [[^\s@]] *)
Definition not_space_or_at (c : N) : bool :=
  negb (is_js_space c || (c =? 64)%N).

(** [/^[^\s@]+@[^\s@]+\.[^\s@]+$/] *)
Definition emailRegex : regex :=
  Cat (Plus (Chr not_space_or_at))
    (Cat (Chr (N.eqb 64))
       (Cat (Plus (Chr not_space_or_at))
          (Cat (Chr (N.eqb 46)) (Plus (Chr not_space_or_at))))).

(** The classes [A-Z] and [0-9], and the special-character class of the
    password rule: the characters of [special_chars], the first of which
    (code unit 34) is the double quote. *)
Definition upper (c : N) : bool := ((65 <=? c) && (c <=? 90))%N.
Definition digit (c : N) : bool := ((48 <=? c) && (c <=? 57))%N.
Definition special_chars : jsstring := 34%N :: js "!@#$%^&*(),.?:{}|<>".
Definition special (c : N) : bool := existsb (N.eqb c) special_chars.

Section WithRuntime.
Context {rt : JsRuntime}.

(** [new Funcionario()] *)
Definition new : Funcionario := mkFuncionario None None None None None None.

Definition idFuncionario (this : Funcionario) : jsval :=
  opt_num (priv_idFuncionario this).
Definition cargo (this : Funcionario) : jsval :=
  match priv_cargo this with Some c => VCargo c | None => VUndefined end.
Definition nomeFuncionario (this : Funcionario) : jsval :=
  opt_str (priv_nomeFuncionario this).
Definition email (this : Funcionario) : jsval := opt_str (priv_email this).
Definition senha (this : Funcionario) : jsval := opt_str (priv_senha this).
Definition recebeValeTransporte (this : Funcionario) : jsval :=
  match priv_recebeValeTransporte this with Some v => v | None => VUndefined end.

(** [set idFuncionario(valor)] *)
Definition set_idFuncionario (this : Funcionario) (valor : jsval)
  : Outcome Funcionario :=
  let parsed := Number valor in
  if negb (isInteger parsed) then
    Throw (Error (js "idFuncionario deve ser um número inteiro.") None)
  else if num_le_zero parsed then
    Throw (Error (js "idFuncionario deve ser um número inteiro positivo.") None)
  else Ok (mkFuncionario (Some parsed) (priv_cargo this)
             (priv_nomeFuncionario this) (priv_email this) (priv_senha this)
             (priv_recebeValeTransporte this)).

(** [set cargo(value)] *)
Definition set_cargo (this : Funcionario) (value : jsval) : Outcome Funcionario :=
  match value with
  | VCargo c =>
      Ok (mkFuncionario (priv_idFuncionario this) (Some c)
            (priv_nomeFuncionario this) (priv_email this) (priv_senha this)
            (priv_recebeValeTransporte this))
  | _ => Throw (Error (js "cargo deve ser uma instância válida de Cargo.") None)
  end.

(** [set nomeFuncionario(value)] *)
Definition set_nomeFuncionario (this : Funcionario) (value : jsval)
  : Outcome Funcionario :=
  match value with
  | VStr s =>
      let nome := trim s in
      if strlen nome <? 3 then
        Throw (Error (js "nomeFuncionario deve ter pelo menos 3 caracteres.") None)
      else Ok (mkFuncionario (priv_idFuncionario this) (priv_cargo this)
                 (Some nome) (priv_email this) (priv_senha this)
                 (priv_recebeValeTransporte this))
  | _ => Throw (Error (js "nomeFuncionario deve ser uma string.") None)
  end.

(** [set email(value)] *)
Definition set_email (this : Funcionario) (value : jsval) : Outcome Funcionario :=
  match value with
  | VStr s =>
      let emailTrimmed := trim s in
      if jsstring_eqb emailTrimmed [] then
        Throw (Error (js "email não pode ser vazio.") None)
      else if negb (accepts emailRegex emailTrimmed) then
        Throw (Error (js "email em formato inválido.") None)
      else Ok (mkFuncionario (priv_idFuncionario this) (priv_cargo this)
                 (priv_nomeFuncionario this) (Some emailTrimmed)
                 (priv_senha this) (priv_recebeValeTransporte this))
  | _ => Throw (Error (js "email deve ser uma string.") None)
  end.

(** [set senha(value)] *)
Definition set_senha (this : Funcionario) (value : jsval) : Outcome Funcionario :=
  match value with
  | VStr s =>
      let senhaTrimmed := trim s in
      if jsstring_eqb senhaTrimmed [] then
        Throw (Error (js "senha não pode ser vazia.") None)
      else if strlen senhaTrimmed <? 6 then
        Throw (Error (js "senha deve ter pelo menos 6 caracteres.") None)
      else if negb (search (Chr upper) senhaTrimmed) then
        Throw (Error (js "senha deve conter pelo menos uma letra maiúscula.") None)
      else if negb (search (Chr digit) senhaTrimmed) then
        Throw (Error (js "senha deve conter pelo menos um número.") None)
      else if negb (search (Chr special) senhaTrimmed) then
        Throw (Error (js "senha deve conter pelo menos um caractere especial.") None)
      else Ok (mkFuncionario (priv_idFuncionario this) (priv_cargo this)
                 (priv_nomeFuncionario this) (priv_email this)
                 (Some senhaTrimmed) (priv_recebeValeTransporte this))
  | _ => Throw (Error (js "senha deve ser uma string.") None)
  end.

(** [set recebeValeTransporte(value)] *)
Definition set_recebeValeTransporte (this : Funcionario) (value : jsval)
  : Outcome Funcionario :=
  if negb (includes_0_1 value) then
    Throw (Error (js "recebeValeTransporte deve ser 0 ou 1.") None)
  else Ok (mkFuncionario (priv_idFuncionario this) (priv_cargo this)
             (priv_nomeFuncionario this) (priv_email this) (priv_senha this)
             (Some value)).

End WithRuntime.
End FuncionarioModel.

(* ================================================================== *)
(** ** The relational store *)
(* ================================================================== *)

(** The SQL texts of the two DAOs. Runs of white space inside the template
    literals of the source are written as one space. *)
Module Sql.

Definition cargo_create := js "INSERT INTO cargo (nomeCargo) VALUES (?);".
Definition cargo_delete := js "DELETE FROM cargo WHERE idCargo = ?;".
Definition cargo_update := js "UPDATE cargo SET nomeCargo = ? WHERE idCargo = ?;".
Definition cargo_findAll := js "SELECT * FROM cargo;".
Definition cargo_findByField (field : jsstring) : jsstring :=
  js "SELECT * FROM cargo WHERE " ++ field ++ js " = ?;".

Definition funcionario_create :=
  js "INSERT INTO funcionario (nomeFuncionario, email, senha, recebeValeTransporte, Cargo_idCargo) VALUES (?, ?, ?, ?, ?);".
Definition funcionario_delete :=
  js "DELETE FROM funcionario WHERE idFuncionario = ?;".
Definition funcionario_update_senha :=
  js "UPDATE funcionario SET nomeFuncionario=?, email=?, senha=?, recebeValeTransporte=?, Cargo_idCargo=? WHERE idFuncionario=?;".
Definition funcionario_update :=
  js "UPDATE funcionario SET nomeFuncionario=?, email=?, recebeValeTransporte=?, Cargo_idCargo=? WHERE idFuncionario=?;".
Definition funcionario_findAll :=
  js "SELECT idFuncionario, nomeFuncionario, email, recebeValeTransporte, idCargo, nomeCargo FROM funcionario JOIN cargo ON funcionario.Cargo_idCargo = idCargo;".
Definition funcionario_findByField (field : jsstring) : jsstring :=
  js "SELECT * FROM funcionario WHERE " ++ field ++ js " = ?;".
Definition funcionario_login :=
  js "SELECT idFuncionario, nomeFuncionario, email, senha, recebeValeTransporte, idCargo, nomeCargo FROM funcionario JOIN cargo ON cargo.idCargo = funcionario.Cargo_idCargo WHERE email = ?;".

End Sql.

(** A model of the database behind the connection pool (see [execute] at
    the end of the module). *)
Module Mysql.

(** Rows of the tables of docs/Banco.sql. *)
Record cargo_row : Type := mkCargoRow {
  col_idCargo : Z;
  col_nomeCargo : jsstring
}.

Record funcionario_row : Type := mkFuncionarioRow {
  col_idFuncionario : Z;
  col_nomeFuncionario : jsstring;
  col_email : jsstring;
  col_senha : jsstring;
  col_recebeValeTransporte : Z;
  col_Cargo_idCargo : Z
}.

Record Store : Type := mkStore {
  cargo : list cargo_row;
  funcionario : list funcionario_row;
  cargo_AUTO_INCREMENT : Z;
  funcionario_AUTO_INCREMENT : Z
}.

(** The statements the store understands. *)
Inductive Statement : Type :=
| CargoInsert
| CargoDelete
| CargoUpdate
| CargoSelectAll
| CargoSelectWhere (column : jsstring)
| FuncionarioInsert
| FuncionarioDelete
| FuncionarioUpdateSenha
| FuncionarioUpdate
| FuncionarioSelectAll
| FuncionarioSelectWhere (column : jsstring)
| FuncionarioLogin.

Fixpoint strip_prefix (pre s : jsstring) : option jsstring :=
  match pre, s with
  | [], _ => Some s
  | p :: pre', c :: s' => if (p =? c)%N then strip_prefix pre' s' else None
  | _ :: _, [] => None
  end.

Definition strip_suffix (suf s : jsstring) : option jsstring :=
  option_map (@rev N) (strip_prefix (rev suf) (rev s)).

Definition between (pre suf s : jsstring) : option jsstring :=
  match strip_prefix pre s with
  | Some rest => strip_suffix suf rest
  | None => None
  end.

Definition fixed_statements : list (jsstring * Statement) :=
  [ (Sql.cargo_create, CargoInsert);
    (Sql.cargo_delete, CargoDelete);
    (Sql.cargo_update, CargoUpdate);
    (Sql.cargo_findAll, CargoSelectAll);
    (Sql.funcionario_create, FuncionarioInsert);
    (Sql.funcionario_delete, FuncionarioDelete);
    (Sql.funcionario_update_senha, FuncionarioUpdateSenha);
    (Sql.funcionario_update, FuncionarioUpdate);
    (Sql.funcionario_findAll, FuncionarioSelectAll);
    (Sql.funcionario_login, FuncionarioLogin) ].

Fixpoint find_statement (sql : jsstring) (table : list (jsstring * Statement))
  : option Statement :=
  match table with
  | [] => None
  | (text, st) :: rest =>
      if jsstring_eqb sql text then Some st else find_statement sql rest
  end.

Definition parse (sql : jsstring) : option Statement :=
  match find_statement sql fixed_statements with
  | Some st => Some st
  | None =>
      match between (js "SELECT * FROM cargo WHERE ") (js " = ?;") sql with
      | Some column => Some (CargoSelectWhere column)
      | None =>
          match between (js "SELECT * FROM funcionario WHERE ") (js " = ?;") sql with
          | Some column => Some (FuncionarioSelectWhere column)
          | None => None
          end
      end
  end.

(** Rows as the driver hands them to JavaScript. *)
Definition cargo_object (r : cargo_row) : jsval :=
  VObj [ ("idCargo"%string, VNum (JInt (col_idCargo r)));
         ("nomeCargo"%string, VStr (col_nomeCargo r)) ].

Definition funcionario_object (r : funcionario_row) : jsval :=
  VObj [ ("idFuncionario"%string, VNum (JInt (col_idFuncionario r)));
         ("nomeFuncionario"%string, VStr (col_nomeFuncionario r));
         ("email"%string, VStr (col_email r));
         ("senha"%string, VStr (col_senha r));
         ("recebeValeTransporte"%string, VNum (JInt (col_recebeValeTransporte r)));
         ("Cargo_idCargo"%string, VNum (JInt (col_Cargo_idCargo r))) ].

(** A row of [funcionario JOIN cargo]; [with_senha] tells the login
    projection from the listing one. *)
Definition joined_object (with_senha : bool) (f : funcionario_row) (c : cargo_row)
  : jsval :=
  VObj ([ ("idFuncionario"%string, VNum (JInt (col_idFuncionario f)));
          ("nomeFuncionario"%string, VStr (col_nomeFuncionario f));
          ("email"%string, VStr (col_email f)) ]
        ++ (if with_senha then [ ("senha"%string, VStr (col_senha f)) ] else [])
        ++ [ ("recebeValeTransporte"%string,
               VNum (JInt (col_recebeValeTransporte f)));
             ("idCargo"%string, VNum (JInt (col_idCargo c)));
             ("nomeCargo"%string, VStr (col_nomeCargo c)) ]).

Definition ResultSetHeader (insertId affectedRows : Z) : jsval :=
  VObj [ ("insertId"%string, VNum (JInt insertId));
         ("affectedRows"%string, VNum (JInt affectedRows)) ].

(** The error the driver rejects a promise with: a plain error carrying
    the server's error code. The wording of its message is not modelled. *)
Definition sql_error (code : string) : JsError :=
  Error (js "the statement was rejected by the database") (Some code).

(** [cell = ?]: an integer column against an integer, a text column
    against a string (compared code unit by code unit). *)
Definition sql_eq (cell param : jsval) : bool :=
  match cell, param with
  | VNum (JInt a), VNum (JInt b) => a =? b
  | VStr a, VStr b => jsstring_eqb a b
  | _, _ => false
  end.

Definition has_cargo (db : Store) (id : Z) : bool :=
  existsb (fun c => col_idCargo c =? id) (cargo db).

Definition cargo_named (db : Store) (nome : jsstring) : bool :=
  existsb (fun c => jsstring_eqb (col_nomeCargo c) nome) (cargo db).

Definition text (v : jsval) : option jsstring :=
  match v with VStr s => Some s | _ => None end.
Definition int (v : jsval) : option Z :=
  match v with VNum (JInt z) => Some z | _ => None end.

Definition cargo_columns : list (jsstring * (cargo_row -> jsval)) :=
  [ (js "idCargo", fun r => VNum (JInt (col_idCargo r)));
    (js "nomeCargo", fun r => VStr (col_nomeCargo r)) ].

Definition funcionario_columns : list (jsstring * (funcionario_row -> jsval)) :=
  [ (js "idFuncionario", fun r => VNum (JInt (col_idFuncionario r)));
    (js "nomeFuncionario", fun r => VStr (col_nomeFuncionario r));
    (js "email", fun r => VStr (col_email r));
    (js "senha", fun r => VStr (col_senha r));
    (js "recebeValeTransporte", fun r => VNum (JInt (col_recebeValeTransporte r)));
    (js "Cargo_idCargo", fun r => VNum (JInt (col_Cargo_idCargo r))) ].

Fixpoint find_column {R : Type} (column : jsstring)
  (columns : list (jsstring * (R -> jsval))) : option (R -> jsval) :=
  match columns with
  | [] => None
  | (name, cell) :: rest =>
      if jsstring_eqb column name then Some cell else find_column column rest
  end.

Definition joined (with_senha : bool) (db : Store)
  (keep : funcionario_row -> bool) : list jsval :=
  flat_map
    (fun f =>
       map (joined_object with_senha f)
         (filter (fun c => col_idCargo c =? col_Cargo_idCargo f) (cargo db)))
    (filter keep (funcionario db)).

Definition affected {R : Type} (hit : R -> bool) (rows : list R) : Z :=
  Z.of_nat (List.length (filter hit rows)).

Definition rejected (code : string) (db : Store) : Outcome jsval * Store :=
  (Throw (sql_error code), db).

Definition cargo_insert (params : list jsval) (db : Store) : Outcome jsval * Store :=
  match params with
  | [nome] =>
      match text nome with
      | Some n =>
          if cargo_named db n then rejected "ER_DUP_ENTRY" db
          else
            let id := cargo_AUTO_INCREMENT db in
            (Ok (ResultSetHeader id 1),
             mkStore (cargo db ++ [mkCargoRow id n]) (funcionario db)
               (id + 1) (funcionario_AUTO_INCREMENT db))
      | None => rejected "ER_WRONG_ARGUMENTS" db
      end
  | _ => rejected "ER_WRONG_ARGUMENTS" db
  end.

Definition cargo_remove (params : list jsval) (db : Store) : Outcome jsval * Store :=
  match params with
  | [id] =>
      match int id with
      | Some i =>
          if has_cargo db i
             && existsb (fun f => col_Cargo_idCargo f =? i) (funcionario db)
          then rejected "ER_ROW_IS_REFERENCED_2" db
          else
            (Ok (ResultSetHeader 0 (affected (fun c => col_idCargo c =? i) (cargo db))),
             mkStore (filter (fun c => negb (col_idCargo c =? i)) (cargo db))
               (funcionario db) (cargo_AUTO_INCREMENT db)
               (funcionario_AUTO_INCREMENT db))
      | None => rejected "ER_WRONG_ARGUMENTS" db
      end
  | _ => rejected "ER_WRONG_ARGUMENTS" db
  end.

Definition cargo_change (params : list jsval) (db : Store) : Outcome jsval * Store :=
  match params with
  | [nome; id] =>
      match text nome, int id with
      | Some n, Some i =>
          if has_cargo db i
             && existsb (fun c => jsstring_eqb (col_nomeCargo c) n
                                  && negb (col_idCargo c =? i)) (cargo db)
          then rejected "ER_DUP_ENTRY" db
          else
            (Ok (ResultSetHeader 0 (affected (fun c => col_idCargo c =? i) (cargo db))),
             mkStore
               (map (fun c => if col_idCargo c =? i then mkCargoRow i n else c)
                  (cargo db))
               (funcionario db) (cargo_AUTO_INCREMENT db)
               (funcionario_AUTO_INCREMENT db))
      | _, _ => rejected "ER_WRONG_ARGUMENTS" db
      end
  | _ => rejected "ER_WRONG_ARGUMENTS" db
  end.

Definition cargo_select (column : jsstring) (params : list jsval) (db : Store)
  : Outcome jsval * Store :=
  match params with
  | [param] =>
      match find_column column cargo_columns with
      | Some cell =>
          (Ok (VArr (map cargo_object
                       (filter (fun r => sql_eq (cell r) param) (cargo db)))), db)
      | None => rejected "ER_BAD_FIELD_ERROR" db
      end
  | _ => rejected "ER_WRONG_ARGUMENTS" db
  end.

Definition funcionario_insert (params : list jsval) (db : Store)
  : Outcome jsval * Store :=
  match params with
  | [nome; email; senha; vale; idCargo] =>
      match text nome, text email, text senha, int vale, int idCargo with
      | Some n, Some e, Some s, Some v, Some c =>
          if has_cargo db c then
            let id := funcionario_AUTO_INCREMENT db in
            (Ok (ResultSetHeader id 1),
             mkStore (cargo db)
               (funcionario db ++ [mkFuncionarioRow id n e s v c])
               (cargo_AUTO_INCREMENT db) (id + 1))
          else rejected "ER_NO_REFERENCED_ROW_2" db
      | _, _, _, _, _ => rejected "ER_WRONG_ARGUMENTS" db
      end
  | _ => rejected "ER_WRONG_ARGUMENTS" db
  end.

Definition funcionario_remove (params : list jsval) (db : Store)
  : Outcome jsval * Store :=
  match params with
  | [id] =>
      match int id with
      | Some i =>
          (Ok (ResultSetHeader 0
                 (affected (fun f => col_idFuncionario f =? i) (funcionario db))),
           mkStore (cargo db)
             (filter (fun f => negb (col_idFuncionario f =? i)) (funcionario db))
             (cargo_AUTO_INCREMENT db) (funcionario_AUTO_INCREMENT db))
      | None => rejected "ER_WRONG_ARGUMENTS" db
      end
  | _ => rejected "ER_WRONG_ARGUMENTS" db
  end.

(** [UPDATE funcionario SET ... WHERE idFuncionario=?]; [senha] is [None]
    for the statement that leaves the password column alone. *)
Definition funcionario_set (n e : jsstring) (senha : option jsstring) (v c i : Z)
  (db : Store) : Outcome jsval * Store :=
  if existsb (fun f => col_idFuncionario f =? i) (funcionario db)
     && negb (has_cargo db c)
  then rejected "ER_NO_REFERENCED_ROW_2" db
  else
    (Ok (ResultSetHeader 0
           (affected (fun f => col_idFuncionario f =? i) (funcionario db))),
     mkStore (cargo db)
       (map (fun f =>
               if col_idFuncionario f =? i then
                 mkFuncionarioRow i n e
                   (match senha with Some s => s | None => col_senha f end) v c
               else f)
          (funcionario db))
       (cargo_AUTO_INCREMENT db) (funcionario_AUTO_INCREMENT db)).

Definition funcionario_change_senha (params : list jsval) (db : Store)
  : Outcome jsval * Store :=
  match params with
  | [nome; email; senha; vale; idCargo; id] =>
      match text nome, text email, text senha, int vale, int idCargo, int id with
      | Some n, Some e, Some s, Some v, Some c, Some i =>
          funcionario_set n e (Some s) v c i db
      | _, _, _, _, _, _ => rejected "ER_WRONG_ARGUMENTS" db
      end
  | _ => rejected "ER_WRONG_ARGUMENTS" db
  end.

Definition funcionario_change (params : list jsval) (db : Store)
  : Outcome jsval * Store :=
  match params with
  | [nome; email; vale; idCargo; id] =>
      match text nome, text email, int vale, int idCargo, int id with
      | Some n, Some e, Some v, Some c, Some i =>
          funcionario_set n e None v c i db
      | _, _, _, _, _ => rejected "ER_WRONG_ARGUMENTS" db
      end
  | _ => rejected "ER_WRONG_ARGUMENTS" db
  end.

Definition funcionario_select (column : jsstring) (params : list jsval)
  (db : Store) : Outcome jsval * Store :=
  match params with
  | [param] =>
      match find_column column funcionario_columns with
      | Some cell =>
          (Ok (VArr (map funcionario_object
                       (filter (fun r => sql_eq (cell r) param) (funcionario db)))),
           db)
      | None => rejected "ER_BAD_FIELD_ERROR" db
      end
  | _ => rejected "ER_WRONG_ARGUMENTS" db
  end.

Definition run (st : Statement) (params : list jsval) (db : Store)
  : Outcome jsval * Store :=
  match st with
  | CargoInsert => cargo_insert params db
  | CargoDelete => cargo_remove params db
  | CargoUpdate => cargo_change params db
  | CargoSelectAll => (Ok (VArr (map cargo_object (cargo db))), db)
  | CargoSelectWhere column => cargo_select column params db
  | FuncionarioInsert => funcionario_insert params db
  | FuncionarioDelete => funcionario_remove params db
  | FuncionarioUpdateSenha => funcionario_change_senha params db
  | FuncionarioUpdate => funcionario_change params db
  | FuncionarioSelectAll => (Ok (VArr (joined false db (fun _ => true))), db)
  | FuncionarioSelectWhere column => funcionario_select column params db
  | FuncionarioLogin =>
      match params with
      | [param] =>
          (Ok (VArr (joined true db (fun f => sql_eq (VStr (col_email f)) param))),
           db)
      | _ => rejected "ER_WRONG_ARGUMENTS" db
      end
  end.

(** Modelled from the spec: the store behind [pool.execute(sql, params)]
    (api/database/MysqlDatabase.js and the database server are not part of
    the sources). Following the store interface of the specification, an
    insert returns the generated id, update and delete return the affected-row
    count, a select returns the row set; the tables, the unique index on
    [nomeCargo] and the foreign key of [funcionario] are those of
    docs/Banco.sql. Parameters must have the type of their column. *)
Definition execute (sql : jsstring) (params : list jsval) (db : Store)
  : Outcome jsval * Store :=
  match parse sql with
  | Some st => run st params db
  | None => rejected "ER_PARSE_ERROR" db
  end.

(** The rows docs/Banco.sql creates the schema with. *)
Definition Banco : Store :=
  mkStore
    [ mkCargoRow 1 (js "Administrador");
      mkCargoRow 2 (js "Técnico em Informática Jr");
      mkCargoRow 3 (js "Técnico em Informática Pleno");
      mkCargoRow 4 (js "Analista de Sistemas Jr") ]
    [ mkFuncionarioRow 1 (js "adm") (js "adm@adm")
        (js "$2b$12$6ixafy0UKZx.A8ujEEDfnO2QH7IonQ/5/5UCqzQ51YvISdSO4VVle") 1 1;
      mkFuncionarioRow 2 (js "Hélio") (js "helioesperidiao@gmail.com")
        (js "$2b$12$6ixafy0UKZx.A8ujEEDfnO2QH7IonQ/5/5UCqzQ51YvISdSO4VVle") 1 1 ]
    5 3.

End Mysql.

(* ================================================================== *)
(** ** Effects: the world, the trace and the monad of asynchronous code *)
(* ================================================================== *)

(** What a request can observe and change: the store, the clock, and a
    counter of the random salts drawn so far. *)
Record World : Type := mkWorld {
  store : Mysql.Store;
  clock : Z;
  entropy : nat
}.

(** What the code does to the outside, in the order it does it. A [Log]
    names the method whose [console.log] line opens it (the source logs
    the method name on entry) or repeats a diagnostic line. *)
Inductive Event : Type :=
| Log (line : string)
| Execute (sql : jsstring) (params : list jsval)
| Hash (data : jsstring) (rounds : Z)
| Compare (data encrypted : jsstring)
| Sign (claims : jsval).

Definition M (A : Type) : Type := World -> Outcome A * World * list Event.

Definition ret {A} (a : A) : M A := fun w => (Ok a, w, []).

Definition throw {A} (e : JsError) : M A := fun w => (Throw e, w, []).

Definition bind {A B} (m : M A) (k : A -> M B) : M B :=
  fun w =>
    match m w with
    | (Ok a, w1, t1) =>
        match k a w1 with
        | (o, w2, t2) => (o, w2, t1 ++ t2)
        end
    | (Throw e, w1, t1) => (Throw e, w1, t1)
    end.

Declare Scope async_scope.
Delimit Scope async_scope with async.
Notation "x <- m ;; k" := (bind m (fun x => k))
  (at level 61, m at next level, right associativity) : async_scope.
Notation "m ;; k" := (bind m (fun _ => k))
  (at level 61, right associativity) : async_scope.
Open Scope async_scope.

(** A synchronous step that may throw. *)
Definition lift {A} (o : Outcome A) : M A := fun w => (o, w, []).

Definition emit (ev : Event) : M unit := fun w => (Ok tt, w, [ev]).

(** [console.log(...)] *)
Definition console_log (line : string) : M unit := emit (Log line).

(** [try { m } catch (error) { handler(error) }] *)
Definition try_catch {A} (m : M A) (handler : JsError -> M A) : M A :=
  fun w =>
    match m w with
    | (Ok a, w1, t1) => (Ok a, w1, t1)
    | (Throw e, w1, t1) =>
        match handler e w1 with
        | (o, w2, t2) => (o, w2, t1 ++ t2)
        end
    end.

(** A call of an asynchronous function whose promise is not awaited. The
    callee's effects are placed at the call, its outcome (a value or a
    rejection) is left inside the promise and the caller goes on with the
    promise. Where the repository does this, the caller does not touch the
    store again before it answers or only after a statement that reads, so
    the point at which the callee's statement really runs does not change
    what follows. *)
Definition call_async (m : M jsval) : M jsval :=
  fun w =>
    match m w with
    | (o, w1, t1) => (Ok (VPromise o), w1, t1)
    end.

(** [await v] *)
Definition await (v : jsval) : M jsval :=
  match v with
  | VPromise o => lift o
  | _ => ret v
  end.

(** [const [resultado] = await pool.execute(SQL, params)] *)
Definition pool_execute (SQL : jsstring) (params : list jsval) : M jsval :=
  fun w =>
    match Mysql.execute SQL params (store w) with
    | (o, db) => (o, mkWorld db (clock w) (entropy w), [Execute SQL params])
    end.

(** The bcrypt library: [bcrypt_hash salt data rounds] is the digest
    [bcrypt.hash(data, rounds)] resolves to when it draws its [salt]-th
    random salt, [bcrypt_compare data encrypted] is what
    [bcrypt.compare(data, encrypted)] resolves to. *)
Class Bcrypt : Type := {
  bcrypt_hash : nat -> jsstring -> Z -> jsstring;
  bcrypt_compare : jsstring -> jsstring -> bool
}.

(** api/http/MeuTokenJWT.js is not part of the sources; the middleware and
    the service use three members of it. At time [now],
    [validarToken now authorization] is the value
    [jwt.validarToken(authorization)] returns, [payload now authorization]
    is [jwt.payload] after that call, and [gerarToken now claims] is the
    token [jwt.gerarToken(claims)] returns. *)
Class MeuTokenJWT : Type := {
  validarToken : Z -> jsval -> jsval;
  payload : Z -> jsval -> jsval;
  gerarToken : Z -> jsval -> jsstring
}.

Section Libraries.
Context {bc : Bcrypt} {jwt : MeuTokenJWT}.

(** [await bcrypt.hash(data, rounds)] *)
Definition hash (data : jsval) (rounds : Z) : M jsstring :=
  fun w =>
    match data with
    | VStr s =>
        (Ok (bcrypt_hash (entropy w) s rounds),
         mkWorld (store w) (clock w) (S (entropy w)), [Hash s rounds])
    | _ => (Throw (Error (js "data and salt arguments required") None), w, [])
    end.

(** [await bcrypt.compare(data, encrypted)] *)
Definition compare (data encrypted : jsval) : M bool :=
  match data, encrypted with
  | VStr d, VStr e => emit (Compare d e) ;; ret (bcrypt_compare d e)
  | _, _ => throw (Error (js "data and hash arguments required") None)
  end.

(** [new MeuTokenJWT().gerarToken(claims)] *)
Definition jwt_gerarToken (claims : jsval) : M jsstring :=
  fun w => (Ok (gerarToken (clock w) claims), w, [Sign claims]).

End Libraries.

(* ================================================================== *)
(** ** Data access objects *)
(* ================================================================== *)

(** api/dao/CargoDAO.js *)
Module CargoDAO.
Section WithRuntime.
Context {rt : JsRuntime}.

Definition allowedFields : list jsstring := [js "idCargo"; js "nomeCargo"].

Definition create (objCargoModel : Cargo) : M jsval :=
  console_log "CargoDAO.create()" ;;
  let SQL := Sql.cargo_create in
  let params := [CargoModel.nomeCargo objCargoModel] in
  resultado <- pool_execute SQL params ;;
  insertId <- lift (get resultado "insertId") ;;
  if negb (truthy insertId) then
    throw (Error (js "Falha ao inserir cargo") None)
  else ret insertId.

Definition delete (objCargoModel : Cargo) : M jsval :=
  console_log "CargoDAO.delete()" ;;
  let SQL := Sql.cargo_delete in
  let params := [CargoModel.idCargo objCargoModel] in
  resultado <- pool_execute SQL params ;;
  affectedRows <- lift (get resultado "affectedRows") ;;
  ret (VBool (gt_zero affectedRows)).

Definition update (objCargoModel : Cargo) : M jsval :=
  console_log "CargoDAO.update()" ;;
  let SQL := Sql.cargo_update in
  let params :=
    [CargoModel.nomeCargo objCargoModel; CargoModel.idCargo objCargoModel] in
  resultado <- pool_execute SQL params ;;
  affectedRows <- lift (get resultado "affectedRows") ;;
  ret (VBool (gt_zero affectedRows)).

Definition findAll : M jsval :=
  console_log "CargoDAO.findAll()" ;;
  let SQL := Sql.cargo_findAll in
  resultado <- pool_execute SQL [] ;;
  ret resultado.

Definition findByField (field : jsstring) (value : jsval) : M jsval :=
  console_log "CargoDAO.findByField()" ;;
  if negb (existsb (jsstring_eqb field) allowedFields) then
    throw (Error (js "Campo inválido para busca: " ++ field) None)
  else
    let SQL := Sql.cargo_findByField field in
    let params := [value] in
    resultado <- pool_execute SQL params ;;
    ret (or_else resultado (VArr [])).

Definition findById (idCargo : jsval) : M jsval :=
  console_log "CargoDAO.findById()" ;;
  resultado <- findByField (js "idCargo") idCargo ;;
  ret (or_else (first resultado) VNull).

End WithRuntime.
End CargoDAO.

(** api/dao/FuncionarioDAO.js (src/unnamed/part_003) *)
Module FuncionarioDAO.
Import FuncionarioModel.
Section WithLibraries.
Context {rt : JsRuntime} {bc : Bcrypt}.

Definition allowedFields : list jsstring :=
  [js "idFuncionario"; js "nomeFuncionario"; js "email"; js "senha";
   js "recebeValeTransporte"; js "Cargo_idCargo"].

(** The object passed in is shared with the caller, and [create] assigns to
    its [senha]: the result carries the object as [create] leaves it next
    to the id returned. *)
Definition create (objFuncionarioModel : Funcionario) : M (Funcionario * jsval) :=
  console_log "FuncionarioDAO.create()" ;;
  senhaHash <- hash (senha objFuncionarioModel) 12 ;;
  objFuncionarioModel <- lift (set_senha objFuncionarioModel (VStr senhaHash)) ;;
  let SQL := Sql.funcionario_create in
  idCargo <- lift (get (cargo objFuncionarioModel) "idCargo") ;;
  let params :=
    [nomeFuncionario objFuncionarioModel; email objFuncionarioModel;
     senha objFuncionarioModel; recebeValeTransporte objFuncionarioModel;
     idCargo] in
  resultado <- pool_execute SQL params ;;
  insertId <- lift (get resultado "insertId") ;;
  if negb (truthy insertId) then
    throw (Error (js "Falha ao inserir funcionário") None)
  else ret (objFuncionarioModel, insertId).

Definition delete (objFuncionarioModel : Funcionario) : M jsval :=
  console_log "FuncionarioDAO.delete()" ;;
  let SQL := Sql.funcionario_delete in
  let params := [idFuncionario objFuncionarioModel] in
  resultado <- pool_execute SQL params ;;
  affectedRows <- lift (get resultado "affectedRows") ;;
  ret (VBool (gt_zero affectedRows)).

Definition update (objFuncionarioModel : Funcionario) : M jsval :=
  console_log "FuncionarioDAO.update()" ;;
  sql_params <-
    (if truthy (senha objFuncionarioModel) then
       senhaHash <- hash (senha objFuncionarioModel) 12 ;;
       idCargo <- lift (get (cargo objFuncionarioModel) "idCargo") ;;
       ret (Sql.funcionario_update_senha,
            [nomeFuncionario objFuncionarioModel; email objFuncionarioModel;
             VStr senhaHash; recebeValeTransporte objFuncionarioModel;
             idCargo; idFuncionario objFuncionarioModel])
     else
       idCargo <- lift (get (cargo objFuncionarioModel) "idCargo") ;;
       ret (Sql.funcionario_update,
            [nomeFuncionario objFuncionarioModel; email objFuncionarioModel;
             recebeValeTransporte objFuncionarioModel;
             idCargo; idFuncionario objFuncionarioModel])) ;;
  resultado <- pool_execute (fst sql_params) (snd sql_params) ;;
  affectedRows <- lift (get resultado "affectedRows") ;;
  ret (VBool (gt_zero affectedRows)).

(** The listing maps every joined row to a fresh object with the same
    properties, the two of the role nested under [cargo]. *)
Definition listed (row : jsval) : Outcome jsval :=
  (idFuncionario <- get row "idFuncionario" ;;
   nomeFuncionario <- get row "nomeFuncionario" ;;
   email <- get row "email" ;;
   recebeValeTransporte <- get row "recebeValeTransporte" ;;
   idCargo <- get row "idCargo" ;;
   nomeCargo <- get row "nomeCargo" ;;
   Ok (VObj [ ("idFuncionario"%string, idFuncionario);
              ("nomeFuncionario"%string, nomeFuncionario);
              ("email"%string, email);
              ("recebeValeTransporte"%string, recebeValeTransporte);
              ("cargo"%string,
                VObj [ ("idCargo"%string, idCargo);
                       ("nomeCargo"%string, nomeCargo) ]) ]))%outcome.

Fixpoint map_rows (f : jsval -> Outcome jsval) (rows : list jsval)
  : Outcome (list jsval) :=
  match rows with
  | [] => Ok []
  | r :: rest =>
      (x <- f r ;; xs <- map_rows f rest ;; Ok (x :: xs))%outcome
  end.

Definition findAll : M jsval :=
  console_log "FuncionarioDAO.findAll()" ;;
  let SQL := Sql.funcionario_findAll in
  matrizDados <- pool_execute SQL [] ;;
  match matrizDados with
  | VArr rows => xs <- lift (map_rows listed rows) ;; ret (VArr xs)
  | _ => throw (TypeError (js "matrizDados.map is not a function"))
  end.

Definition findByField (field : jsstring) (value : jsval) : M jsval :=
  console_log "FuncionarioDAO.findByField()" ;;
  if negb (existsb (jsstring_eqb field) allowedFields) then
    throw (Error (js "Campo inválido para busca") None)
  else
    let SQL := Sql.funcionario_findByField field in
    let params := [value] in
    rows <- pool_execute SQL params ;;
    ret (or_else rows (VArr [])).

Definition findById (idFuncionario : jsval) : M jsval :=
  console_log "FuncionarioDAO.findById()" ;;
  resultado <- findByField (js "idFuncionario") idFuncionario ;;
  ret (or_else (first resultado) VNull).

(** [null] is [None]. *)
Definition login (objFuncionarioModel : Funcionario) : M (option Funcionario) :=
  console_log "FuncionarioDAO.login()" ;;
  let SQL := Sql.funcionario_login in
  resultado <- pool_execute SQL [email objFuncionarioModel] ;;
  length <- lift (get resultado "length") ;;
  if negb (strict_eq_number length (JInt 1)) then
    console_log "Funcionário não encontrado" ;;
    ret None
  else
    let funcionarioDB := first resultado in
    senhaDB <- lift (get funcionarioDB "senha") ;;
    senhaValida <- compare (senha objFuncionarioModel) senhaDB ;;
    if negb senhaValida then
      console_log "Senha inválida" ;;
      ret None
    else
      idCargo <- lift (get funcionarioDB "idCargo") ;;
      objCargo <- lift (CargoModel.set_idCargo CargoModel.new
                          (VNum (parseInt idCargo))) ;;
      nomeCargo <- lift (get funcionarioDB "nomeCargo") ;;
      objCargo <- lift (CargoModel.set_nomeCargo objCargo nomeCargo) ;;
      let funcionario := FuncionarioModel.new in
      v <- lift (get funcionarioDB "idFuncionario") ;;
      funcionario <- lift (set_idFuncionario funcionario v) ;;
      v <- lift (get funcionarioDB "nomeFuncionario") ;;
      funcionario <- lift (set_nomeFuncionario funcionario v) ;;
      v <- lift (get funcionarioDB "email") ;;
      funcionario <- lift (set_email funcionario v) ;;
      v <- lift (get funcionarioDB "recebeValeTransporte") ;;
      funcionario <- lift (set_recebeValeTransporte funcionario v) ;;
      funcionario <- lift (set_cargo funcionario (VCargo objCargo)) ;;
      ret (Some funcionario).

End WithLibraries.
End FuncionarioDAO.

(* ================================================================== *)
(** ** Services *)
(* ================================================================== *)

(** api/service/CargoService.js *)
Module CargoService.
Section WithRuntime.
Context {rt : JsRuntime}.

Definition createCargo (cargoJson : jsval) : M jsval :=
  console_log "CargoService.createCargo()" ;;
  let cargo := CargoModel.new in
  nomeCargo <- lift (get cargoJson "nomeCargo") ;;
  cargo <- lift (CargoModel.set_nomeCargo cargo nomeCargo) ;;
  resultado <- CargoDAO.findByField (js "nomeCargo") (CargoModel.nomeCargo cargo) ;;
  length <- lift (get resultado "length") ;;
  if gt_zero length then
    throw (ErrorResponse 400 (js "Cargo já existe")
             (js "O cargo " ++ interpolate (CargoModel.nomeCargo cargo)
                ++ js " já existe"))
  else CargoDAO.create cargo.

Definition findAll : M jsval :=
  console_log "CargoService.findAll()" ;;
  CargoDAO.findAll.

Definition findById (idCargo : jsval) : M jsval :=
  console_log "CargoService.findById()" ;;
  let cargo := CargoModel.new in
  cargo <- lift (CargoModel.set_idCargo cargo idCargo) ;;
  CargoDAO.findById (CargoModel.idCargo cargo).

Definition updateCargo (idCargo nomeCargo : jsval) : M jsval :=
  console_log "CargoService.updateCargo()" ;;
  let cargo := CargoModel.new in
  cargo <- lift (CargoModel.set_idCargo cargo idCargo) ;;
  cargo <- lift (CargoModel.set_nomeCargo cargo nomeCargo) ;;
  CargoDAO.update cargo.

Definition deleteCargo (idCargo : jsval) : M jsval :=
  console_log "CargoService.deleteCargo()" ;;
  let cargo := CargoModel.new in
  cargo <- lift (CargoModel.set_idCargo cargo idCargo) ;;
  CargoDAO.delete cargo.

End WithRuntime.
End CargoService.

(** api/services/FuncionarioService.js *)
Module FuncionarioService.
Import FuncionarioModel.
Section WithLibraries.
Context {rt : JsRuntime} {bc : Bcrypt} {jwt : MeuTokenJWT}.

Definition createFuncionario (jsonFuncionario : jsval) : M Funcionario :=
  console_log "FuncionarioService.createFuncionario()" ;;
  let objetoCargo := CargoModel.new in
  v <- lift (get jsonFuncionario "cargo") ;;
  v <- lift (get v "idCargo") ;;
  objetoCargo <- lift (CargoModel.set_idCargo objetoCargo v) ;;
  let objFuncionario := FuncionarioModel.new in
  v <- lift (get jsonFuncionario "nomeFuncionario") ;;
  objFuncionario <- lift (set_nomeFuncionario objFuncionario v) ;;
  v <- lift (get jsonFuncionario "email") ;;
  objFuncionario <- lift (set_email objFuncionario v) ;;
  v <- lift (get jsonFuncionario "senha") ;;
  objFuncionario <- lift (set_senha objFuncionario v) ;;
  v <- lift (get jsonFuncionario "recebeValeTransporte") ;;
  objFuncionario <- lift (set_recebeValeTransporte objFuncionario v) ;;
  objFuncionario <- lift (set_cargo objFuncionario (VCargo objetoCargo)) ;;
  (* the call below is not awaited: [cargoExiste] is the promise *)
  v <- lift (get (cargo objFuncionario) "idCargo") ;;
  cargoExiste <- call_async (CargoDAO.findByField (js "idCargo") v) ;;
  length <- lift (get cargoExiste "length") ;;
  if loose_eq_number length (JInt 0) then
    throw (ErrorResponse 400 (js "O cargo informado não existe")
             (js "O email " ++ interpolate (email objFuncionario)
                ++ js " já está cadastrado"))
  else
    emailExiste <- FuncionarioDAO.findByField (js "email") (email objFuncionario) ;;
    length <- lift (get emailExiste "length") ;;
    if gt_zero length then
      throw (ErrorResponse 400 (js "´Já existe um Funcionário com o email fornecido")
               (js "O email " ++ interpolate (email objFuncionario)
                  ++ js " já está cadastrado"))
    else
      created <- FuncionarioDAO.create objFuncionario ;;
      objFuncionario <- lift (set_idFuncionario (fst created) (snd created)) ;;
      ret objFuncionario.

Definition loginFuncionario (jsonFuncionario : jsval) : M jsval :=
  console_log "FuncionarioService.loginFuncionario()" ;;
  let objetoFuncionario := FuncionarioModel.new in
  v <- lift (get jsonFuncionario "email") ;;
  objetoFuncionario <- lift (set_email objetoFuncionario v) ;;
  v <- lift (get jsonFuncionario "senha") ;;
  objetoFuncionario <- lift (set_senha objetoFuncionario v) ;;
  encontrado <- FuncionarioDAO.login objetoFuncionario ;;
  match encontrado with
  | None =>
      throw (ErrorResponse 401 (js "Usuário ou senha inválidos")
               (js "Não foi possível realizar autenticação"))
  | Some encontrado =>
      let role :=
        match priv_cargo encontrado with
        | Some c => or_else (CargoModel.nomeCargo c) VNull
        | None => VNull
        end in
      let funcionario :=
        VObj [ ("email"%string, email encontrado);
               ("role"%string, role);
               ("name"%string, or_else (nomeFuncionario encontrado) VNull);
               ("idFuncionario"%string, idFuncionario encontrado) ] in
      let user := VObj [ ("funcionario"%string, funcionario) ] in
      token <- jwt_gerarToken funcionario ;;
      ret (VObj [ ("user"%string, user); ("token"%string, VStr token) ])
  end.

Definition findAll : M jsval :=
  console_log "FuncionarioService.findAll()" ;;
  FuncionarioDAO.findAll.

Definition findById (idFuncionario : jsval) : M jsval :=
  let objFuncionario := FuncionarioModel.new in
  objFuncionario <- lift (set_idFuncionario objFuncionario idFuncionario) ;;
  funcionario <- FuncionarioDAO.findById (FuncionarioModel.idFuncionario objFuncionario) ;;
  if negb (truthy funcionario) then
    throw (ErrorResponse 404 (js "Funcionário não encontrado")
             (js "Não existe funcionário com id " ++ interpolate idFuncionario))
  else ret funcionario.

Definition updateFuncionario (idFuncionario requestBody : jsval) : M jsval :=
  console_log "FuncionarioService.updateFuncionario()" ;;
  jsonFuncionario <- lift (get requestBody "funcionario") ;;
  let objCargo := CargoModel.new in
  v <- lift (get jsonFuncionario "cargo") ;;
  v <- lift (get v "idCargo") ;;
  objCargo <- lift (CargoModel.set_idCargo objCargo v) ;;
  let objFuncionario := FuncionarioModel.new in
  objFuncionario <- lift (set_idFuncionario objFuncionario idFuncionario) ;;
  v <- lift (get jsonFuncionario "nomeFuncionario") ;;
  objFuncionario <- lift (set_nomeFuncionario objFuncionario v) ;;
  v <- lift (get jsonFuncionario "email") ;;
  objFuncionario <- lift (set_email objFuncionario v) ;;
  v <- lift (get jsonFuncionario "senha") ;;
  objFuncionario <- lift (set_senha objFuncionario v) ;;
  v <- lift (get jsonFuncionario "recebeValeTransporte") ;;
  objFuncionario <- lift (set_recebeValeTransporte objFuncionario v) ;;
  objFuncionario <- lift (set_cargo objFuncionario (VCargo objCargo)) ;;
  FuncionarioDAO.update objFuncionario.

Definition deleteFuncionario (idFuncionario : jsval) : M jsval :=
  let funcionario := FuncionarioModel.new in
  funcionario <- lift (set_idFuncionario funcionario idFuncionario) ;;
  FuncionarioDAO.delete funcionario.

End WithLibraries.
End FuncionarioService.

(* ================================================================== *)
(** ** HTTP: requests, responses, middleware *)
(* ================================================================== *)

Record Request : Type := mkRequest {
  authorization : jsval;   (* request.headers.authorization *)
  body : jsval;            (* request.body *)
  params : jsval           (* request.params *)
}.

Record Response : Type := mkResponse {
  status : Z;
  sent : jsval
}.

(** A handler ends by calling [next()], possibly on a request it changed,
    or by sending the response. An exception it throws, or an error it
    hands to [next(error)], is the [Throw] of its computation. *)
Inductive Step : Type :=
| Next (request : Request)
| Send (response : Response).

Definition Handler : Type := Request -> M Step.

Definition now : M Z := fun w => (Ok (clock w), w, []).

(** [typeof v !== "object"] *)
Definition typeof_not_object (v : jsval) : bool :=
  match v with
  | VNull | VArr _ | VObj _ | VCargo _ | VPromise _ => false
  | _ => true
  end.

(** [v === undefined || v === null || v === ""] *)
Definition missing (v : jsval) : bool :=
  match v with
  | VUndefined | VNull | VStr [] => true
  | _ => false
  end.

(** [!Number.isInteger(v) || v <= 0] *)
Definition not_positive_integer (v : jsval) : bool :=
  match v with
  | VNum (JInt z) => z <=? 0
  | _ => true
  end.

(** src/unnamed/part_002: JwtMiddleware *)
Module JwtMiddleware.
Section WithToken.
Context {jwt : MeuTokenJWT}.

Definition validateToken : Handler := fun request =>
  console_log "JwtMiddleware.validateToken()" ;;
  let authorization := authorization request in
  time <- now ;;
  let autorizado := validarToken time authorization in
  match autorizado with
  | VBool true =>
      let payload := payload time authorization in
      email <- lift (get payload "email") ;;
      role <- lift (get payload "role") ;;
      name <- lift (get payload "name") ;;
      let obj := VObj [ ("email"%string, email); ("role"%string, role);
                        ("name"%string, name) ] in
      token <- jwt_gerarToken obj ;;
      ret (Next (mkRequest (VStr token) (body request) (params request)))
  | _ =>
      let objResposta := VObj [ ("status"%string, VBool false);
                                ("msg"%string, VStr (js "token inválido")) ] in
      ret (Send (mkResponse 401 objResposta))
  end.

End WithToken.
End JwtMiddleware.

Definition bad_request (detail : jsstring) : JsError :=
  ErrorResponse 400 (js "Erro na validação de dados") detail.

(** src/unnamed/part_002: FuncionarioMiddleware *)
Module FuncionarioMiddleware.
Section WithRuntime.
Context {rt : JsRuntime}.

(** The loop over [camposObrigatorios] of [validateCreateBody]. *)
Fixpoint required (funcionario : jsval) (camposObrigatorios : list string)
  : Outcome unit :=
  match camposObrigatorios with
  | [] => Ok tt
  | campo :: rest =>
      (v <- get funcionario campo ;;
       if missing v then
         Throw (bad_request (js "O campo '" ++ js campo ++ js "' é obrigatório!"))
       else required funcionario rest)%outcome
  end.

Definition validateCreateBody : Handler := fun request =>
  console_log "FuncionarioMiddleware.validateCreateBody()" ;;
  let body := body request in
  funcionario <- lift (get body "funcionario") ;;
  if negb (truthy funcionario) then
    throw (bad_request (js "O campo 'funcionario' é obrigatório!"))
  else
    lift (required funcionario
            ["nomeFuncionario"; "email"; "senha"; "recebeValeTransporte"]%string) ;;
    vale <- lift (get funcionario "recebeValeTransporte") ;;
    if negb (includes_0_1 vale) then
      throw (bad_request (js "O campo 'recebeValeTransporte' deve ser 0 ou 1"))
    else
      cargo <- lift (get funcionario "cargo") ;;
      if negb (truthy cargo) || typeof_not_object cargo then
        throw (bad_request (js "O campo 'cargo' é obrigatório e deve ser um objeto"))
      else
        idCargo <- lift (get cargo "idCargo") ;;
        if not_positive_integer idCargo then
          throw (bad_request
                   (js "O campo 'idCargo' deve ser um número inteiro positivo"))
        else ret (Next request).

(** The loop over [camposObrigatorios] of [validateLoginBody]. *)
Fixpoint required_login (funcionario : jsval) (camposObrigatorios : list string)
  : Outcome unit :=
  match camposObrigatorios with
  | [] => Ok tt
  | campo :: rest =>
      (v <- get funcionario campo ;;
       if negb (truthy v) || jsstring_eqb (trim (interpolate v)) [] then
         Throw (bad_request (js "O campo '" ++ js campo ++ js "' é obrigatório!"))
       else required_login funcionario rest)%outcome
  end.

Definition validateLoginBody : Handler := fun request =>
  console_log "FuncionarioMiddleware.validateLoginBody()" ;;
  let body := body request in
  funcionario <- lift (get body "funcionario") ;;
  if negb (truthy funcionario) then
    throw (bad_request (js "O campo 'funcionario' é obrigatório!"))
  else
    lift (required_login funcionario ["email"; "senha"]%string) ;;
    email <- lift (get funcionario "email") ;;
    if negb (accepts FuncionarioModel.emailRegex (interpolate email)) then
      throw (bad_request (js "O campo 'email' não é um e-mail válido"))
    else ret (Next request).

Definition validateIdParam : Handler := fun request =>
  console_log "FuncionarioMiddleware.validateIdParam()" ;;
  idFuncionario <- lift (get (params request) "idFuncionario") ;;
  if negb (truthy idFuncionario) then
    throw (bad_request (js "O parâmetro 'idFuncionario' é obrigatório!"))
  else ret (Next request).

End WithRuntime.
End FuncionarioMiddleware.

(** api/middleware/CargoMiddleware.js *)
Module CargoMiddleware.

Definition validateBody : Handler := fun request =>
  console_log "CargoMiddleware.validateBody()" ;;
  let body := body request in
  cargo <- lift (get body "cargo") ;;
  if negb (truthy cargo) then
    throw (bad_request (js "O campo 'cargo' é obrigatório!"))
  else
    nomeCargo <- lift (get cargo "nomeCargo") ;;
    if negb (truthy nomeCargo) then
      throw (bad_request (js "O campo 'nomeCargo' é obrigatório!"))
    else
      match nomeCargo with
      | VStr s =>
          if jsstring_eqb (trim s) [] then
            throw (bad_request (js "O campo 'nomeCargo' é obrigatório!"))
          else ret (Next request)
      | _ => throw (TypeError (js "cargo.nomeCargo.trim is not a function"))
      end.

Definition validateIdParam : Handler := fun request =>
  console_log "CargoMiddleware.validateIdParam()" ;;
  idCargo <- lift (get (params request) "idCargo") ;;
  if negb (truthy idCargo) then
    throw (bad_request (js "O parâmetro 'idCargo' é obrigatório!"))
  else ret (Next request).

End CargoMiddleware.

(* ================================================================== *)
(** ** Controllers, the error responder and the routers *)
(* ================================================================== *)

Definition success (message : string) (data : list (string * jsval)) : jsval :=
  VObj ([ ("success"%string, VBool true); ("message"%string, VStr (js message)) ]
        ++ data).

(** What [response.json] makes of a [Funcionario]: its state is in private
    fields and its accessors are on the prototype, so the object has no own
    enumerable property. *)
Definition json_of_instance (f : Funcionario) : jsval := VObj [].

(** api/control/FuncionarioControl.js. Each method runs in a [try] block
    whose [catch] passes the error to [next(error)]. *)
Module FuncionarioControl.
Section WithLibraries.
Context {rt : JsRuntime} {bc : Bcrypt} {jwt : MeuTokenJWT}.

Definition login : Handler := fun request =>
  console_log "FuncionarioControl.login()" ;;
  jsonFuncionario <- lift (get (body request) "funcionario") ;;
  resultado <- FuncionarioService.loginFuncionario jsonFuncionario ;;
  ret (Send (mkResponse 200
               (success "Login efetuado com sucesso!" [ ("data"%string, resultado) ]))).

Definition store : Handler := fun request =>
  console_log "FuncionarioControl.store()" ;;
  jsonFuncionario <- lift (get (body request) "funcionario") ;;
  resultado <- FuncionarioService.createFuncionario jsonFuncionario ;;
  ret (Send (mkResponse 200
               (success "Cadastro realizado com sucesso"
                  [ ("data"%string,
                      VObj [ ("funcionario"%string, json_of_instance resultado) ]) ]))).

Definition index : Handler := fun request =>
  console_log "FuncionarioControl.index()" ;;
  listaFuncionarios <- FuncionarioService.findAll ;;
  ret (Send (mkResponse 200
               (success "Executado com sucesso"
                  [ ("data"%string,
                      VObj [ ("funcionarios"%string, listaFuncionarios) ]) ]))).

Definition show : Handler := fun request =>
  console_log "FuncionarioControl.show()" ;;
  idFuncionario <- lift (get (params request) "idFuncionario") ;;
  funcionario <- FuncionarioService.findById idFuncionario ;;
  ret (Send (mkResponse 200
               (success "Executado com sucesso" [ ("data"%string, funcionario) ]))).

Definition update : Handler := fun request =>
  console_log "FuncionarioControl.update()" ;;
  idFuncionario <- lift (get (params request) "idFuncionario") ;;
  funcionarioAtualizado <-
    FuncionarioService.updateFuncionario idFuncionario (body request) ;;
  funcionario <- lift (get (body request) "funcionario") ;;
  nomeFuncionario <- lift (get funcionario "nomeFuncionario") ;;
  ret (Send (mkResponse 200
               (success "Atualizado com sucesso"
                  [ ("data"%string,
                      VObj [ ("funcionario"%string,
                               VObj [ ("idFuncionario"%string,
                                        VNum (parseInt idFuncionario));
                                      ("nomeFuncionario"%string,
                                        nomeFuncionario) ]) ]) ]))).

Definition destroy : Handler := fun request =>
  console_log "FuncionarioControl.destroy()" ;;
  idFuncionario <- lift (get (params request) "idFuncionario") ;;
  excluiu <- FuncionarioService.deleteFuncionario idFuncionario ;;
  if negb (truthy excluiu) then
    ret (Send (mkResponse 404
                 (VObj [ ("success"%string, VBool false);
                         ("message"%string, VStr (js "Funcionário não encontrado"));
                         ("error"%string,
                           VObj [ ("message"%string,
                                    VStr (js "Não existe funcionário com id "
                                            ++ interpolate idFuncionario)) ]) ])))
  else
    ret (Send (mkResponse 204 (success "Excluído com sucesso" []))).

End WithLibraries.
End FuncionarioControl.

(** src/unnamed/part_001: CargoControl *)
Module CargoControl.
Section WithRuntime.
Context {rt : JsRuntime}.

Definition cargos (fields : list (string * jsval)) : list (string * jsval) :=
  [ ("data"%string, VObj [ ("cargos"%string, VArr [ VObj fields ]) ]) ].

Definition store : Handler := fun request =>
  console_log "CargoControle.store()" ;;
  cargoBodyRequest <- lift (get (body request) "cargo") ;;
  novoId <- CargoService.createCargo cargoBodyRequest ;;
  nomeCargo <- lift (get cargoBodyRequest "nomeCargo") ;;
  let objResposta :=
    success "Cadastro realizado com sucesso"
      (cargos [ ("idCargo"%string, novoId); ("nomeCargo"%string, nomeCargo) ]) in
  if truthy novoId then ret (Send (mkResponse 201 objResposta))
  else throw (Error (js "Falha ao cadastrar novo Cargo") None).

Definition index : Handler := fun request =>
  console_log "CargoControle.index()" ;;
  arrayCargos <- CargoService.findAll ;;
  ret (Send (mkResponse 200
               (success "Busca realizada com sucesso"
                  [ ("data"%string, VObj [ ("cargos"%string, arrayCargos) ]) ]))).

Definition show : Handler := fun request =>
  console_log "CargoControle.show()" ;;
  cargoId <- lift (get (params request) "idCargo") ;;
  cargo <- CargoService.findById cargoId ;;
  ret (Send (mkResponse 200
               (success "Executado com sucesso"
                  [ ("data"%string, VObj [ ("cargos"%string, cargo) ]) ]))).

Definition update : Handler := fun request =>
  console_log "CargoControle.update()" ;;
  cargoId <- lift (get (params request) "idCargo") ;;
  cargo <- lift (get (body request) "cargo") ;;
  nomeCargo <- lift (get cargo "nomeCargo") ;;
  atualizou <- CargoService.updateCargo cargoId nomeCargo ;;
  let fields := [ ("idCargo"%string, cargoId); ("nomeCargo"%string, nomeCargo) ] in
  if truthy atualizou then
    ret (Send (mkResponse 200 (success "Atualizado com sucesso" (cargos fields))))
  else
    ret (Send (mkResponse 404
                 (VObj ([ ("success"%string, VBool false);
                          ("message"%string,
                            VStr (js "Cargo não encontrado para atualização")) ]
                        ++ cargos fields)))).

(** The promise of [deleteCargo] is not awaited here. *)
Definition destroy : Handler := fun request =>
  console_log "CargoControle.destroy()" ;;
  cargoId <- lift (get (params request) "idCargo") ;;
  excluiu <- call_async (CargoService.deleteCargo cargoId) ;;
  let fields := [ ("idCargo"%string, cargoId) ] in
  if truthy excluiu then
    ret (Send (mkResponse 204
                 (success "Ecluido com sucesso com sucesso" (cargos fields))))
  else
    ret (Send (mkResponse 404
                 (VObj ([ ("success"%string, VBool false);
                          ("message"%string,
                            VStr (js "Cargo não encontrado para exclusão")) ]
                        ++ cargos fields)))).

End WithRuntime.
End CargoControl.

(** Server.js *)
Module Server.

(** [error.httpCode], [error.error] and [error.code] *)
Definition httpCode (e : JsError) : Z :=
  match e with
  | ErrorResponse c _ _ => c
  | _ => 0
  end.

Definition error_detail (e : JsError) : jsval :=
  match e with
  | ErrorResponse _ _ d => VObj [ ("message"%string, VStr d) ]
  | _ => VUndefined
  end.

Definition error_code (e : JsError) : jsval :=
  match e with
  | Error _ (Some c) => VStr (js c)
  | _ => VUndefined
  end.

(** The error-handling middleware registered by [setupErrorMiddleware].
    The [data.stack] member of the generic answer, a rendering of the call
    stack, is left out, and so is the call of the absent [Logger]. *)
Definition errorHandler (error : JsError) : M Response :=
  if instanceof_ErrorResponse error then
    console_log "Server.errorHandler()" ;;
    ret (mkResponse (httpCode error)
           (VObj [ ("success"%string, VBool false);
                   ("message"%string, VStr (error_message error));
                   ("error"%string, error_detail error) ]))
  else
    let resposta :=
      VObj [ ("success"%string, VBool false);
             ("message"%string, VStr (js "Ocorreu um erro interno no servidor"));
             ("error"%string,
               VObj [ ("message"%string,
                        or_else (VStr (error_message error))
                          (VStr (js "Erro interno")));
                      ("code"%string, error_code error) ]) ] in
    console_log "Erro capturado" ;;
    ret (mkResponse 500 resposta).

(** The handlers registered for one route, run the way Express runs them:
    each one first, the next only when it calls [next()]; whatever is
    thrown on the way goes to [errorHandler]. A route whose handlers all
    call [next()] gets the framework's 404. *)
Fixpoint run (handlers : list Handler) (request : Request) : M Response :=
  match handlers with
  | [] => ret (mkResponse 404 VUndefined)
  | handler :: rest =>
      step <- handler request ;;
      match step with
      | Next request' => run rest request'
      | Send response => ret response
      end
  end.

Definition serve (handlers : list Handler) (request : Request) : M Response :=
  try_catch (run handlers request) errorHandler.

End Server.

Inductive Method : Type := GET | POST | PUT | DELETE.

Record Route : Type := mkRoute {
  method : Method;
  path : string;
  handlers : list Handler
}.

(** src/Server.js (second part): FuncionarioRoteador *)
Module FuncionarioRoteador.
Section WithLibraries.
Context {rt : JsRuntime} {bc : Bcrypt} {jwt : MeuTokenJWT}.

Definition createRoutes : list Route :=
  [ mkRoute POST "/login"
      [ FuncionarioMiddleware.validateLoginBody; FuncionarioControl.login ];
    mkRoute POST "/"
      [ JwtMiddleware.validateToken; FuncionarioMiddleware.validateCreateBody;
        FuncionarioControl.store ];
    mkRoute PUT "/:idFuncionario"
      [ JwtMiddleware.validateToken; FuncionarioMiddleware.validateIdParam;
        FuncionarioMiddleware.validateCreateBody; FuncionarioControl.update ];
    mkRoute DELETE "/:idFuncionario"
      [ JwtMiddleware.validateToken; FuncionarioMiddleware.validateIdParam;
        FuncionarioControl.destroy ];
    mkRoute GET "/"
      [ JwtMiddleware.validateToken; FuncionarioControl.index ];
    mkRoute GET "/:idFuncionario"
      [ JwtMiddleware.validateToken; FuncionarioMiddleware.validateIdParam;
        FuncionarioControl.show ] ].

End WithLibraries.
End FuncionarioRoteador.

(** api/routes/CargoRoteador.js *)
Module CargoRoteador.
Section WithLibraries.
Context {rt : JsRuntime} {jwt : MeuTokenJWT}.

Definition createRoutes : list Route :=
  [ mkRoute POST "/"
      [ JwtMiddleware.validateToken; CargoMiddleware.validateBody;
        CargoControl.store ];
    mkRoute GET "/"
      [ JwtMiddleware.validateToken; CargoControl.index ];
    mkRoute GET "/:idCargo"
      [ JwtMiddleware.validateToken; CargoMiddleware.validateIdParam;
        CargoControl.show ];
    mkRoute PUT "/:idCargo"
      [ JwtMiddleware.validateToken; CargoMiddleware.validateIdParam;
        CargoMiddleware.validateBody; CargoControl.update ];
    mkRoute DELETE "/:idCargo"
      [ JwtMiddleware.validateToken; CargoMiddleware.validateIdParam;
        CargoControl.destroy ] ].

End WithLibraries.
End CargoRoteador.

(* ================================================================== *)
(** ** A runtime, a hash and a token service to run the code on *)
(* ================================================================== *)

(** The statements below quantify over every [JsRuntime], [Bcrypt] and
    [MeuTokenJWT]. To evaluate the code on concrete requests this module
    fixes one of each. *)
Module Sample.

Fixpoint digits_fuel (fuel : nat) (n : N) (acc : jsstring) : jsstring :=
  match fuel with
  | O => acc
  | S fuel' =>
      let acc' := (48 + n mod 10)%N :: acc in
      if (n / 10 =? 0)%N then acc' else digits_fuel fuel' (n / 10)%N acc'
  end.

(** Decimal digits of [n]. *)
Definition digits (n : N) : jsstring := digits_fuel (S (N.to_nat (N.log2 n))) n [].

Fixpoint number_from (s : jsstring) (acc : N) : option N :=
  match s with
  | [] => Some acc
  | c :: s' =>
      if FuncionarioModel.digit c then number_from s' (acc * 10 + (c - 48))%N
      else None
  end.

(** The number a non-empty string of decimal digits denotes. *)
Definition number_of (s : jsstring) : option N :=
  match s with
  | [] => None
  | _ => number_from s 0%N
  end.

Fixpoint split_from (sep : N) (s : jsstring) (piece : jsstring) : list jsstring :=
  match s with
  | [] => [rev piece]
  | c :: s' =>
      if (c =? sep)%N then rev piece :: split_from sep s' []
      else split_from sep s' (c :: piece)
  end.

(** [s.split(sep)] for a separator of one code unit. *)
Definition split (sep : N) (s : jsstring) : list jsstring := split_from sep s [].

(** A runtime that agrees with ECMAScript on the values the examples use:
    blank strings and strings of decimal digits convert to their number,
    integers and the constants print as they do in JavaScript, plain
    objects and class instances print as [[object Object]]. Everything
    else is a placeholder ([NaN], the empty string). *)
Definition StringToNumber (s : jsstring) : jsnum :=
  match trim s with
  | [] => JInt 0
  | t => match number_of t with Some n => JInt (Z.of_N n) | None => JNaN end
  end.

Definition ObjectToString (v : jsval) : jsstring :=
  match v with
  | VUndefined => js "undefined"
  | VNull => js "null"
  | VBool true => js "true"
  | VBool false => js "false"
  | VNum (JInt z) =>
      if z <? 0 then 45%N :: digits (Z.to_N (- z)) else digits (Z.to_N z)
  | VNum JNaN => js "NaN"
  | VNum (JInf true) => js "-Infinity"
  | VNum (JInf false) => js "Infinity"
  | VStr s => s
  | VObj _ | VCargo _ => js "[object Object]"
  | VPromise _ => js "[object Promise]"
  | VNum (JFrac _) | VArr _ => []
  end.

Definition parseInt (v : jsval) : jsnum :=
  match v with
  | VNum (JInt z) => JInt z
  | VStr s => match number_of s with Some n => JInt (Z.of_N n) | None => JNaN end
  | _ => JNaN
  end.

Definition runtime : JsRuntime :=
  Build_JsRuntime StringToNumber ObjectToString parseInt.

(** Modelled from the spec: the hash interface, [hash(plaintext) -> digest]
    and [compare(plaintext, digest) -> bool] (bcrypt is an external library).
    The digest has the layout of a bcrypt digest, [$2b$rounds$salt$checksum];
    the checksum is a polynomial hash, not a cryptographic one. *)
Definition checksum (salt : N) (data : jsstring) : N :=
  fold_left (fun acc c => ((acc * 31 + c + salt) mod 4294967296)%N) data 7%N.

Definition bcrypt_hash (salt : nat) (data : jsstring) (rounds : Z) : jsstring :=
  js "$2b$" ++ digits (Z.to_N rounds) ++ js "$" ++ digits (N.of_nat salt)
    ++ js "$H" ++ digits (checksum (N.of_nat salt) data).

Definition bcrypt_compare (data encrypted : jsstring) : bool :=
  match split 36 encrypted with
  | [ _; _; rounds; salt; _ ] =>
      match number_of rounds, number_of salt with
      | Some r, Some n =>
          jsstring_eqb encrypted (bcrypt_hash (N.to_nat n) data (Z.of_N r))
      | _, _ => false
      end
  | _ => false
  end.

Definition bcrypt : Bcrypt := Build_Bcrypt bcrypt_hash bcrypt_compare.

(** Modelled from the spec: the token service (api/http/MeuTokenJWT.js is
    absent). A token carries an expiry, the claims [email], [role] and
    [name], and a signature under the server's secret; it is valid for one
    hour. [validarToken] expects [Bearer <token>] and answers [false] when
    the header is absent or malformed, when the signature does not match
    and when the token has expired; it never throws. Fields are separated
    by code unit 0 and the signature is the checksum above. *)
Definition secret : N := 424242.
Definition window : Z := 3600.

Definition claim (claims : jsval) (k : string) : jsstring :=
  match claims with
  | VObj fields => match lookup k fields with VStr s => s | _ => [] end
  | _ => []
  end.

Definition gerarToken (time : Z) (claims : jsval) : jsstring :=
  let unsigned :=
    digits (Z.to_N (time + window)) ++ [0%N] ++ claim claims "email"
      ++ [0%N] ++ claim claims "role" ++ [0%N] ++ claim claims "name" in
  unsigned ++ [0%N] ++ digits (checksum secret unsigned).

Definition decode (time : Z) (authorization : jsval) : option jsval :=
  match authorization with
  | VStr header =>
      match Mysql.strip_prefix (js "Bearer ") header with
      | Some token =>
          match split 0 token with
          | [ exp; email; role; name; signature ] =>
              let unsigned :=
                exp ++ [0%N] ++ email ++ [0%N] ++ role ++ [0%N] ++ name in
              match number_of exp with
              | Some e =>
                  if jsstring_eqb signature (digits (checksum secret unsigned))
                     && (time <? Z.of_N e)
                  then Some (VObj [ ("email"%string, VStr email);
                                    ("role"%string, VStr role);
                                    ("name"%string, VStr name) ])
                  else None
              | None => None
              end
          | _ => None
          end
      | None => None
      end
  | _ => None
  end.

Definition validarToken (time : Z) (authorization : jsval) : jsval :=
  match decode time authorization with
  | Some _ => VBool true
  | None => VBool false
  end.

Definition payload (time : Z) (authorization : jsval) : jsval :=
  match decode time authorization with
  | Some claims => claims
  | None => VUndefined
  end.

Definition token : MeuTokenJWT := Build_MeuTokenJWT validarToken payload gerarToken.

(** A world to start from: the rows of docs/Banco.sql, at time 1000. *)
Definition world : World := mkWorld Mysql.Banco 1000 0.

(** The creation payload of the README, with a role that does not exist. *)
Definition john (idCargo : Z) : jsval :=
  VObj [ ("nomeFuncionario"%string, VStr (js "John Smith"));
         ("email"%string, VStr (js "john@x.com"));
         ("senha"%string, VStr (js "Pass@123"));
         ("recebeValeTransporte"%string, VNum (JInt 1));
         ("cargo"%string, VObj [ ("idCargo"%string, VNum (JInt idCargo)) ]) ].


(** The body of an update request without the employee's name. *)
Definition update_without_name : jsval :=
  VObj [ ("funcionario"%string,
           VObj [ ("email"%string, VStr (js "john@x.com"));
                  ("senha"%string, VStr (js "Pass@123"));
                  ("recebeValeTransporte"%string, VNum (JInt 1));
                  ("cargo"%string, VObj [ ("idCargo"%string, VNum (JInt 1)) ]) ]) ].

(** Login attempts for John with another password, and claims to sign. *)
Definition wrong_login : jsval :=
  VObj [ ("email"%string, VStr (js "john@x.com"));
         ("senha"%string, VStr (js "Wrong@123")) ].

Definition claims : jsval :=
  VObj [ ("email"%string, VStr (js "john@x.com"));
         ("role"%string, VStr (js "Administrador"));
         ("name"%string, VStr (js "John Smith")) ].

(** A request carrying the token signed at time [issued]. *)
Definition request_with_token (issued : Z) (body : jsval) : Request :=
  mkRequest (VStr (js "Bearer " ++ gerarToken issued claims)) body (VObj []).

(** The world after John was created with the first role. *)
Definition world_with_john : World :=
  snd (fst (@FuncionarioService.createFuncionario runtime bcrypt (john 1) world)).

End Sample.

(* ================================================================== *)
(** ** Vocabulary of the statements *)
(* ================================================================== *)

(** The three components of a run. *)
Definition outcome {A} (r : Outcome A * World * list Event) : Outcome A := fst (fst r).
Definition after {A} (r : Outcome A * World * list Event) : World := snd (fst r).
Definition events {A} (r : Outcome A * World * list Event) : list Event := snd r.

(** The password rule of the data model: at least six characters, with a
    digit, an uppercase letter and a symbol of the special-character set. *)
Definition password_policy (s : jsstring) : Prop :=
  6 <= strlen s
  /\ (exists c, In c s /\ FuncionarioModel.digit c = true)
  /\ (exists c, In c s /\ FuncionarioModel.upper c = true)
  /\ (exists c, In c s /\ FuncionarioModel.special c = true).

(** The shape [local@domain.tld]: three non-empty runs free of white space
    and [@], separated by [@] and by a dot. *)
Definition email_shape (s : jsstring) : Prop :=
  exists a b c,
    s = a ++ [64%N] ++ b ++ [46%N] ++ c
    /\ a <> [] /\ b <> [] /\ c <> []
    /\ forallb FuncionarioModel.not_space_or_at (a ++ b ++ c) = true.

(** An assignment to a field of a value object. *)
Inductive Assignment : Type :=
| Set_idCargo (this : Cargo) (value : jsval)
| Set_nomeCargo (this : Cargo) (value : jsval)
| Set_idFuncionario (this : Funcionario) (value : jsval)
| Set_cargo (this : Funcionario) (value : jsval)
| Set_nomeFuncionario (this : Funcionario) (value : jsval)
| Set_email (this : Funcionario) (value : jsval)
| Set_senha (this : Funcionario) (value : jsval)
| Set_recebeValeTransporte (this : Funcionario) (value : jsval).

Section Assignments.
Context {rt : JsRuntime}.

Definition raised {A} (o : Outcome A) : option JsError :=
  match o with
  | Ok _ => None
  | Throw e => Some e
  end.

(** What the setter throws, if it throws. *)
Definition thrown (a : Assignment) : option JsError :=
  match a with
  | Set_idCargo this v => raised (CargoModel.set_idCargo this v)
  | Set_nomeCargo this v => raised (CargoModel.set_nomeCargo this v)
  | Set_idFuncionario this v => raised (FuncionarioModel.set_idFuncionario this v)
  | Set_cargo this v => raised (FuncionarioModel.set_cargo this v)
  | Set_nomeFuncionario this v => raised (FuncionarioModel.set_nomeFuncionario this v)
  | Set_email this v => raised (FuncionarioModel.set_email this v)
  | Set_senha this v => raised (FuncionarioModel.set_senha this v)
  | Set_recebeValeTransporte this v =>
      raised (FuncionarioModel.set_recebeValeTransporte this v)
  end.

Definition positive_id (v : jsval) : Prop := exists z, Number v = JInt z /\ 0 < z.

Definition string_with (P : jsstring -> Prop) (v : jsval) : Prop :=
  exists s, v = VStr s /\ P (trim s).

(** The domain invariants of the data model, field by field. *)
Definition invariant (a : Assignment) : Prop :=
  match a with
  | Set_idCargo _ v | Set_idFuncionario _ v => positive_id v
  | Set_nomeCargo _ v => string_with (fun s => 3 <= strlen s <= 64) v
  | Set_nomeFuncionario _ v => string_with (fun s => 3 <= strlen s) v
  | Set_email _ v => string_with email_shape v
  | Set_senha _ v => string_with password_policy v
  | Set_recebeValeTransporte _ v => v = VNum (JInt 0) \/ v = VNum (JInt 1)
  | Set_cargo _ v => exists c, v = VCargo c
  end.

End Assignments.

(** A creation or update payload and the values it carries. *)
Definition carries (json : jsval) (nome email senha : jsstring)
  (vale idCargo : jsval) : Prop :=
  get json "nomeFuncionario" = Ok (VStr nome)
  /\ get json "email" = Ok (VStr email)
  /\ get json "senha" = Ok (VStr senha)
  /\ get json "recebeValeTransporte" = Ok vale
  /\ exists c, get json "cargo" = Ok c /\ get c "idCargo" = Ok idCargo.

(** The values satisfy the invariants of their fields. *)
Definition well_formed {rt : JsRuntime} (nome email senha : jsstring)
  (vale idCargo : jsval) : Prop :=
  3 <= strlen (trim nome)
  /\ email_shape (trim email)
  /\ password_policy (trim senha)
  /\ (vale = VNum (JInt 0) \/ vale = VNum (JInt 1))
  /\ positive_id idCargo.

(** The employee object the services build from such a payload. *)
Definition built {rt : JsRuntime} (id : option jsnum) (nome email senha : jsstring)
  (vale idCargo : jsval) : Funcionario :=
  mkFuncionario id (Some (mkCargo (Some (Number idCargo)) None))
    (Some (trim nome)) (Some (trim email)) (Some (trim senha)) (Some vale).

Definition email_registered (db : Mysql.Store) (email : jsstring) : bool :=
  existsb (fun f => jsstring_eqb (Mysql.col_email f) email) (Mysql.funcionario db).

Definition conflict_cargo (nome : jsstring) : JsError :=
  ErrorResponse 400 (js "Cargo já existe")
    (js "O cargo " ++ nome ++ js " já existe").

Definition conflict_email (email : jsstring) : JsError :=
  ErrorResponse 400 (js "´Já existe um Funcionário com o email fornecido")
    (js "O email " ++ email ++ js " já está cadastrado").

(** The statement executed is one of the two inserts. *)
Definition is_insert (ev : Event) : bool :=
  match ev with
  | Execute sql _ =>
      jsstring_eqb sql Sql.cargo_create || jsstring_eqb sql Sql.funcionario_create
  | _ => false
  end.

(** What [createCargo] does up to its lookup by name, and what
    [createFuncionario] does up to its lookup by e-mail. *)
Definition select_nomeCargo_events (nome : jsstring) : list Event :=
  [ Log "CargoService.createCargo()"; Log "CargoDAO.findByField()";
    Execute (Sql.cargo_findByField (js "nomeCargo")) [VStr nome] ].

Definition select_email_events (idCargo : jsval) (email : jsstring) : list Event :=
  [ Log "FuncionarioService.createFuncionario()"; Log "CargoDAO.findByField()";
    Execute (Sql.cargo_findByField (js "idCargo")) [idCargo];
    Log "FuncionarioDAO.findByField()";
    Execute (Sql.funcionario_findByField (js "email")) [VStr email] ].

(** The error of a failed login. *)
Definition unauthorized : JsError :=
  ErrorResponse 401 (js "Usuário ou senha inválidos")
    (js "Não foi possível realizar autenticação").

(** Login credentials that pass the value object. *)
Definition credentials (json : jsval) (email senha : jsstring) : Prop :=
  get json "email" = Ok (VStr email)
  /\ get json "senha" = Ok (VStr senha)
  /\ email_shape (trim email)
  /\ password_policy (trim senha).

(** The rows the login query returns for an address. *)
Definition matching (db : Mysql.Store) (email : jsstring) : list jsval :=
  Mysql.joined true db (fun f => jsstring_eqb (Mysql.col_email f) email).

(** Exactly one employee has the address, and the password is not the one
    its digest was made from. *)
Definition wrong_password {bc : Bcrypt} (db : Mysql.Store) (email senha : jsstring)
  : Prop :=
  exists f c,
    matching db email = [Mysql.joined_object true f c]
    /\ bcrypt_compare senha (Mysql.col_senha f) = false.

(** A login request carrying [json]. *)
Definition login_request (json : jsval) : Request :=
  mkRequest VUndefined (VObj [ ("funcionario"%string, json) ]) (VObj []).

(** The parameters of the update that writes every column of an
    employee, the digest of the password among them. *)
Definition update_params {rt : JsRuntime} {bc : Bcrypt} (w : World)
  (id : jsval) (nome email senha : jsstring) (vale idCargo : jsval) : list jsval :=
  [ VStr (trim nome); VStr (trim email);
    VStr (bcrypt_hash (entropy w) (trim senha) 12); vale;
    VNum (Number idCargo); VNum (Number id) ].

(** A payload from which the member [k] is absent. *)
Definition omits (json : jsval) (k : string) : Prop := get json k = Ok VUndefined.

(** Every route of the two routers but the login is registered behind the
    token check. *)
Definition protected (r : Route) : bool :=
  match method r with
  | POST => negb (String.eqb (path r) "/login")
  | _ => true
  end.

(** What the token check answers to a request it refuses. *)
Definition token_refused : Response :=
  mkResponse 401
    (VObj [ ("status"%string, VBool false);
            ("msg"%string, VStr (js "token inválido")) ]).



(* ================================================================== *)
(** ** Vocabulary of the further properties *)
(* ================================================================== *)

(** A string that does not begin with white space. *)
Definition starts_clean (s : jsstring) : Prop :=
  match s with
  | [] => True
  | c :: _ => is_js_space c = false
  end.

(** A member that is neither [undefined], [null] nor the empty string. *)
Definition present (v : jsval) : Prop :=
  v <> VUndefined /\ v <> VNull /\ v <> VStr [].

(** The employee payloads the body check of the creation and update routes
    lets through: an object with the three texts present, the commute flag
    the number 0 or 1, and a role whose [idCargo] is a positive integer. *)
Definition creation_payload (funcionario : jsval) : Prop :=
  exists fields z,
    funcionario = VObj fields
    /\ present (lookup "nomeFuncionario" fields)
    /\ present (lookup "email" fields)
    /\ present (lookup "senha" fields)
    /\ (lookup "recebeValeTransporte" fields = VNum (JInt 0)
        \/ lookup "recebeValeTransporte" fields = VNum (JInt 1))
    /\ get (lookup "cargo" fields) "idCargo" = Ok (VNum (JInt z))
    /\ 0 < z.

(** What a run does besides writing to the console: the statements it
    executes and its calls of the hash and token libraries, in order. *)
Definition is_log (ev : Event) : bool :=
  match ev with
  | Log _ => true
  | _ => false
  end.

Definition effects (t : list Event) : list Event :=
  filter (fun ev => negb (is_log ev)) t.

(** An employee of the listing, as [findAll] builds it from a row of the
    join: the role is nested and the password column is not copied. *)
Definition listing (f : Mysql.funcionario_row) (c : Mysql.cargo_row) : jsval :=
  VObj [ ("idFuncionario"%string, VNum (JInt (Mysql.col_idFuncionario f)));
         ("nomeFuncionario"%string, VStr (Mysql.col_nomeFuncionario f));
         ("email"%string, VStr (Mysql.col_email f));
         ("recebeValeTransporte"%string,
           VNum (JInt (Mysql.col_recebeValeTransporte f)));
         ("cargo"%string,
           VObj [ ("idCargo"%string, VNum (JInt (Mysql.col_idCargo c)));
                  ("nomeCargo"%string, VStr (Mysql.col_nomeCargo c)) ]) ].

(** The roles an employee row refers to. *)
Definition roles_of (db : Mysql.Store) (f : Mysql.funcionario_row)
  : list Mysql.cargo_row :=
  filter (fun c => Mysql.col_idCargo c =? Mysql.col_Cargo_idCargo f) (Mysql.cargo db).

(** Rows that satisfy the invariants of the data model. *)
Definition valid_role (c : Mysql.cargo_row) : Prop :=
  0 < Mysql.col_idCargo c /\ 3 <= strlen (trim (Mysql.col_nomeCargo c)) <= 64.

Definition valid_employee (f : Mysql.funcionario_row) : Prop :=
  0 < Mysql.col_idFuncionario f
  /\ 3 <= strlen (trim (Mysql.col_nomeFuncionario f))
  /\ email_shape (trim (Mysql.col_email f))
  /\ (Mysql.col_recebeValeTransporte f = 0 \/ Mysql.col_recebeValeTransporte f = 1).

(** What a login answers for the employee row [f] with the role [c]: the
    claims, and the token that signs them. *)
Definition login_claims (f : Mysql.funcionario_row) (c : Mysql.cargo_row) : jsval :=
  VObj [ ("email"%string, VStr (trim (Mysql.col_email f)));
         ("role"%string, VStr (trim (Mysql.col_nomeCargo c)));
         ("name"%string, VStr (trim (Mysql.col_nomeFuncionario f)));
         ("idFuncionario"%string, VNum (JInt (Mysql.col_idFuncionario f))) ].

Definition login_answer {jwt : MeuTokenJWT} (time : Z)
  (f : Mysql.funcionario_row) (c : Mysql.cargo_row) : jsval :=
  VObj [ ("user"%string, VObj [ ("funcionario"%string, login_claims f c) ]);
         ("token"%string, VStr (gerarToken time (login_claims f c))) ].

(** The role ids in use lie below the next id generated. *)
Definition fresh_role_ids (db : Mysql.Store) : Prop :=
  0 < Mysql.cargo_AUTO_INCREMENT db
  /\ Forall (fun c => Mysql.col_idCargo c < Mysql.cargo_AUTO_INCREMENT db)
       (Mysql.cargo db).

(** Requests and worlds to run the controllers on. *)
Module Cases.

(** A request without a token, as a controller sees it behind the checks. *)
Definition request (body params : jsval) : Request :=
  mkRequest VUndefined body params.

(** The route parameter [k] with the text [v]. *)
Definition param (k v : string) : jsval := VObj [ (k, VStr (js v)) ].

(** A login body. *)
Definition login (email senha : string) : jsval :=
  VObj [ ("email"%string, VStr (js email)); ("senha"%string, VStr (js senha)) ].

(** A role body; the name is sent with blanks around it. *)
Definition gerente : jsval := VObj [ ("nomeCargo"%string, VStr (js "  Gerente ")) ].

(** A second employee, and the store after John and she were created and
    her address was then updated to John's: the update route checks no
    address against the others. *)
Definition mary (email : string) : jsval :=
  VObj [ ("nomeFuncionario"%string, VStr (js "Mary Jones"));
         ("email"%string, VStr (js email));
         ("senha"%string, VStr (js "Word#456"));
         ("recebeValeTransporte"%string, VNum (JInt 0));
         ("cargo"%string, VObj [ ("idCargo"%string, VNum (JInt 2)) ]) ].

Definition world_with_mary : World :=
  snd (fst (@FuncionarioService.createFuncionario Sample.runtime Sample.bcrypt
              (mary "mary@x.com") Sample.world_with_john)).

Definition world_with_twins : World :=
  snd (fst (@FuncionarioService.updateFuncionario Sample.runtime Sample.bcrypt
              (VNum (JInt 4))
              (VObj [ ("funcionario"%string, mary "john@x.com") ])
              world_with_mary)).

(** A hash library whose digests are lower-case hexadecimal text; it
    stands for the digests of bcrypt that hold no upper-case letter. *)
Definition plain_hash (salt : nat) (data : jsstring) (rounds : Z) : jsstring :=
  js "$2b$12$0f3a9c51e7".

Definition plain_bcrypt : Bcrypt := Build_Bcrypt plain_hash (fun _ _ => false).

End Cases.

(* ================================================================== *)
(** * Properties *)
(* ================================================================== *)

(** ** The matcher against the declarative reading of patterns *)

Section RegExpFacts.

Lemma Matches_nil_nullable r : Matches r [] -> nullable r = true.
Proof.
  intros H. remember [] as s eqn:Es. induction H; simpl; try reflexivity;
    try discriminate.
  - apply app_eq_nil in Es as [-> ->].
    rewrite IHMatches1, IHMatches2; reflexivity.
  - rewrite IHMatches by assumption. reflexivity.
  - rewrite IHMatches by assumption. apply orb_true_r.
Qed.

Lemma nullable_Matches_nil r : nullable r = true -> Matches r [].
Proof.
  induction r; simpl; intros H; try discriminate.
  - constructor.
  - apply andb_true_iff in H as [H1 H2].
    change (@nil N) with (@nil N ++ []). constructor; auto.
  - apply orb_true_iff in H as [H | H]; [apply MAltL | apply MAltR]; auto.
  - constructor.
Qed.

Lemma Star_cons_inv r c s :
  Matches (Star r) (c :: s) ->
  exists s1 s2, s = s1 ++ s2 /\ Matches r (c :: s1) /\ Matches (Star r) s2.
Proof.
  intros H. remember (Star r) as r' eqn:Er. remember (c :: s) as t eqn:Et.
  revert s Et. induction H as [| | | | | | r0 u1 u2 H1 _ H2 IH2];
    intros s0 Et; try discriminate.
  inversion Er; subst r0. destruct u1 as [| c1 u1'].
  - simpl in Et. apply IH2; auto.
  - simpl in Et. inversion Et; subst. exists u1', u2. auto.
Qed.

Lemma deriv_sound c r s : Matches (deriv c r) s -> Matches r (c :: s).
Proof.
  revert s. induction r; simpl; intros s H.
  - inversion H.
  - inversion H.
  - destruct (p c) eqn:Ep; inversion H; subst. constructor; assumption.
  - destruct (nullable r1) eqn:En.
    + inversion H as [| | | ? ? ? H' | ? ? ? H' | |]; subst.
      * inversion H'; subst.
        change (c :: s1 ++ s2) with ((c :: s1) ++ s2). constructor; auto.
      * change (c :: s) with ([] ++ c :: s).
        constructor; auto using nullable_Matches_nil.
    + inversion H; subst.
      change (c :: s1 ++ s2) with ((c :: s1) ++ s2). constructor; auto.
  - inversion H; subst; [apply MAltL | apply MAltR]; auto.
  - inversion H; subst.
    change (c :: s1 ++ s2) with ((c :: s1) ++ s2). constructor; auto.
Qed.

Lemma deriv_complete c r s : Matches r (c :: s) -> Matches (deriv c r) s.
Proof.
  revert s. induction r; simpl; intros s H.
  - inversion H.
  - inversion H.
  - inversion H as [| ? ? Hp | | | | |]; subst. rewrite Hp. constructor.
  - remember (c :: s) as t eqn:Et.
    inversion H as [| | ? ? s1 s2 H1 H2 | | | |]; subst.
    destruct s1 as [| c1 s1'].
    + simpl in *; subst s2. rewrite (Matches_nil_nullable H1).
      apply MAltR. auto.
    + match goal with E : _ ++ _ = _ :: _ |- _ => simpl in E; inversion E; subst end.
      destruct (nullable r1); [apply MAltL |]; constructor; auto.
  - inversion H; subst; [apply MAltL | apply MAltR]; auto.
  - apply Star_cons_inv in H as (s1 & s2 & -> & H1 & H2).
    constructor; auto.
Qed.

Lemma accepts_Matches r s : accepts r s = true <-> Matches r s.
Proof.
  revert r. induction s as [| c s IH]; intros r; simpl.
  - split; [apply nullable_Matches_nil | apply Matches_nil_nullable].
  - rewrite IH. split; [apply deriv_sound | apply deriv_complete].
Qed.

Lemma Matches_any_star s : Matches (Star anychar) s.
Proof.
  induction s as [| c s IH].
  - constructor.
  - change (c :: s) with ([c] ++ s). constructor; [constructor; reflexivity | exact IH].
Qed.

(** An unanchored test of a one-character class finds a member of the
    class somewhere in the string. *)
Lemma search_Chr p s : search (Chr p) s = existsb p s.
Proof.
  apply eq_true_iff_eq. unfold search. rewrite accepts_Matches, existsb_exists.
  split.
  - intros H. inversion H as [| | ? ? s1 s23 _ H23 | | | |]; subst.
    inversion H23 as [| | ? ? s2 s3 H2 _ | | | |]; subst.
    inversion H2; subst. exists c. split; [| assumption].
    apply in_or_app. right. left. reflexivity.
  - intros (c & Hin & Hp). apply in_split in Hin as (s1 & s2 & ->).
    constructor; [apply Matches_any_star |].
    change (c :: s2) with ([c] ++ s2).
    constructor; [constructor; assumption | apply Matches_any_star].
Qed.

End RegExpFacts.

(** ** The value objects *)

Section ValueObjects.
Context {rt : JsRuntime}.

Lemma jsstring_eqb_eq a b : jsstring_eqb a b = true <-> a = b.
Proof.
  revert b. induction a as [| x a IH]; destruct b as [| y b]; simpl;
    try (split; [discriminate | congruence]); try tauto.
  rewrite andb_true_iff, N.eqb_eq, IH. split.
  - intros [-> ->]; reflexivity.
  - intros E; inversion E; auto.
Qed.

Lemma jsstring_eqb_refl a : jsstring_eqb a a = true.
Proof. apply jsstring_eqb_eq; reflexivity. Qed.

Lemma Matches_Star_Chr p s : Matches (Star (Chr p)) s <-> forallb p s = true.
Proof.
  split.
  - intros H. remember (Star (Chr p)) as r eqn:Er.
    induction H as [| | | | | | r0 u1 u2 H1 _ _ IH2]; try discriminate.
    + reflexivity.
    + inversion Er; subst r0. inversion H1 as [| ? c Hp | | | | |]; subst.
      simpl. rewrite Hp. auto.
  - induction s as [| c s IH]; simpl; intros H.
    + constructor.
    + apply andb_true_iff in H as [Hc Hs].
      change (c :: s) with ([c] ++ s). constructor; [constructor |]; auto.
Qed.

Lemma Matches_Plus_Chr p s :
  Matches (Plus (Chr p)) s <-> s <> [] /\ forallb p s = true.
Proof.
  unfold Plus. split.
  - intros H. inversion H as [| | ? ? s1 s2 H1 H2 | | | |]; subst.
    inversion H1 as [| ? c Hp | | | | |]; subst. split; [discriminate |].
    simpl. rewrite Hp. apply Matches_Star_Chr; assumption.
  - intros [Hne H]. destruct s as [| c s]; [congruence |]. simpl in H.
    apply andb_true_iff in H as [Hc Hs].
    change (c :: s) with ([c] ++ s).
    constructor; [constructor | apply Matches_Star_Chr]; assumption.
Qed.

Lemma Matches_char c s : Matches (Chr (N.eqb c)) s <-> s = [c].
Proof.
  split.
  - intros H. inversion H as [| ? d Hp | | | | |]; subst.
    apply N.eqb_eq in Hp. subst; reflexivity.
  - intros ->. constructor. apply N.eqb_refl.
Qed.

(** The e-mail pattern accepts exactly the strings of the shape
    [local@domain.tld]. *)
Lemma emailRegex_shape s :
  accepts FuncionarioModel.emailRegex s = true <-> email_shape s.
Proof.
  rewrite accepts_Matches. unfold FuncionarioModel.emailRegex, email_shape. split.
  - intros H.
    inversion H as [| | ? ? a r1 Ha H1 | | | |]; subst.
    inversion H1 as [| | ? ? at_ r2 Hat H2 | | | |]; subst.
    inversion H2 as [| | ? ? b r3 Hb H3 | | | |]; subst.
    inversion H3 as [| | ? ? dot c Hdot Hc | | | |]; subst.
    apply Matches_char in Hat, Hdot. subst.
    apply Matches_Plus_Chr in Ha as [Ha ?], Hb as [Hb ?], Hc as [Hc ?].
    exists a, b, c. repeat split; auto.
    rewrite !forallb_app. repeat (apply andb_true_iff; split); assumption.
  - intros (a & b & c & -> & Ha & Hb & Hc & Hall).
    rewrite !forallb_app, !andb_true_iff in Hall. destruct Hall as (? & ? & ?).
    repeat (constructor; try (apply Matches_Plus_Chr; split; assumption);
            try apply N.eqb_refl).
Qed.

Lemma password_checks s :
  password_policy s <->
  jsstring_eqb s [] = false /\ (strlen s <? 6) = false
  /\ search (Chr FuncionarioModel.upper) s = true
  /\ search (Chr FuncionarioModel.digit) s = true
  /\ search (Chr FuncionarioModel.special) s = true.
Proof.
  unfold password_policy. rewrite !search_Chr, !existsb_exists, Z.ltb_ge.
  split.
  - intros (Hlen & Hd & Hu & Hs). repeat split; auto.
    destruct s; [unfold strlen in Hlen; simpl in Hlen; lia | reflexivity].
  - intros (_ & Hlen & Hu & Hd & Hs). auto.
Qed.

Lemma password_policy_dec s : password_policy s \/ ~ password_policy s.
Proof.
  rewrite password_checks.
  destruct (jsstring_eqb s []); [right; intros [? _]; discriminate |].
  destruct (strlen s <? 6); [right; intros (_ & ? & _); discriminate |].
  destruct (search (Chr FuncionarioModel.upper) s);
    [| right; intros (_ & _ & ? & _); discriminate].
  destruct (search (Chr FuncionarioModel.digit) s);
    [| right; intros (_ & _ & _ & ? & _); discriminate].
  destruct (search (Chr FuncionarioModel.special) s);
    [| right; intros (_ & _ & _ & _ & ?); discriminate].
  left. auto.
Qed.

Lemma set_senha_accepts this s :
  password_policy (trim s) ->
  FuncionarioModel.set_senha this (VStr s) =
  Ok (mkFuncionario (priv_idFuncionario this) (priv_cargo this)
        (priv_nomeFuncionario this) (priv_email this) (Some (trim s))
        (priv_recebeValeTransporte this)).
Proof.
  intros H. apply password_checks in H as (H1 & H2 & H3 & H4 & H5).
  unfold FuncionarioModel.set_senha. cbv zeta.
  rewrite H1, H2, H3, H4, H5. reflexivity.
Qed.

Lemma set_senha_rejects this s :
  ~ password_policy (trim s) ->
  exists msg, FuncionarioModel.set_senha this (VStr s) = Throw (Error msg None).
Proof.
  intros H. unfold FuncionarioModel.set_senha. cbv zeta.
  destruct (jsstring_eqb (trim s) []) eqn:H1; [eauto |].
  destruct (strlen (trim s) <? 6) eqn:H2; [eauto |].
  destruct (search (Chr FuncionarioModel.upper) (trim s)) eqn:H3; [| simpl; eauto].
  destruct (search (Chr FuncionarioModel.digit) (trim s)) eqn:H4; [| simpl; eauto].
  destruct (search (Chr FuncionarioModel.special) (trim s)) eqn:H5; [| simpl; eauto].
  exfalso. apply H, password_checks. auto.
Qed.




End ValueObjects.

(** ** Running asynchronous code *)

Section Running.

Lemma bind_lift {A B} (o : Outcome A) (k : A -> M B) w :
  bind (lift o) k w =
  match o with
  | Ok a => k a w
  | Throw e => (Throw e, w, [])
  end.
Proof.
  unfold bind, lift. destruct o as [a | e]; [| reflexivity].
  destruct (k a w) as [[o' w'] t']. reflexivity.
Qed.

Lemma bind_ret {A B} (a : A) (k : A -> M B) w : bind (ret a) k w = k a w.
Proof. unfold bind, ret. destruct (k a w) as [[o' w'] t']. reflexivity. Qed.

Lemma bind_throw {A B} (e : JsError) (k : A -> M B) w :
  bind (throw e) k w = (Throw e, w, []).
Proof. reflexivity. Qed.

Lemma bind_emit {B} (ev : Event) (k : unit -> M B) w :
  bind (emit ev) k w = (outcome (k tt w), after (k tt w), ev :: events (k tt w)).
Proof. unfold bind, emit. destruct (k tt w) as [[o' w'] t']. reflexivity. Qed.

Lemma bind_console_log {B} (line : string) (k : unit -> M B) w :
  bind (console_log line) k w =
  (outcome (k tt w), after (k tt w), Log line :: events (k tt w)).
Proof. apply bind_emit. Qed.

Lemma bind_now {B} (k : Z -> M B) w : bind now k w = k (clock w) w.
Proof. unfold bind, now. destruct (k (clock w) w) as [[o' w'] t']. reflexivity. Qed.

Lemma bind_pool_execute {B} sql ps (k : jsval -> M B) w :
  bind (pool_execute sql ps) k w =
  match Mysql.execute sql ps (store w) with
  | (Ok v, db) =>
      let r := k v (mkWorld db (clock w) (entropy w)) in
      (outcome r, after r, Execute sql ps :: events r)
  | (Throw e, db) => (Throw e, mkWorld db (clock w) (entropy w), [Execute sql ps])
  end.
Proof.
  unfold bind, pool_execute.
  destruct (Mysql.execute sql ps (store w)) as [[v | e] db]; [| reflexivity].
  cbv zeta. destruct (k v _) as [[o' w'] t']. reflexivity.
Qed.

Lemma bind_assoc {A B C} (m : M A) (k : A -> M B) (h : B -> M C) w :
  bind (bind m k) h w = bind m (fun a => bind (k a) h) w.
Proof.
  unfold bind. destruct (m w) as [[[a | e] w1] t1]; [| reflexivity].
  destruct (k a w1) as [[[b | e] w2] t2]; [| reflexivity].
  destruct (h b w2) as [[o w3] t3]. rewrite app_assoc. reflexivity.
Qed.

Lemma bind_run {A B} (m : M A) (k : A -> M B) w a w1 t1 :
  m w = (Ok a, w1, t1) ->
  bind m k w = (outcome (k a w1), after (k a w1), t1 ++ events (k a w1)).
Proof.
  intros H. unfold bind. rewrite H. destruct (k a w1) as [[o w2] t2]. reflexivity.
Qed.

Lemma bind_run_throw {A B} (m : M A) (k : A -> M B) w e w1 t1 :
  m w = (Throw e, w1, t1) -> bind m k w = (Throw e, w1, t1).
Proof. intros H. unfold bind. rewrite H. reflexivity. Qed.

End Running.

(** Runs one synchronous step of a computation: either it throws, and the
    goal is about the error, or it returns and the run goes on. *)
Ltac step_lift :=
  rewrite bind_lift;
  match goal with
  | |- context [match ?o with Ok _ => _ | Throw _ => _ end] =>
      let E := fresh "E" in destruct o eqn:E
  end.

Section CreationFailsOnPassword.
Context {rt : JsRuntime} {bc : Bcrypt}.

(** A creation request whose password breaks the rule fails before the
    store is used. *)
Lemma createFuncionario_rejects_senha json s w :
  get json "senha" = Ok (VStr s) ->
  ~ password_policy (trim s) ->
  exists e,
    FuncionarioService.createFuncionario json w =
    (Throw e, w, [Log "FuncionarioService.createFuncionario()"]).
Proof.
  intros Hget Hbad.
  unfold FuncionarioService.createFuncionario. rewrite bind_console_log.
  cbv zeta.
  match goal with
  | |- exists e, (outcome ?r, after ?r, _ :: events ?r) = _ =>
      assert (H : exists e, r = (Throw e, w, []));
      [| destruct H as [e ->]; exists e; reflexivity]
  end.
  do 7 (step_lift; [| eauto]).
  rewrite bind_lift, Hget, bind_lift.
  match goal with
  | |- context [FuncionarioModel.set_senha ?f (VStr s)] =>
      destruct (set_senha_rejects f s Hbad) as [msg' ->]
  end.
  eauto.
Qed.

End CreationFailsOnPassword.

Section DomainInvariants.
Context {rt : JsRuntime}.

Ltac open_setters :=
  unfold CargoModel.set_idCargo, CargoModel.set_nomeCargo,
    FuncionarioModel.set_idFuncionario, FuncionarioModel.set_cargo,
    FuncionarioModel.set_nomeFuncionario, FuncionarioModel.set_email,
    FuncionarioModel.set_senha, FuncionarioModel.set_recebeValeTransporte;
  cbv zeta.

(** Whatever a setter throws is a plain [Error]: the value objects never
    build an [ErrorResponse]. *)
Lemma thrown_plain a e : thrown a = Some e -> exists msg, e = Error msg None.
Proof.
  destruct a as [this v | this v | this v | this v | this v | this v | this v
                | this v]; simpl; open_setters; intros H;
    repeat match type of H with
      | raised (match ?x with _ => _ end) = _ => destruct x
      | raised (if ?c then _ else _) = _ => destruct c
      end; simpl in H; inversion H; eauto.
Qed.

Lemma positive_id_checks v :
  positive_id v <->
  negb (isInteger (Number v)) = false /\ num_le_zero (Number v) = false.
Proof.
  unfold positive_id. destruct (Number v) as [z | q | | b]; simpl.
  - rewrite Z.leb_gt. split.
    + intros (z' & E & Hz). inversion E; subst. auto.
    + intros [_ Hz]. eauto.
  - split; [intros (z & E & _); discriminate | intros [E _]; discriminate].
  - split; [intros (z & E & _); discriminate | intros [E _]; discriminate].
  - split; [intros (z & E & _); discriminate | intros [E _]; discriminate].
Qed.

(** A setter accepts exactly the values that satisfy the invariant of its
    field. *)
Lemma accepted_iff_invariant a : thrown a = None <-> invariant a.
Proof.
  destruct a as [this v | this v | this v | this v | this v | this v | this v
                | this v]; simpl.
  - rewrite positive_id_checks. unfold CargoModel.set_idCargo. cbv zeta.
    destruct (negb (isInteger (Number v))); simpl;
      [split; [discriminate | intros [? _]; discriminate] |].
    destruct (num_le_zero (Number v)); simpl;
      [split; [discriminate | intros [_ ?]; discriminate] | tauto].
  - unfold string_with, CargoModel.set_nomeCargo.
    destruct v; simpl;
      try (split; [discriminate | intros (s0 & E & _); discriminate]).
    cbv zeta. destruct (strlen (trim s) <? 3) eqn:E1; simpl.
    + apply Z.ltb_lt in E1. split; [discriminate |].
      intros (s0 & E & H); inversion E; subst; lia.
    + apply Z.ltb_ge in E1. destruct (strlen (trim s) >? 64) eqn:E2; simpl.
      * apply Z.gtb_lt in E2. split; [discriminate |].
        intros (s0 & E & H); inversion E; subst; lia.
      * split; [| reflexivity]. intros _. exists s. split; [reflexivity |].
        rewrite Z.gtb_ltb in E2. apply Z.ltb_ge in E2. lia.
  - rewrite positive_id_checks. unfold FuncionarioModel.set_idFuncionario.
    cbv zeta.
    destruct (negb (isInteger (Number v))); simpl;
      [split; [discriminate | intros [? _]; discriminate] |].
    destruct (num_le_zero (Number v)); simpl;
      [split; [discriminate | intros [_ ?]; discriminate] | tauto].
  - destruct v; simpl; try (split; [discriminate | intros [c0 E]; discriminate]).
    split; eauto.
  - unfold string_with, FuncionarioModel.set_nomeFuncionario.
    destruct v; simpl;
      try (split; [discriminate | intros (s0 & E & _); discriminate]).
    cbv zeta. destruct (strlen (trim s) <? 3) eqn:E1; simpl.
    + apply Z.ltb_lt in E1. split; [discriminate |].
      intros (s0 & E & H); inversion E; subst; lia.
    + apply Z.ltb_ge in E1. split; [| reflexivity]. eauto.
  - unfold string_with, FuncionarioModel.set_email.
    destruct v; simpl;
      try (split; [discriminate | intros (s0 & E & _); discriminate]).
    cbv zeta. destruct (jsstring_eqb (trim s) []) eqn:E1; simpl.
    + apply jsstring_eqb_eq in E1. split; [discriminate |].
      intros (s0 & E & (a & b & c & Hs & Ha & _)); inversion E; subst s0.
      rewrite E1 in Hs. destruct a; [congruence | discriminate].
    + destruct (accepts FuncionarioModel.emailRegex (trim s)) eqn:E2; simpl.
      * apply emailRegex_shape in E2. split; [eauto | reflexivity].
      * split; [discriminate |]. intros (s0 & E & H); inversion E; subst s0.
        apply emailRegex_shape in H. congruence.
  - unfold string_with.
    destruct v;
      try (simpl; split; [discriminate | intros (s0 & E & _); discriminate]).
    split.
    + intros H. exists s. split; [reflexivity |].
      destruct (password_policy_dec (trim s)) as [Hp | Hn]; [assumption |].
      destruct (set_senha_rejects this s Hn) as [msg Hm].
      rewrite Hm in H. discriminate.
    + intros (s0 & E & H); inversion E; subst s0.
      rewrite (set_senha_accepts this s H). reflexivity.
  - unfold FuncionarioModel.set_recebeValeTransporte.
    destruct v as [| | | [[| [| |] |] | | |] | | | | |]; simpl;
      try tauto;
      try (split; [discriminate | intros [E | E]; discriminate]).
Qed.

End DomainInvariants.

Section Responder.

(** The error responder answers 500 with its fixed message to every error
    that is not an [ErrorResponse], and the error's own code to one that
    is. *)
Lemma errorHandler_internal e w :
  instanceof_ErrorResponse e = false ->
  exists sent,
    Server.errorHandler e w = (Ok (mkResponse 500 sent), w, [Log "Erro capturado"])
    /\ lookup "message" match sent with VObj fs => fs | _ => [] end
       = VStr (js "Ocorreu um erro interno no servidor").
Proof.
  intros H. unfold Server.errorHandler. rewrite H. cbv zeta.
  rewrite bind_console_log. simpl. eexists. split; reflexivity.
Qed.

Lemma errorHandler_ErrorResponse c m d w :
  Server.errorHandler (ErrorResponse c m d) w =
  (Ok (mkResponse c
         (VObj [ ("success"%string, VBool false); ("message"%string, VStr m);
                 ("error"%string, VObj [ ("message"%string, VStr d) ]) ])),
   w, [Log "Server.errorHandler()"]).
Proof. reflexivity. Qed.

End Responder.

(** C6. For every candidate password string: the setter accepts it, keeping
    the trimmed string, when the trimmed string has at least six characters
    and contains a digit, an uppercase letter and a symbol of the special
    set; otherwise the setter throws, and a creation request carrying it
    fails before anything is executed on the store. *)
Theorem C6_password_policy {rt : JsRuntime} (this : Funcionario) (s : jsstring) :
  (password_policy (trim s) ->
   FuncionarioModel.set_senha this (VStr s) =
   Ok (mkFuncionario (priv_idFuncionario this) (priv_cargo this)
         (priv_nomeFuncionario this) (priv_email this) (Some (trim s))
         (priv_recebeValeTransporte this)))
  /\ (~ password_policy (trim s) ->
      (exists msg, FuncionarioModel.set_senha this (VStr s) = Throw (Error msg None))
      /\ forall (bc : Bcrypt) json w,
          get json "senha" = Ok (VStr s) ->
          exists e,
            FuncionarioService.createFuncionario json w =
            (Throw e, w, [Log "FuncionarioService.createFuncionario()"])).
Proof.
  split.
  - apply set_senha_accepts.
  - intros H. split.
    + apply set_senha_rejects; assumption.
    + intros bc json w Hget. eapply createFuncionario_rejects_senha; eauto.
Qed.

Lemma C6_password_policy_witness :
  password_policy (trim (js "Pass@123"))
  /\ @FuncionarioModel.set_senha FuncionarioModel.new (VStr (js "Pass@123")) =
     Ok (mkFuncionario None None None None (Some (js "Pass@123")) None).
Proof.
  assert (H : password_policy (trim (js "Pass@123"))).
  { apply password_checks. vm_compute. auto. }
  split; [exact H |].
  exact (proj1 (@C6_password_policy Sample.runtime FuncionarioModel.new
                  (js "Pass@123")) H).
Defined.



(** ** Field-restricted lookup *)

Section FindByField.

Lemma existsb_jsstring field fields :
  existsb (jsstring_eqb field) fields = true <-> In field fields.
Proof.
  rewrite existsb_exists. split.
  - intros (x & Hin & E). apply jsstring_eqb_eq in E. subst. exact Hin.
  - intros H. exists field. split; [exact H | apply jsstring_eqb_refl].
Qed.

Lemma CargoDAO_findByField_refuses field value w :
  ~ In field CargoDAO.allowedFields ->
  CargoDAO.findByField field value w =
  (Throw (Error (js "Campo inválido para busca: " ++ field) None), w,
   [Log "CargoDAO.findByField()"]).
Proof.
  intros H. unfold CargoDAO.findByField. rewrite bind_console_log.
  destruct (existsb (jsstring_eqb field) CargoDAO.allowedFields) eqn:E.
  - apply existsb_jsstring in E. contradiction.
  - reflexivity.
Qed.

Lemma CargoDAO_findByField_runs field value w :
  In field CargoDAO.allowedFields ->
  let r := Mysql.execute (Sql.cargo_findByField field) [value] (store w) in
  CargoDAO.findByField field value w =
  (match fst r with Ok rows => Ok (or_else rows (VArr [])) | Throw e => Throw e end,
   mkWorld (snd r) (clock w) (entropy w),
   [Log "CargoDAO.findByField()"; Execute (Sql.cargo_findByField field) [value]]).
Proof.
  intros H. apply existsb_jsstring in H.
  unfold CargoDAO.findByField. rewrite bind_console_log. cbv beta zeta.
  rewrite H. cbn [negb]. rewrite bind_pool_execute.
  destruct (Mysql.execute (Sql.cargo_findByField field) [value] (store w))
    as [[rows | e] db]; reflexivity.
Qed.

Lemma FuncionarioDAO_findByField_refuses field value w :
  ~ In field FuncionarioDAO.allowedFields ->
  FuncionarioDAO.findByField field value w =
  (Throw (Error (js "Campo inválido para busca") None), w,
   [Log "FuncionarioDAO.findByField()"]).
Proof.
  intros H. unfold FuncionarioDAO.findByField. rewrite bind_console_log.
  destruct (existsb (jsstring_eqb field) FuncionarioDAO.allowedFields) eqn:E.
  - apply existsb_jsstring in E. contradiction.
  - reflexivity.
Qed.

Lemma FuncionarioDAO_findByField_runs field value w :
  In field FuncionarioDAO.allowedFields ->
  let r := Mysql.execute (Sql.funcionario_findByField field) [value] (store w) in
  FuncionarioDAO.findByField field value w =
  (match fst r with Ok rows => Ok (or_else rows (VArr [])) | Throw e => Throw e end,
   mkWorld (snd r) (clock w) (entropy w),
   [Log "FuncionarioDAO.findByField()";
    Execute (Sql.funcionario_findByField field) [value]]).
Proof.
  intros H. apply existsb_jsstring in H.
  unfold FuncionarioDAO.findByField. rewrite bind_console_log. cbv beta zeta.
  rewrite H. cbn [negb]. rewrite bind_pool_execute.
  destruct (Mysql.execute (Sql.funcionario_findByField field) [value] (store w))
    as [[rows | e] db]; reflexivity.
Qed.

Lemma In_dec_jsstring (field : jsstring) fields :
  In field fields \/ ~ In field fields.
Proof.
  destruct (existsb (jsstring_eqb field) fields) eqn:E.
  - left. apply existsb_jsstring. exact E.
  - right. intros H. apply existsb_jsstring in H. congruence.
Qed.

End FindByField.

(** C10. A field name outside the allow-list of a DAO makes [findByField]
    throw before any statement is built or executed; whenever
    [findByField] executes a statement, the text is the fixed query with one
    of the allowed column names in it, and the search value is its only
    bound parameter. *)
Theorem C10_findByField_allow_list (field : jsstring) (value : jsval) (w : World) :
  (~ In field CargoDAO.allowedFields ->
   CargoDAO.findByField field value w =
   (Throw (Error (js "Campo inválido para busca: " ++ field) None), w,
    [Log "CargoDAO.findByField()"]))
  /\ (~ In field FuncionarioDAO.allowedFields ->
      FuncionarioDAO.findByField field value w =
      (Throw (Error (js "Campo inválido para busca") None), w,
       [Log "FuncionarioDAO.findByField()"]))
  /\ (forall sql params,
        In (Execute sql params) (events (CargoDAO.findByField field value w)) ->
        In field CargoDAO.allowedFields
        /\ sql = Sql.cargo_findByField field /\ params = [value])
  /\ (forall sql params,
        In (Execute sql params)
          (events (FuncionarioDAO.findByField field value w)) ->
        In field FuncionarioDAO.allowedFields
        /\ sql = Sql.funcionario_findByField field /\ params = [value])
  /\ CargoDAO.allowedFields = [js "idCargo"; js "nomeCargo"]
  /\ FuncionarioDAO.allowedFields =
     [js "idFuncionario"; js "nomeFuncionario"; js "email"; js "senha";
      js "recebeValeTransporte"; js "Cargo_idCargo"].
Proof.
  split; [apply CargoDAO_findByField_refuses |].
  split; [apply FuncionarioDAO_findByField_refuses |].
  split; [| split; [| split; reflexivity]]; intros sql params Hin.
  - destruct (In_dec_jsstring field CargoDAO.allowedFields) as [H | H].
    + rewrite (CargoDAO_findByField_runs value w H) in Hin. simpl in Hin.
      destruct Hin as [E | [E | []]]; [discriminate |].
      inversion E; subst. auto.
    + rewrite (CargoDAO_findByField_refuses value w H) in Hin. simpl in Hin.
      destruct Hin as [E | []]. discriminate.
  - destruct (In_dec_jsstring field FuncionarioDAO.allowedFields) as [H | H].
    + rewrite (FuncionarioDAO_findByField_runs value w H) in Hin. simpl in Hin.
      destruct Hin as [E | [E | []]]; [discriminate |].
      inversion E; subst. auto.
    + rewrite (FuncionarioDAO_findByField_refuses value w H) in Hin.
      simpl in Hin. destruct Hin as [E | []]. discriminate.
Qed.

(** ** The store *)

Arguments js : simpl never.

Section StoreFacts.

Lemma world_eta w : mkWorld (store w) (clock w) (entropy w) = w.
Proof. destruct w; reflexivity. Qed.

Lemma execute_select_cargo_nomeCargo v db :
  Mysql.execute (Sql.cargo_findByField (js "nomeCargo")) [v] db =
  (Ok (VArr (map Mysql.cargo_object
               (filter (fun r => Mysql.sql_eq (VStr (Mysql.col_nomeCargo r)) v)
                  (Mysql.cargo db)))), db).
Proof. reflexivity. Qed.

Lemma execute_select_cargo_idCargo v db :
  Mysql.execute (Sql.cargo_findByField (js "idCargo")) [v] db =
  (Ok (VArr (map Mysql.cargo_object
               (filter (fun r => Mysql.sql_eq (VNum (JInt (Mysql.col_idCargo r))) v)
                  (Mysql.cargo db)))), db).
Proof. reflexivity. Qed.

Lemma execute_select_funcionario_email v db :
  Mysql.execute (Sql.funcionario_findByField (js "email")) [v] db =
  (Ok (VArr (map Mysql.funcionario_object
               (filter (fun r => Mysql.sql_eq (VStr (Mysql.col_email r)) v)
                  (Mysql.funcionario db)))), db).
Proof. reflexivity. Qed.

Lemma execute_cargo_create ps db :
  Mysql.execute Sql.cargo_create ps db = Mysql.cargo_insert ps db.
Proof. reflexivity. Qed.

Lemma execute_funcionario_create ps db :
  Mysql.execute Sql.funcionario_create ps db = Mysql.funcionario_insert ps db.
Proof. reflexivity. Qed.

Lemma execute_funcionario_update_senha ps db :
  Mysql.execute Sql.funcionario_update_senha ps db =
  Mysql.funcionario_change_senha ps db.
Proof. reflexivity. Qed.

Lemma execute_funcionario_login v db :
  Mysql.execute Sql.funcionario_login [v] db =
  (Ok (VArr (Mysql.joined true db
               (fun f => Mysql.sql_eq (VStr (Mysql.col_email f)) v))), db).
Proof. reflexivity. Qed.

Lemma get_length_rows rows :
  get (VArr rows) "length" = Ok (VNum (JInt (Z.of_nat (List.length rows)))).
Proof. reflexivity. Qed.

Lemma gt_zero_int {rt : JsRuntime} n : gt_zero (VNum (JInt n)) = (0 <? n).
Proof. reflexivity. Qed.

Lemma filter_nonempty {A} (f : A -> bool) l :
  existsb f l = true <-> 0 < Z.of_nat (List.length (filter f l)).
Proof.
  induction l as [| x l IH]; simpl.
  - split; [discriminate | lia].
  - destruct (f x); simpl; [split; [lia | reflexivity] | exact IH].
Qed.

End StoreFacts.

(** ** Uniqueness of role names and of e-mail addresses *)


Section CargoUniqueness.
Context {rt : JsRuntime}.

Lemma set_nomeCargo_accepts this s :
  3 <= strlen (trim s) <= 64 ->
  CargoModel.set_nomeCargo this (VStr s) = Ok (mkCargo (priv_idCargo this) (Some (trim s))).
Proof.
  intros [H1 H2]. unfold CargoModel.set_nomeCargo. cbv zeta.
  apply Z.ltb_ge in H1. rewrite H1.
  destruct (strlen (trim s) >? 64) eqn:E; [apply Z.gtb_lt in E; lia | reflexivity].
Qed.

(** [createCargo] on a payload with a valid name: a lookup by name, then
    either the conflict or the insert. *)
Lemma createCargo_run cargoJson s w :
  get cargoJson "nomeCargo" = Ok (VStr s) ->
  3 <= strlen (trim s) <= 64 ->
  CargoService.createCargo cargoJson w =
  if Mysql.cargo_named (store w) (trim s) then
    (Throw (conflict_cargo (trim s)), w, select_nomeCargo_events (trim s))
  else
    let r := CargoDAO.create (mkCargo None (Some (trim s))) w in
    (outcome r, after r, select_nomeCargo_events (trim s) ++ events r).
Proof.
  intros Hget Hlen. unfold CargoService.createCargo.
  rewrite bind_console_log. cbv zeta.
  rewrite bind_lift, Hget, bind_lift, (set_nomeCargo_accepts _ s Hlen).
  assert (Hin : In (js "nomeCargo") CargoDAO.allowedFields) by (right; left; reflexivity).
  pose proof (CargoDAO_findByField_runs (VStr (trim s)) w Hin) as Hrun.
  cbv zeta in Hrun. rewrite execute_select_cargo_nomeCargo in Hrun.
  simpl fst in Hrun. simpl snd in Hrun. rewrite world_eta in Hrun.
  unfold CargoModel.new, CargoModel.nomeCargo. simpl priv_idCargo. simpl priv_nomeCargo.
  simpl opt_str.
  erewrite bind_run by exact Hrun. clear Hrun.
  unfold or_else. simpl truthy. cbv iota.
  rewrite bind_lift, get_length_rows. rewrite length_map.
  rewrite gt_zero_int. unfold Mysql.cargo_named.
  match goal with
  | |- context [filter ?f (Mysql.cargo (store w))] =>
      pose proof (filter_nonempty f (Mysql.cargo (store w))) as Hne
  end.
  simpl in Hne.
  destruct (existsb _ (Mysql.cargo (store w))) eqn:Ex.
  - assert (Hpos : 0 < Z.of_nat
       (List.length (filter (fun r => jsstring_eqb (Mysql.col_nomeCargo r) (trim s))
                       (Mysql.cargo (store w))))) by (apply Hne; reflexivity).
    apply Z.ltb_lt in Hpos. simpl Mysql.sql_eq. rewrite Hpos. reflexivity.
  - assert (Hpos : (0 <? Z.of_nat
       (List.length (filter (fun r => jsstring_eqb (Mysql.col_nomeCargo r) (trim s))
                       (Mysql.cargo (store w))))) = false).
    { apply Z.ltb_ge. destruct (Z.ltb_spec 0 (Z.of_nat
       (List.length (filter (fun r => jsstring_eqb (Mysql.col_nomeCargo r) (trim s))
                       (Mysql.cargo (store w)))))) as [Hlt | Hge]; [| lia].
      apply Hne in Hlt. discriminate. }
    simpl Mysql.sql_eq. rewrite Hpos. cbv zeta. reflexivity.
Qed.

End CargoUniqueness.

Section FuncionarioSetters.
Context {rt : JsRuntime}.

Lemma set_idCargo_accepts this v :
  positive_id v ->
  CargoModel.set_idCargo this v = Ok (mkCargo (Some (Number v)) (priv_nomeCargo this)).
Proof.
  intros H. apply positive_id_checks in H as [H1 H2].
  unfold CargoModel.set_idCargo. cbv zeta. rewrite H1, H2. reflexivity.
Qed.

Lemma set_idFuncionario_accepts this v :
  positive_id v ->
  FuncionarioModel.set_idFuncionario this v =
  Ok (mkFuncionario (Some (Number v)) (priv_cargo this) (priv_nomeFuncionario this)
        (priv_email this) (priv_senha this) (priv_recebeValeTransporte this)).
Proof.
  intros H. apply positive_id_checks in H as [H1 H2].
  unfold FuncionarioModel.set_idFuncionario. cbv zeta. rewrite H1, H2. reflexivity.
Qed.

Lemma set_nomeFuncionario_accepts this s :
  3 <= strlen (trim s) ->
  FuncionarioModel.set_nomeFuncionario this (VStr s) =
  Ok (mkFuncionario (priv_idFuncionario this) (priv_cargo this) (Some (trim s))
        (priv_email this) (priv_senha this) (priv_recebeValeTransporte this)).
Proof.
  intros H. unfold FuncionarioModel.set_nomeFuncionario. cbv zeta.
  apply Z.ltb_ge in H. rewrite H. reflexivity.
Qed.

Lemma set_email_accepts this s :
  email_shape (trim s) ->
  FuncionarioModel.set_email this (VStr s) =
  Ok (mkFuncionario (priv_idFuncionario this) (priv_cargo this)
        (priv_nomeFuncionario this) (Some (trim s)) (priv_senha this)
        (priv_recebeValeTransporte this)).
Proof.
  intros H. unfold FuncionarioModel.set_email. cbv zeta.
  assert (Hne : jsstring_eqb (trim s) [] = false).
  { destruct (jsstring_eqb (trim s) []) eqn:E; [| reflexivity].
    apply jsstring_eqb_eq in E. destruct H as (a & b & c & Hs & Ha & _).
    rewrite E in Hs. destruct a; [congruence | discriminate]. }
  apply emailRegex_shape in H. rewrite Hne, H. reflexivity.
Qed.

Lemma set_recebeValeTransporte_accepts this v :
  v = VNum (JInt 0) \/ v = VNum (JInt 1) ->
  FuncionarioModel.set_recebeValeTransporte this v =
  Ok (mkFuncionario (priv_idFuncionario this) (priv_cargo this)
        (priv_nomeFuncionario this) (priv_email this) (priv_senha this) (Some v)).
Proof. intros [-> | ->]; reflexivity. Qed.

End FuncionarioSetters.

Section FuncionarioUniqueness.
Context {rt : JsRuntime} {bc : Bcrypt}.

Lemma bind_call_async {B} (m : M jsval) (k : jsval -> M B) w o w1 t1 :
  m w = (o, w1, t1) ->
  bind (call_async m) k w =
  (outcome (k (VPromise o) w1), after (k (VPromise o) w1),
   t1 ++ events (k (VPromise o) w1)).
Proof.
  intros H. unfold bind, call_async. rewrite H.
  destruct (k (VPromise o) w1) as [[o' w2] t2]. reflexivity.
Qed.

(** [createFuncionario] on a well-formed payload: the two lookups, then
    either the e-mail conflict or the insert. What the lookup of the role
    finds has no influence on the run. *)
Lemma createFuncionario_run json nome email senha vale idCargo w :
  carries json nome email senha vale idCargo ->
  well_formed nome email senha vale idCargo ->
  FuncionarioService.createFuncionario json w =
  if email_registered (store w) (trim email) then
    (Throw (conflict_email (trim email)), w,
     select_email_events (VNum (Number idCargo)) (trim email))
  else
    let r := FuncionarioDAO.create (built None nome email senha vale idCargo) w in
    match outcome r with
    | Ok created =>
        (FuncionarioModel.set_idFuncionario (fst created) (snd created), after r,
         select_email_events (VNum (Number idCargo)) (trim email) ++ events r)
    | Throw e =>
        (Throw e, after r,
         select_email_events (VNum (Number idCargo)) (trim email) ++ events r)
    end.
Proof.
  intros (Hn & He & Hs & Hv & c & Hc & Hi) (Wn & We & Ws & Wv & Wi).
  unfold FuncionarioService.createFuncionario.
  rewrite bind_console_log. cbv zeta.
  rewrite bind_lift, Hc, bind_lift, Hi, bind_lift, (set_idCargo_accepts _ Wi).
  rewrite bind_lift, Hn, bind_lift, (set_nomeFuncionario_accepts _ _ Wn).
  rewrite bind_lift, He, bind_lift, (set_email_accepts _ _ We).
  rewrite bind_lift, Hs, bind_lift, (set_senha_accepts _ _ Ws).
  rewrite bind_lift, Hv, bind_lift, (set_recebeValeTransporte_accepts _ Wv).
  rewrite bind_lift. cbn [FuncionarioModel.set_cargo].
  cbn [priv_idFuncionario priv_cargo priv_nomeFuncionario priv_email priv_senha
       priv_recebeValeTransporte priv_idCargo priv_nomeCargo
       FuncionarioModel.new CargoModel.new].
  rewrite bind_lift.
  cbn [FuncionarioModel.cargo FuncionarioModel.email priv_cargo priv_email get
       String.eqb Ascii.eqb Bool.eqb priv_idCargo opt_num opt_str].
  assert (Hin : In (js "idCargo") CargoDAO.allowedFields) by (left; reflexivity).
  pose proof (CargoDAO_findByField_runs (VNum (Number idCargo)) w Hin) as Hrun.
  cbv zeta in Hrun. rewrite execute_select_cargo_idCargo in Hrun.
  cbn [fst snd] in Hrun. rewrite world_eta in Hrun.
  erewrite bind_call_async by exact Hrun. clear Hrun.
  rewrite bind_lift. cbn [get loose_eq_number].
  assert (Hin' : In (js "email") FuncionarioDAO.allowedFields)
    by (right; right; left; reflexivity).
  pose proof (FuncionarioDAO_findByField_runs (VStr (trim email)) w Hin') as Hrun.
  cbv zeta in Hrun. rewrite execute_select_funcionario_email in Hrun.
  cbn [fst snd] in Hrun. rewrite world_eta in Hrun.
  erewrite bind_run by exact Hrun. clear Hrun.
  unfold or_else. cbn [truthy]. rewrite bind_lift, get_length_rows, length_map.
  rewrite gt_zero_int. unfold email_registered.
  match goal with
  | |- context [filter ?f (Mysql.funcionario (store w))] =>
      pose proof (filter_nonempty f (Mysql.funcionario (store w))) as Hne
  end.
  cbn [Mysql.sql_eq] in *.
  destruct (existsb _ (Mysql.funcionario (store w))) eqn:Ex.
  - assert (Hpos : 0 < Z.of_nat
       (List.length (filter (fun r => jsstring_eqb (Mysql.col_email r) (trim email))
                       (Mysql.funcionario (store w))))) by (apply Hne; reflexivity).
    apply Z.ltb_lt in Hpos. rewrite Hpos. reflexivity.
  - assert (Hpos : (0 <? Z.of_nat
       (List.length (filter (fun r => jsstring_eqb (Mysql.col_email r) (trim email))
                       (Mysql.funcionario (store w))))) = false).
    { apply Z.ltb_ge. destruct (Z.ltb_spec 0 (Z.of_nat
       (List.length (filter (fun r => jsstring_eqb (Mysql.col_email r) (trim email))
                       (Mysql.funcionario (store w)))))) as [Hlt | Hge]; [| lia].
      apply Hne in Hlt. discriminate. }
    rewrite Hpos. cbv zeta.
    unfold built.
    destruct (FuncionarioDAO.create _ w) as [[[created | e] w1] t1] eqn:Hcreate.
    + erewrite bind_run by exact Hcreate.
      rewrite bind_lift. unfold outcome, after, events. cbn [fst snd].
      destruct (FuncionarioModel.set_idFuncionario (fst created) (snd created));
        cbn [fst snd app ret]; rewrite ?app_nil_r; reflexivity.
    + erewrite bind_run_throw by exact Hcreate. reflexivity.
Qed.

End FuncionarioUniqueness.

(** ** Persistence of an employee *)

Section Persistence.
Context {rt : JsRuntime} {bc : Bcrypt}.

Lemma set_senha_Ok this v f :
  FuncionarioModel.set_senha this v = Ok f ->
  exists s,
    v = VStr s
    /\ f = mkFuncionario (priv_idFuncionario this) (priv_cargo this)
             (priv_nomeFuncionario this) (priv_email this) (Some (trim s))
             (priv_recebeValeTransporte this).
Proof.
  unfold FuncionarioModel.set_senha. destruct v; try discriminate. cbv zeta.
  repeat match goal with
    | |- (if ?c then _ else _) = _ -> _ => destruct c; try discriminate
    end.
  intros H. inversion H. eauto.
Qed.

Lemma bind_hash_string {B} s rounds (k : jsstring -> M B) w :
  bind (hash (VStr s) rounds) k w =
  let r := k (bcrypt_hash (entropy w) s rounds)
             (mkWorld (store w) (clock w) (S (entropy w))) in
  (outcome r, after r, Hash s rounds :: events r).
Proof.
  unfold bind, hash. cbv zeta. destruct (k _ _) as [[o w2] t2]. reflexivity.
Qed.

Lemma bind_hash_undefined {B} rounds (k : jsstring -> M B) w :
  bind (hash VUndefined rounds) k w =
  (Throw (Error (js "data and salt arguments required") None), w, []).
Proof. reflexivity. Qed.

(** [create] on an object that holds a password: the digest goes through
    the setter of the object before it becomes the third parameter of the
    insert. *)
Lemma create_run f p w :
  priv_senha f = Some p ->
  FuncionarioDAO.create f w =
  let h := bcrypt_hash (entropy w) p 12 in
  let w' := mkWorld (store w) (clock w) (S (entropy w)) in
  let started := [Log "FuncionarioDAO.create()"; Hash p 12] in
  match FuncionarioModel.set_senha f (VStr h) with
  | Throw e => (Throw e, w', started)
  | Ok f' =>
      match get (FuncionarioModel.cargo f') "idCargo" with
      | Throw e => (Throw e, w', started)
      | Ok idCargo =>
          let params :=
            [FuncionarioModel.nomeFuncionario f; FuncionarioModel.email f;
             VStr (trim h); FuncionarioModel.recebeValeTransporte f; idCargo] in
          let x := Mysql.funcionario_insert params (store w) in
          (match fst x with
           | Throw e => Throw e
           | Ok resultado =>
               match get resultado "insertId" with
               | Throw e => Throw e
               | Ok insertId =>
                   if negb (truthy insertId) then
                     Throw (Error (js "Falha ao inserir funcionário") None)
                   else Ok (f', insertId)
               end
           end,
           mkWorld (snd x) (clock w) (S (entropy w)),
           started ++ [Execute Sql.funcionario_create params])
      end
  end.
Proof.
  intros Hp. cbv zeta.
  assert (Hstart : forall B (k : jsstring -> M B),
    bind (hash (FuncionarioModel.senha f) 12) k w =
    let r := k (bcrypt_hash (entropy w) p 12)
               (mkWorld (store w) (clock w) (S (entropy w))) in
    (outcome r, after r, Hash p 12 :: events r)).
  { intros B k. unfold FuncionarioModel.senha. rewrite Hp. cbn [opt_str].
    apply bind_hash_string. }
  unfold FuncionarioDAO.create.
  rewrite bind_console_log, Hstart. cbv zeta. rewrite bind_lift.
  destruct (FuncionarioModel.set_senha f (VStr (bcrypt_hash (entropy w) p 12)))
    as [f' | e] eqn:Hset; [| reflexivity].
  rewrite bind_lift.
  destruct (get (FuncionarioModel.cargo f') "idCargo") as [idCargo | e];
    [| reflexivity].
  assert (Hparams :
    [FuncionarioModel.nomeFuncionario f'; FuncionarioModel.email f';
     FuncionarioModel.senha f'; FuncionarioModel.recebeValeTransporte f'; idCargo]
    = [FuncionarioModel.nomeFuncionario f; FuncionarioModel.email f;
       VStr (trim (bcrypt_hash (entropy w) p 12));
       FuncionarioModel.recebeValeTransporte f; idCargo]).
  { apply set_senha_Ok in Hset as (s & Es & ->). inversion Es; subst s.
    reflexivity. }
  rewrite Hparams, bind_pool_execute. cbn [store clock entropy].
  rewrite execute_funcionario_create.
  destruct (Mysql.funcionario_insert _ (store w)) as [[resultado | e] db];
    [| reflexivity].
  cbv zeta. cbn [fst snd]. rewrite bind_lift.
  destruct (get resultado "insertId") as [insertId | e]; [| reflexivity].
  destruct (negb (truthy insertId)); reflexivity.
Qed.

End Persistence.

Section PasswordAtRest.
Context {rt : JsRuntime} {bc : Bcrypt}.

Lemma trimStart_no_space s : existsb is_js_space s = false -> trimStart s = s.
Proof.
  destruct s as [| c s]; simpl; [reflexivity |].
  intros H. apply orb_false_iff in H as [-> _]. reflexivity.
Qed.

Lemma existsb_rev_false {A} (f : A -> bool) s :
  existsb f s = false -> existsb f (rev s) = false.
Proof.
  intros H. destruct (existsb f (rev s)) eqn:E; [| reflexivity].
  apply existsb_exists in E as (x & Hin & Hx). apply in_rev in Hin.
  assert (existsb f s = true) by (apply existsb_exists; eauto). congruence.
Qed.

(** [trim] leaves a string without white space as it is. *)
Lemma trim_no_space s : existsb is_js_space s = false -> trim s = s.
Proof.
  intros H. unfold trim, trimEnd. rewrite (trimStart_no_space s H).
  rewrite trimStart_no_space, rev_involutive; [reflexivity |].
  apply existsb_rev_false. exact H.
Qed.

Lemma create_executes f w sql params :
  In (Execute sql params) (events (FuncionarioDAO.create f w)) ->
  exists p idCargo,
    priv_senha f = Some p
    /\ sql = Sql.funcionario_create
    /\ params =
       [FuncionarioModel.nomeFuncionario f; FuncionarioModel.email f;
        VStr (trim (bcrypt_hash (entropy w) p 12));
        FuncionarioModel.recebeValeTransporte f; idCargo].
Proof.
  destruct (priv_senha f) as [p |] eqn:Hp.
  - rewrite (create_run f w Hp). cbv zeta.
    destruct (FuncionarioModel.set_senha f _) as [f' | e].
    2: { simpl. intros [E | [E | []]]; discriminate. }
    destruct (get (FuncionarioModel.cargo f') "idCargo") as [idCargo | e].
    2: { simpl. intros [E | [E | []]]; discriminate. }
    simpl. intros [E | [E | [E | []]]]; try discriminate.
    inversion E; subst. eauto.
  - unfold FuncionarioDAO.create. rewrite bind_console_log.
    unfold FuncionarioModel.senha. rewrite Hp. cbn [opt_str].
    rewrite bind_hash_undefined. simpl. intros [E | []]. discriminate.
Qed.

Lemma update_executes f w sql params :
  In (Execute sql params) (events (FuncionarioDAO.update f w)) ->
  (exists p idCargo,
     priv_senha f = Some p
     /\ sql = Sql.funcionario_update_senha
     /\ params =
        [FuncionarioModel.nomeFuncionario f; FuncionarioModel.email f;
         VStr (bcrypt_hash (entropy w) p 12);
         FuncionarioModel.recebeValeTransporte f; idCargo;
         FuncionarioModel.idFuncionario f])
  \/ (exists idCargo,
        truthy (FuncionarioModel.senha f) = false
        /\ sql = Sql.funcionario_update
        /\ params =
           [FuncionarioModel.nomeFuncionario f; FuncionarioModel.email f;
            FuncionarioModel.recebeValeTransporte f; idCargo;
            FuncionarioModel.idFuncionario f]).
Proof.
  unfold FuncionarioDAO.update. rewrite bind_console_log.
  destruct (truthy (FuncionarioModel.senha f)) eqn:T.
  - destruct (priv_senha f) as [p |] eqn:Hp;
      [| unfold FuncionarioModel.senha in T; rewrite Hp in T; discriminate].
    rewrite bind_assoc.
    unfold FuncionarioModel.senha. rewrite Hp. cbn [opt_str].
    rewrite bind_hash_string. cbv zeta. rewrite bind_assoc, bind_lift.
    destruct (get (FuncionarioModel.cargo f) "idCargo") as [idCargo | e].
    2: { simpl. intros [E | [E | []]]; discriminate. }
    rewrite bind_ret. cbn [fst snd]. rewrite bind_pool_execute.
    destruct (Mysql.execute _ _ _) as [[resultado | e] db].
    2: { simpl. intros [E | [E | [E | []]]]; try discriminate.
         inversion E; subst. left. eauto. }
    cbv zeta. rewrite bind_lift.
    destruct (get resultado "affectedRows") as [affectedRows | e]; simpl;
      intros [E | [E | [E | []]]]; try discriminate;
      inversion E; subst; left; eauto.
  - rewrite bind_assoc, bind_lift.
    destruct (get (FuncionarioModel.cargo f) "idCargo") as [idCargo | e].
    2: { simpl. intros [E | []]; discriminate. }
    rewrite bind_ret. cbn [fst snd]. rewrite bind_pool_execute.
    destruct (Mysql.execute _ _ _) as [[resultado | e] db].
    2: { simpl. intros [E | [E | []]]; try discriminate.
         inversion E; subst. right. eauto. }
    cbv zeta. rewrite bind_lift.
    destruct (get resultado "affectedRows") as [affectedRows | e]; simpl;
      intros [E | [E | []]]; try discriminate;
      inversion E; subst; right; eauto.
Qed.

End PasswordAtRest.

(** C8. Every statement [FuncionarioDAO.create] executes is the insert, and
    its password parameter is the bcrypt digest of the password the object
    holds, as the setter keeps it (trimmed, which a digest without white
    space is unchanged by). Every statement [FuncionarioDAO.update] executes
    either is the update with a password column, whose parameter is the
    digest of the password held, or is the update that does not write the
    password column, executed only when no password is held. The value
    written is the plaintext only if the digest of the plaintext is the
    plaintext. *)
Theorem C8_only_digests_are_written {rt : JsRuntime} {bc : Bcrypt}
  (f : Funcionario) (w : World) (sql : jsstring) (params : list jsval) :
  (In (Execute sql params) (events (FuncionarioDAO.create f w)) ->
   exists p,
     priv_senha f = Some p
     /\ sql = Sql.funcionario_create
     /\ nth 2 params VUndefined = VStr (trim (bcrypt_hash (entropy w) p 12))
     /\ (existsb is_js_space (bcrypt_hash (entropy w) p 12) = false ->
         nth 2 params VUndefined = VStr (bcrypt_hash (entropy w) p 12))
     /\ (trim (bcrypt_hash (entropy w) p 12) <> p ->
         nth 2 params VUndefined <> VStr p))
  /\ (In (Execute sql params) (events (FuncionarioDAO.update f w)) ->
      (exists p,
         priv_senha f = Some p
         /\ sql = Sql.funcionario_update_senha
         /\ nth 2 params VUndefined = VStr (bcrypt_hash (entropy w) p 12)
         /\ (bcrypt_hash (entropy w) p 12 <> p ->
             nth 2 params VUndefined <> VStr p))
      \/ (truthy (FuncionarioModel.senha f) = false
          /\ sql = Sql.funcionario_update)).
Proof.
  split; intros Hin.
  - apply create_executes in Hin as (p & idCargo & Hp & -> & ->).
    exists p. cbn [nth]. repeat split; auto.
    + intros H. rewrite (trim_no_space _ H). reflexivity.
    + intros H E. inversion E. contradiction.
  - apply update_executes in Hin
      as [(p & idCargo & Hp & -> & ->) | (idCargo & T & -> & ->)].
    + left. exists p. cbn [nth]. repeat split; auto.
      intros H E. inversion E. contradiction.
    + right. auto.
Qed.

Section InsertedRows.
Context {rt : JsRuntime} {bc : Bcrypt}.

Lemma run_Ok_inv {A} (r : Outcome A * World * list Event) ev a w1 t :
  (outcome r, after r, ev :: events r) = (Ok a, w1, t) ->
  exists t', r = (Ok a, w1, t') /\ t = ev :: t'.
Proof.
  destruct r as [[o w'] t']. unfold outcome, after, events. cbn [fst snd].
  intros H. inversion H; subst. eauto.
Qed.

(** After [CargoDAO.create] has returned an id the store holds a role with
    the name of the object. *)
Lemma CargoDAO_create_success c n w id w1 t :
  priv_nomeCargo c = Some n ->
  CargoDAO.create c w = (Ok id, w1, t) ->
  Mysql.cargo_named (store w1) n = true.
Proof.
  intros Hn. unfold CargoDAO.create. rewrite bind_console_log. cbv zeta.
  rewrite bind_pool_execute, execute_cargo_create.
  unfold CargoModel.nomeCargo. rewrite Hn. cbn [opt_str].
  unfold Mysql.cargo_insert. cbn [Mysql.text].
  destruct (Mysql.cargo_named (store w) n) eqn:E.
  - unfold Mysql.rejected, outcome. cbn [fst]. discriminate.
  - cbv zeta. rewrite bind_lift. cbn [get Mysql.ResultSetHeader lookup String.eqb
      Ascii.eqb Bool.eqb].
    destruct (negb (truthy (VNum (JInt (Mysql.cargo_AUTO_INCREMENT (store w))))));
      unfold outcome, after, events; cbn [fst snd throw ret]; intros H;
      inversion H; subst.
    cbn [store]. unfold Mysql.cargo_named. cbn [Mysql.cargo].
    rewrite existsb_app. cbn [existsb Mysql.col_nomeCargo].
    rewrite jsstring_eqb_refl. rewrite orb_true_r. reflexivity.
Qed.

(** After [FuncionarioDAO.create] has returned an id the store holds an
    employee with the e-mail address of the object. *)
Lemma FuncionarioDAO_create_success f e w created w1 t :
  priv_email f = Some e ->
  FuncionarioDAO.create f w = (Ok created, w1, t) ->
  email_registered (store w1) e = true.
Proof.
  intros He Hrun.
  destruct (priv_senha f) as [p |] eqn:Hp.
  2: { revert Hrun. unfold FuncionarioDAO.create. rewrite bind_console_log.
       unfold FuncionarioModel.senha. rewrite Hp. cbn [opt_str].
       rewrite bind_hash_undefined. unfold outcome. cbn [fst]. discriminate. }
  revert Hrun. rewrite (create_run f w Hp). cbv zeta.
  destruct (FuncionarioModel.set_senha f _) as [f' | e0]; [| discriminate].
  destruct (get (FuncionarioModel.cargo f') "idCargo") as [idCargo | e0];
    [| discriminate].
  unfold Mysql.funcionario_insert.
  unfold FuncionarioModel.email. rewrite He. cbn [opt_str Mysql.text].
  destruct (Mysql.text (FuncionarioModel.nomeFuncionario f)) as [n |];
    [| cbn [fst Mysql.rejected]; discriminate].
  destruct (Mysql.int (FuncionarioModel.recebeValeTransporte f)) as [v |];
    [| cbn [fst Mysql.rejected]; discriminate].
  destruct (Mysql.int idCargo) as [c |];
    [| cbn [fst Mysql.rejected]; discriminate].
  destruct (Mysql.has_cargo (store w) c);
    [| cbn [fst Mysql.rejected]; discriminate].
  cbn [fst snd get Mysql.ResultSetHeader lookup String.eqb Ascii.eqb Bool.eqb].
  intros Hrun. inversion Hrun; subst.
  cbn [store]. unfold email_registered. cbn [Mysql.funcionario].
  rewrite existsb_app. cbn [existsb Mysql.col_email].
  rewrite jsstring_eqb_refl, orb_true_r. reflexivity.
Qed.

Lemma raised_Ok {A} (o : Outcome A) a : o = Ok a -> raised o = None.
Proof. intros ->. reflexivity. Qed.

(** A creation that succeeds was given a well-formed payload. *)
Lemma createFuncionario_success_well_formed json w f w1 t :
  FuncionarioService.createFuncionario json w = (Ok f, w1, t) ->
  exists nome email senha vale idCargo,
    carries json nome email senha vale idCargo
    /\ well_formed nome email senha vale idCargo.
Proof.
  unfold FuncionarioService.createFuncionario. rewrite bind_console_log.
  cbv zeta. intros H. apply run_Ok_inv in H as (t' & H & _). revert H.
  do 11 (step_lift; [| discriminate]). intros _.
  repeat match goal with
    | E : _ = Ok _ |- _ =>
        lazymatch type of E with
        | get _ _ = _ => fail
        | _ => apply raised_Ok in E
        end
    end.
  match goal with
  | E : raised (CargoModel.set_idCargo ?c ?v) = None |- _ =>
      apply (accepted_iff_invariant (Set_idCargo c v)) in E; rename E into Wi
  end.
  match goal with
  | E : raised (FuncionarioModel.set_nomeFuncionario ?c ?v) = None |- _ =>
      apply (accepted_iff_invariant (Set_nomeFuncionario c v)) in E;
      destruct E as (nome & -> & Wn)
  end.
  match goal with
  | E : raised (FuncionarioModel.set_email ?c ?v) = None |- _ =>
      apply (accepted_iff_invariant (Set_email c v)) in E;
      destruct E as (email & -> & We)
  end.
  match goal with
  | E : raised (FuncionarioModel.set_senha ?c ?v) = None |- _ =>
      apply (accepted_iff_invariant (Set_senha c v)) in E;
      destruct E as (senha & -> & Ws)
  end.
  match goal with
  | E : raised (FuncionarioModel.set_recebeValeTransporte ?c ?v) = None |- _ =>
      apply (accepted_iff_invariant (Set_recebeValeTransporte c v)) in E;
      rename E into Wv
  end.
  cbn [invariant] in Wi, Wv.
  do 5 eexists. split.
  - unfold carries. repeat split; eauto.
  - exact (conj Wn (conj We (conj Ws (conj Wv Wi)))).
Qed.

End InsertedRows.

Section Twice.
Context {rt : JsRuntime} {bc : Bcrypt}.

Lemma createCargo_success_name cargoJson w id w1 t :
  CargoService.createCargo cargoJson w = (Ok id, w1, t) ->
  exists s, get cargoJson "nomeCargo" = Ok (VStr s) /\ 3 <= strlen (trim s) <= 64.
Proof.
  unfold CargoService.createCargo. rewrite bind_console_log. cbv zeta.
  intros H. apply run_Ok_inv in H as (t' & H & _). revert H.
  do 2 (step_lift; [| discriminate]). intros _.
  match goal with
  | E : CargoModel.set_nomeCargo ?c ?v = Ok _ |- _ =>
      apply raised_Ok in E;
      apply (accepted_iff_invariant (Set_nomeCargo c v)) in E;
      destruct E as (s & -> & Hs)
  end.
  eauto.
Qed.

Lemma createCargo_twice cargoJson w id w1 t :
  CargoService.createCargo cargoJson w = (Ok id, w1, t) ->
  exists nome,
    CargoService.createCargo cargoJson w1 =
    (Throw (conflict_cargo nome), w1, select_nomeCargo_events nome).
Proof.
  intros H. pose proof H as H0. apply createCargo_success_name in H0.
  destruct H0 as (s & Hget & Hlen).
  exists (trim s). rewrite (@createCargo_run _ cargoJson s w1 Hget Hlen).
  rewrite (@createCargo_run _ cargoJson s w Hget Hlen) in H.
  destruct (Mysql.cargo_named (store w) (trim s)); [discriminate |].
  cbv zeta in H.
  destruct (CargoDAO.create _ w) as [[o w'] t'] eqn:Hc.
  unfold outcome, after, events in H. cbn [fst snd] in H. inversion H; subst.
  eapply CargoDAO_create_success in Hc; [| reflexivity].
  cbn [priv_nomeCargo] in Hc. rewrite Hc. reflexivity.
Qed.

Lemma createFuncionario_twice json w f w1 t :
  FuncionarioService.createFuncionario json w = (Ok f, w1, t) ->
  exists email idCargo,
    FuncionarioService.createFuncionario json w1 =
    (Throw (conflict_email email), w1, select_email_events idCargo email).
Proof.
  intros H.
  pose proof H as H0. apply createFuncionario_success_well_formed in H0.
  destruct H0 as (nome & email & senha & vale & idCargo & Hc & Hw).
  exists (trim email), (VNum (Number idCargo)).
  rewrite (@createFuncionario_run _ _ _ _ _ _ _ _ w1 Hc Hw).
  rewrite (@createFuncionario_run _ _ _ _ _ _ _ _ w Hc Hw) in H.
  destruct (email_registered (store w) (trim email)); [discriminate |].
  cbv zeta in H.
  destruct (FuncionarioDAO.create _ w) as [[o w'] t'] eqn:Hcreate.
  unfold outcome, after, events in H. cbn [fst snd] in H.
  destruct o as [created | e]; [| discriminate].
  inversion H; subst.
  eapply FuncionarioDAO_create_success in Hcreate; [| reflexivity].
  rewrite Hcreate.
  reflexivity.
Qed.

End Twice.

(** C5. A creation request for a role whose name is already in the store,
    or for an employee whose e-mail address is already registered, makes the
    service throw the conflict error (an [ErrorResponse] with code 400)
    after its lookups; the store is left as it was and no insert is
    executed. A creation request that has succeeded, submitted again,
    ends in that conflict. *)
Theorem C5_duplicates_conflict {rt : JsRuntime} {bc : Bcrypt} :
  (forall cargoJson s w,
     get cargoJson "nomeCargo" = Ok (VStr s) ->
     3 <= strlen (trim s) <= 64 ->
     Mysql.cargo_named (store w) (trim s) = true ->
     CargoService.createCargo cargoJson w =
     (Throw (conflict_cargo (trim s)), w, select_nomeCargo_events (trim s)))
  /\ (forall json nome email senha vale idCargo w,
        carries json nome email senha vale idCargo ->
        well_formed nome email senha vale idCargo ->
        email_registered (store w) (trim email) = true ->
        FuncionarioService.createFuncionario json w =
        (Throw (conflict_email (trim email)), w,
         select_email_events (VNum (Number idCargo)) (trim email)))
  /\ (forall cargoJson w id w1 t,
        CargoService.createCargo cargoJson w = (Ok id, w1, t) ->
        exists nome,
          CargoService.createCargo cargoJson w1 =
          (Throw (conflict_cargo nome), w1, select_nomeCargo_events nome))
  /\ (forall json w f w1 t,
        FuncionarioService.createFuncionario json w = (Ok f, w1, t) ->
        exists email idCargo,
          FuncionarioService.createFuncionario json w1 =
          (Throw (conflict_email email), w1, select_email_events idCargo email))
  /\ (forall nome, existsb is_insert (select_nomeCargo_events nome) = false)
  /\ (forall idCargo email,
        existsb is_insert (select_email_events idCargo email) = false).
Proof.
  split.
  { intros cargoJson s w Hget Hlen Hnamed.
    rewrite (@createCargo_run _ cargoJson s w Hget Hlen), Hnamed. reflexivity. }
  split.
  { intros json nome email senha vale idCargo w Hc Hw Hreg.
    rewrite (@createFuncionario_run _ _ _ _ _ _ _ _ w Hc Hw), Hreg. reflexivity. }
  split; [exact createCargo_twice |].
  split; [exact createFuncionario_twice |].
  split; reflexivity.
Qed.

(** ** Login *)

Section Login.
Context {rt : JsRuntime} {bc : Bcrypt} {jwt : MeuTokenJWT}.

Lemma matching_absent db email :
  email_registered db email = false -> matching db email = [].
Proof.
  unfold email_registered, matching, Mysql.joined. intros H.
  assert (E : filter (fun f => jsstring_eqb (Mysql.col_email f) email)
                (Mysql.funcionario db) = []).
  { induction (Mysql.funcionario db) as [| x l IH]; [reflexivity |].
    simpl in H |- *. apply orb_false_iff in H as [-> H]. auto. }
  rewrite E. reflexivity.
Qed.

Lemma login_rows obj e w :
  priv_email obj = Some e ->
  forall B (k : jsval -> M B),
    bind (pool_execute Sql.funcionario_login [FuncionarioModel.email obj]) k w =
    let r := k (VArr (matching (store w) e)) w in
    (outcome r, after r, Execute Sql.funcionario_login [VStr e] :: events r).
Proof.
  intros He B k. unfold FuncionarioModel.email. rewrite He. cbn [opt_str].
  rewrite bind_pool_execute, execute_funcionario_login, world_eta. reflexivity.
Qed.

Lemma DAO_login_absent obj e w :
  priv_email obj = Some e ->
  email_registered (store w) e = false ->
  FuncionarioDAO.login obj w =
  (Ok None, w,
   [Log "FuncionarioDAO.login()"; Execute Sql.funcionario_login [VStr e];
    Log "Funcionário não encontrado"]).
Proof.
  intros He Habs. unfold FuncionarioDAO.login. rewrite bind_console_log.
  cbv zeta. erewrite login_rows by exact He. cbv zeta.
  erewrite matching_absent by exact Habs. rewrite bind_lift. reflexivity.
Qed.

Lemma DAO_login_wrong obj e p w :
  priv_email obj = Some e ->
  priv_senha obj = Some p ->
  wrong_password (store w) e p ->
  exists digest,
    FuncionarioDAO.login obj w =
    (Ok None, w,
     [Log "FuncionarioDAO.login()"; Execute Sql.funcionario_login [VStr e];
      Compare p digest; Log "Senha inválida"]).
Proof.
  intros He Hp (f & c & Hrows & Hcmp). exists (Mysql.col_senha f).
  unfold FuncionarioDAO.login. rewrite bind_console_log.
  cbv zeta. erewrite login_rows by exact He. cbv zeta. rewrite Hrows.
  rewrite bind_lift. cbn [get String.eqb Ascii.eqb Bool.eqb List.length].
  cbn [strict_eq_number num_eqb Z.of_nat Pos.of_succ_nat Z.eqb Pos.eqb negb].
  rewrite bind_lift. cbn [first].
  unfold FuncionarioModel.senha. rewrite Hp. cbn [opt_str].
  cbn [Mysql.joined_object app get lookup String.eqb Ascii.eqb Bool.eqb].
  unfold compare. rewrite bind_assoc, bind_emit, bind_ret, Hcmp.
  cbn [negb]. rewrite bind_console_log. reflexivity.
Qed.

Lemma loginFuncionario_fails json email senha w t :
  credentials json email senha ->
  FuncionarioDAO.login
    (mkFuncionario None None None (Some (trim email)) (Some (trim senha)) None) w
  = (Ok None, w, t) ->
  FuncionarioService.loginFuncionario json w =
  (Throw unauthorized, w, Log "FuncionarioService.loginFuncionario()" :: t).
Proof.
  intros (He & Hs & We & Ws) Hrun. unfold FuncionarioService.loginFuncionario.
  rewrite bind_console_log. cbv zeta.
  rewrite bind_lift, He, bind_lift.
  erewrite set_email_accepts by exact We.
  rewrite bind_lift, Hs, bind_lift.
  erewrite set_senha_accepts by exact Ws.
  cbn [priv_idFuncionario priv_cargo priv_nomeFuncionario priv_email priv_senha
       priv_recebeValeTransporte FuncionarioModel.new].
  erewrite bind_run by exact Hrun. unfold throw, outcome, after, events.
  cbn [fst snd]. rewrite app_nil_r. reflexivity.
Qed.

End Login.

Section LoginRoute.
Context {rt : JsRuntime} {bc : Bcrypt} {jwt : MeuTokenJWT}.

Ltac settle :=
  eexists; split;
  [ intros w; rewrite bind_console_log; cbv zeta;
    repeat (rewrite bind_lift;
            repeat match goal with
              | E : ?x = _ |- context [?x] => rewrite E
              end);
    unfold outcome, after, events, throw, ret; cbn [fst snd];
    reflexivity
  | eauto ].

(** The body check of the login route reads nothing but the request: it
    passes the request on or throws, whatever the store holds. *)
Lemma validateLoginBody_result req :
  exists o,
    (forall w, FuncionarioMiddleware.validateLoginBody req w =
               (o, w, [Log "FuncionarioMiddleware.validateLoginBody()"]))
    /\ (o = Ok (Next req) \/ exists e, o = Throw e).
Proof.
  unfold FuncionarioMiddleware.validateLoginBody.
  destruct (get (body req) "funcionario") as [funcionario | e] eqn:E1;
    [| settle].
  destruct (negb (truthy funcionario)) eqn:E2; [settle |].
  destruct (FuncionarioMiddleware.required_login funcionario
              ["email"%string; "senha"%string]) as [[] | e] eqn:E3; [| settle].
  destruct (get funcionario "email") as [email | e] eqn:E4; [| settle].
  destruct (negb (accepts FuncionarioModel.emailRegex (interpolate email)))
    eqn:E5; settle.
Qed.

Lemma errorHandler_result e :
  exists response t, forall w, Server.errorHandler e w = (Ok response, w, t).
Proof.
  unfold Server.errorHandler. destruct (instanceof_ErrorResponse e);
    do 2 eexists; intros w; rewrite bind_console_log;
    unfold outcome, after, events, ret; cbn [fst snd]; reflexivity.
Qed.

Lemma run_cons handler rest request w :
  Server.run (handler :: rest) request w =
  bind (handler request)
    (fun step =>
       match step with
       | Next request' => Server.run rest request'
       | Send response => ret response
       end) w.
Proof. reflexivity. Qed.

Lemma serve_throws handlers request w e w1 t1 :
  Server.run handlers request w = (Throw e, w1, t1) ->
  Server.serve handlers request w =
  (outcome (Server.errorHandler e w1), after (Server.errorHandler e w1),
   t1 ++ events (Server.errorHandler e w1)).
Proof.
  intros H. unfold Server.serve, try_catch. rewrite H.
  destruct (Server.errorHandler e w1) as [[o w2] t2]. reflexivity.
Qed.

Lemma serve_returns handlers request w response w1 t1 :
  Server.run handlers request w = (Ok response, w1, t1) ->
  Server.serve handlers request w = (Ok response, w1, t1).
Proof. intros H. unfold Server.serve, try_catch. rewrite H. reflexivity. Qed.

Lemma control_login_fails json email senha w t :
  credentials json email senha ->
  FuncionarioDAO.login
    (mkFuncionario None None None (Some (trim email)) (Some (trim senha)) None) w
  = (Ok None, w, t) ->
  FuncionarioControl.login (login_request json) w =
  (Throw unauthorized, w,
   Log "FuncionarioControl.login()"
   :: Log "FuncionarioService.loginFuncionario()" :: t).
Proof.
  intros Hc Hrun. unfold FuncionarioControl.login.
  rewrite bind_console_log, bind_lift.
  cbn [body login_request get lookup String.eqb Ascii.eqb Bool.eqb].
  erewrite bind_run_throw by (eapply loginFuncionario_fails; eassumption).
  reflexivity.
Qed.

(** What the login route answers when the DAO finds no employee to
    authenticate. *)
Lemma serve_login_fails json email senha w t :
  credentials json email senha ->
  FuncionarioDAO.login
    (mkFuncionario None None None (Some (trim email)) (Some (trim senha)) None) w
  = (Ok None, w, t) ->
  exists o,
    (forall w', FuncionarioMiddleware.validateLoginBody (login_request json) w' =
                (o, w', [Log "FuncionarioMiddleware.validateLoginBody()"]))
    /\ outcome (Server.serve
                  [FuncionarioMiddleware.validateLoginBody; FuncionarioControl.login]
                  (login_request json) w)
       = match o with
         | Ok _ => outcome (Server.errorHandler unauthorized w)
         | Throw e => outcome (Server.errorHandler e w)
         end.
Proof.
  intros Hc Hrun.
  destruct (validateLoginBody_result (login_request json)) as (o & Hmw & Ho).
  exists o. split; [exact Hmw |].
  destruct Ho as [-> | [e ->]].
  - erewrite serve_throws; [reflexivity |].
    rewrite run_cons. erewrite bind_run by apply Hmw. cbv beta iota.
    rewrite run_cons.
    erewrite bind_run_throw by (eapply control_login_fails; eassumption).
    reflexivity.
  - erewrite serve_throws; [reflexivity |].
    rewrite run_cons. erewrite bind_run_throw by apply Hmw. reflexivity.
Qed.

End LoginRoute.

(** C7. For login credentials that pass the value object, the service
    throws one and the same error, [ErrorResponse] 401 with the same
    message and detail, when no employee has the address and when the one
    employee that has it was given another password; neither run changes
    the store, and the login route sends the same response in both
    cases. *)
Theorem C7_login_failures_coincide {rt : JsRuntime} {bc : Bcrypt} {jwt : MeuTokenJWT}
  (json : jsval) (email senha : jsstring) (w1 w2 : World) :
  credentials json email senha ->
  email_registered (store w1) (trim email) = false ->
  wrong_password (store w2) (trim email) (trim senha) ->
  outcome (FuncionarioService.loginFuncionario json w1) = Throw unauthorized
  /\ outcome (FuncionarioService.loginFuncionario json w2) = Throw unauthorized
  /\ after (FuncionarioService.loginFuncionario json w1) = w1
  /\ after (FuncionarioService.loginFuncionario json w2) = w2
  /\ outcome (Server.serve
                [FuncionarioMiddleware.validateLoginBody; FuncionarioControl.login]
                (login_request json) w1)
     = outcome (Server.serve
                  [FuncionarioMiddleware.validateLoginBody; FuncionarioControl.login]
                  (login_request json) w2)
  /\ forall w, exists sent,
       outcome (Server.errorHandler unauthorized w) = Ok (mkResponse 401 sent).
Proof.
  intros Hc Habs Hwrong.
  pose proof (DAO_login_absent
                (mkFuncionario None None None (Some (trim email))
                   (Some (trim senha)) None) w1 eq_refl Habs) as H1.
  destruct (DAO_login_wrong
              (mkFuncionario None None None (Some (trim email))
                 (Some (trim senha)) None) w2 eq_refl eq_refl Hwrong)
    as [digest H2].
  rewrite (loginFuncionario_fails Hc H1), (loginFuncionario_fails Hc H2).
  do 4 (split; [reflexivity |]).
  split; [| intros w; eexists; reflexivity].
  destruct (serve_login_fails Hc H1) as (o1 & Hmw1 & ->).
  destruct (serve_login_fails Hc H2) as (o2 & Hmw2 & ->).
  pose proof (Hmw1 w1) as E1. rewrite (Hmw2 w1) in E1. inversion E1; subst o2.
  destruct o1 as [step | e]; [reflexivity |].
  destruct (errorHandler_result e) as (response & t & He).
  rewrite !He. reflexivity.
Qed.

(** ** Update of an employee *)

Section Update.
Context {rt : JsRuntime} {bc : Bcrypt}.

Lemma policy_nonempty s : password_policy s -> truthy (VStr s) = true.
Proof.
  intros [H _]. destruct s; [unfold strlen in H; simpl in H; lia | reflexivity].
Qed.

(** [update] on an object that holds a password. *)
Lemma DAO_update_run f p idCargo w :
  priv_senha f = Some p ->
  truthy (VStr p) = true ->
  get (FuncionarioModel.cargo f) "idCargo" = Ok idCargo ->
  let params :=
    [FuncionarioModel.nomeFuncionario f; FuncionarioModel.email f;
     VStr (bcrypt_hash (entropy w) p 12); FuncionarioModel.recebeValeTransporte f;
     idCargo; FuncionarioModel.idFuncionario f] in
  let x := Mysql.funcionario_change_senha params (store w) in
  FuncionarioDAO.update f w =
  (match fst x with
   | Ok resultado =>
       match get resultado "affectedRows" with
       | Ok affectedRows => Ok (VBool (gt_zero affectedRows))
       | Throw e => Throw e
       end
   | Throw e => Throw e
   end,
   mkWorld (snd x) (clock w) (S (entropy w)),
   [Log "FuncionarioDAO.update()"; Hash p 12;
    Execute Sql.funcionario_update_senha params]).
Proof.
  intros Hp Ht Hid. cbv zeta. unfold FuncionarioDAO.update.
  rewrite bind_console_log.
  unfold FuncionarioModel.senha. rewrite Hp. cbn [opt_str]. rewrite Ht.
  rewrite bind_assoc, bind_hash_string. cbv zeta.
  rewrite bind_assoc, bind_lift, Hid, bind_ret. cbn [fst snd].
  rewrite bind_pool_execute. cbn [store clock entropy].
  rewrite execute_funcionario_update_senha.
  destruct (Mysql.funcionario_change_senha _ (store w)) as [[resultado | e] db];
    [| reflexivity].
  cbv zeta. cbn [fst snd]. rewrite bind_lift.
  destruct (get resultado "affectedRows") as [affectedRows | e]; reflexivity.
Qed.

(** [updateFuncionario] on a full, well-formed payload. *)
Lemma updateFuncionario_run id body json nome email senha vale idCargo w :
  get body "funcionario" = Ok json ->
  carries json nome email senha vale idCargo ->
  well_formed nome email senha vale idCargo ->
  positive_id id ->
  let params := update_params w id nome email senha vale idCargo in
  let x := Mysql.funcionario_change_senha params (store w) in
  FuncionarioService.updateFuncionario id body w =
  (match fst x with
   | Ok resultado =>
       match get resultado "affectedRows" with
       | Ok affectedRows => Ok (VBool (gt_zero affectedRows))
       | Throw e => Throw e
       end
   | Throw e => Throw e
   end,
   mkWorld (snd x) (clock w) (S (entropy w)),
   [Log "FuncionarioService.updateFuncionario()"; Log "FuncionarioDAO.update()";
    Hash (trim senha) 12; Execute Sql.funcionario_update_senha params]).
Proof.
  intros Hb (Hn & He & Hs & Hv & c & Hc & Hi) (Wn & We & Ws & Wv & Wi) Wid.
  cbv zeta. unfold FuncionarioService.updateFuncionario.
  rewrite bind_console_log. cbv zeta.
  rewrite bind_lift, Hb, bind_lift, Hc, bind_lift, Hi, bind_lift.
  erewrite set_idCargo_accepts by exact Wi.
  rewrite bind_lift. erewrite set_idFuncionario_accepts by exact Wid.
  rewrite bind_lift, Hn, bind_lift.
  erewrite set_nomeFuncionario_accepts by exact Wn.
  rewrite bind_lift, He, bind_lift. erewrite set_email_accepts by exact We.
  rewrite bind_lift, Hs, bind_lift. erewrite set_senha_accepts by exact Ws.
  rewrite bind_lift, Hv, bind_lift.
  erewrite set_recebeValeTransporte_accepts by exact Wv.
  rewrite bind_lift. cbn [FuncionarioModel.set_cargo].
  cbn [priv_idFuncionario priv_cargo priv_nomeFuncionario priv_email priv_senha
       priv_recebeValeTransporte priv_idCargo priv_nomeCargo
       FuncionarioModel.new CargoModel.new].
  erewrite DAO_update_run;
    [| reflexivity | exact (policy_nonempty Ws) | reflexivity].
  cbn [fst snd]. unfold update_params. reflexivity.
Qed.

Lemma set_on_undefined :
  (forall this, exists msg,
      FuncionarioModel.set_nomeFuncionario this VUndefined = Throw (Error msg None))
  /\ (forall this, exists msg,
         FuncionarioModel.set_email this VUndefined = Throw (Error msg None))
  /\ (forall this, exists msg,
         FuncionarioModel.set_senha this VUndefined = Throw (Error msg None))
  /\ (forall this, exists msg,
         FuncionarioModel.set_recebeValeTransporte this VUndefined
         = Throw (Error msg None)).
Proof. repeat split; intros this; eexists; reflexivity. Qed.

(** An update payload without one of the members fails before anything is
    executed. *)
Lemma updateFuncionario_omitted id body json k w :
  get body "funcionario" = Ok json ->
  In k ["nomeFuncionario"; "email"; "recebeValeTransporte"; "cargo"]%string ->
  omits json k ->
  exists e,
    FuncionarioService.updateFuncionario id body w =
    (Throw e, w, [Log "FuncionarioService.updateFuncionario()"]).
Proof.
  intros Hb Hk Ho. unfold omits in Ho.
  destruct set_on_undefined as (Sn & Se & _ & Sv).
  unfold FuncionarioService.updateFuncionario. rewrite bind_console_log.
  cbv zeta.
  match goal with
  | |- exists e, (outcome ?r, after ?r, _ :: events ?r) = _ =>
      assert (H : exists e, r = (Throw e, w, []));
      [| destruct H as [e ->]; exists e; reflexivity]
  end.
  rewrite bind_lift, Hb.
  simpl in Hk. destruct Hk as [<- | [<- | [<- | [<- | []]]]].
  - do 4 (step_lift; [| eauto]). rewrite bind_lift, Ho, bind_lift.
    match goal with
    | |- context [FuncionarioModel.set_nomeFuncionario ?f VUndefined] =>
        destruct (Sn f) as [msg ->]
    end. eauto.
  - do 6 (step_lift; [| eauto]). rewrite bind_lift, Ho, bind_lift.
    match goal with
    | |- context [FuncionarioModel.set_email ?f VUndefined] =>
        destruct (Se f) as [msg ->]
    end. eauto.
  - do 10 (step_lift; [| eauto]). rewrite bind_lift, Ho, bind_lift.
    match goal with
    | |- context [FuncionarioModel.set_recebeValeTransporte ?f VUndefined] =>
        destruct (Sv f) as [msg ->]
    end. eauto.
  - rewrite bind_lift, Ho, bind_lift. cbn [get]. eauto.
Qed.

End Update.

(** C9 (as the code has it). An update payload from which the name, the
    e-mail address, the commute flag or the role is absent makes the
    service throw before anything is executed. On a payload that carries
    valid values for all members, the service hashes the password and
    executes the one update statement that writes every column, the digest
    among them. *)
Theorem C9_update_takes_a_full_payload {rt : JsRuntime} {bc : Bcrypt}
  (id body json : jsval) (w : World) :
  get body "funcionario" = Ok json ->
  (forall k,
     In k ["nomeFuncionario"; "email"; "recebeValeTransporte"; "cargo"]%string ->
     omits json k ->
     exists e,
       FuncionarioService.updateFuncionario id body w =
       (Throw e, w, [Log "FuncionarioService.updateFuncionario()"]))
  /\ (forall nome email senha vale idCargo,
        carries json nome email senha vale idCargo ->
        well_formed nome email senha vale idCargo ->
        positive_id id ->
        let params := update_params w id nome email senha vale idCargo in
        events (FuncionarioService.updateFuncionario id body w) =
        [ Log "FuncionarioService.updateFuncionario()";
          Log "FuncionarioDAO.update()"; Hash (trim senha) 12;
          Execute Sql.funcionario_update_senha params ]
        /\ store (after (FuncionarioService.updateFuncionario id body w)) =
           snd (Mysql.funcionario_change_senha params (store w))).
Proof.
  intros Hb. split.
  - intros k Hk Ho. eapply updateFuncionario_omitted; eassumption.
  - intros nome email senha vale idCargo Hc Hw Hid. cbv zeta.
    erewrite updateFuncionario_run by eassumption. split; reflexivity.
Qed.

(** ** The token check *)

Section TokenCheck.
Context {rt : JsRuntime} {bc : Bcrypt} {jwt : MeuTokenJWT}.

Lemma validateToken_refuses request w :
  validarToken (clock w) (authorization request) <> VBool true ->
  JwtMiddleware.validateToken request w =
  (Ok (Send token_refused), w, [Log "JwtMiddleware.validateToken()"]).
Proof.
  intros H. unfold JwtMiddleware.validateToken.
  rewrite bind_console_log. cbv zeta. rewrite bind_now.
  destruct (validarToken (clock w) (authorization request))
    as [| | [|] | | | | | |]; try reflexivity.
  contradiction H. reflexivity.
Qed.


Lemma protected_route_starts_with_check route :
  In route (FuncionarioRoteador.createRoutes ++ CargoRoteador.createRoutes) ->
  protected route = true ->
  exists rest, handlers route = JwtMiddleware.validateToken :: rest.
Proof.
  intros Hin Hp. simpl in Hin.
  repeat match goal with
    | H : _ \/ _ |- _ => destruct H as [H | H]
    end;
    try contradiction; subst route; try discriminate;
    eexists; reflexivity.
Qed.

End TokenCheck.

(** C2. On every route registered behind the token check (all routes of
    the two routers but the login), a request whose [authorization] header
    the token service does not answer [true] for, be it absent, malformed,
    expired or wrongly signed, is answered 401 by the middleware; the only
    thing that ran is the middleware: no later handler, hence no controller,
    service or DAO, was entered, and the store is untouched. *)
Theorem C2_invalid_token_stops_the_request
  {rt : JsRuntime} {bc : Bcrypt} {jwt : MeuTokenJWT}
  (route : Route) (request : Request) (w : World) :
  In route (FuncionarioRoteador.createRoutes ++ CargoRoteador.createRoutes) ->
  protected route = true ->
  validarToken (clock w) (authorization request) <> VBool true ->
  Server.serve (handlers route) request w =
  (Ok token_refused, w, [Log "JwtMiddleware.validateToken()"])
  /\ forall downstream,
       Server.serve (JwtMiddleware.validateToken :: downstream) request w =
       (Ok token_refused, w, [Log "JwtMiddleware.validateToken()"]).
Proof.
  intros Hin Hp Hv.
  assert (H : forall downstream,
    Server.serve (JwtMiddleware.validateToken :: downstream) request w =
    (Ok token_refused, w, [Log "JwtMiddleware.validateToken()"])).
  { intros downstream. apply serve_returns. rewrite run_cons.
    erewrite bind_run by (apply validateToken_refuses; exact Hv).
    reflexivity. }
  split; [| exact H].
  destruct (protected_route_starts_with_check Hin Hp) as [rest ->].
  apply H.
Qed.


(** ** The role lookup of [createFuncionario] *)

Section RoleLookup.
Context {rt : JsRuntime} {bc : Bcrypt}.

Lemma set_senha_throws this v e :
  FuncionarioModel.set_senha this v = Throw e ->
  instanceof_ErrorResponse e = false.
Proof.
  intros H. destruct (thrown_plain (Set_senha this v) (e := e)) as [msg ->];
    [simpl; rewrite H |]; reflexivity.
Qed.

Lemma set_idFuncionario_throws this v e :
  FuncionarioModel.set_idFuncionario this v = Throw e ->
  instanceof_ErrorResponse e = false.
Proof.
  intros H. destruct (thrown_plain (Set_idFuncionario this v) (e := e)) as [msg ->];
    [simpl; rewrite H |]; reflexivity.
Qed.

(** What the role check of [createFuncionario] tests: the [length] of a
    promise is [undefined], and [undefined == 0] is false. *)
Lemma role_check_is_dead (m : M jsval) (w : World) :
  exists p, outcome (call_async m w) = Ok p
            /\ get p "length" = Ok VUndefined
            /\ loose_eq_number VUndefined (JInt 0) = false.
Proof.
  unfold call_async. destruct (m w) as [[o w1] t1]. exists (VPromise o).
  repeat split.
Qed.

(** On a well-formed payload with a new e-mail address, whatever the
    store holds for the role: no [ErrorResponse] is thrown, so the request
    is never refused as a bad request; and when the role does not exist the
    creation still fails, after the password was hashed, with the store as
    it was. *)
Lemma missing_role_is_never_refused json nome email senha vale idCargo z w :
  carries json nome email senha vale idCargo ->
  well_formed nome email senha vale idCargo ->
  email_registered (store w) (trim email) = false ->
  (forall e,
     outcome (FuncionarioService.createFuncionario json w) = Throw e ->
     instanceof_ErrorResponse e = false)
  /\ (Number idCargo = JInt z ->
      Mysql.has_cargo (store w) z = false ->
      (exists e, outcome (FuncionarioService.createFuncionario json w) = Throw e)
      /\ In (Hash (trim senha) 12)
           (events (FuncionarioService.createFuncionario json w))
      /\ store (after (FuncionarioService.createFuncionario json w)) = store w).
Proof.
  intros Hc Hw Hreg.
  rewrite (@createFuncionario_run _ _ _ _ _ _ _ _ w Hc Hw), Hreg. cbv zeta.
  rewrite (create_run (built None nome email senha vale idCargo) w eq_refl).
  cbv zeta.
  destruct (FuncionarioModel.set_senha _ _) as [f' | e0] eqn:Hset.
  2: { cbn [outcome after events fst snd]. split.
       - intros e E. inversion E; subst. eapply set_senha_throws; eassumption.
       - intros _ _. repeat split; eauto.
         apply in_or_app. right. right. left. reflexivity. }
  apply set_senha_Ok in Hset as (s0 & Es & ->). inversion Es; subst s0. clear Es.
  cbn [FuncionarioModel.cargo built priv_cargo priv_idFuncionario
       priv_nomeFuncionario priv_email priv_recebeValeTransporte get
       String.eqb Ascii.eqb Bool.eqb priv_idCargo opt_num opt_str
       FuncionarioModel.nomeFuncionario FuncionarioModel.email
       FuncionarioModel.recebeValeTransporte].
  unfold Mysql.funcionario_insert. cbn [Mysql.text].
  destruct Hw as (_ & _ & _ & Wv & (z' & Ez & Hz)).
  rewrite Ez. cbn [Mysql.int].
  assert (Hv : exists v, Mysql.int vale = Some v)
    by (destruct Wv as [-> | ->]; eexists; reflexivity).
  destruct Hv as [v ->].
  destruct (Mysql.has_cargo (store w) z') eqn:Hhas.
  - cbn [outcome after events fst snd get Mysql.ResultSetHeader lookup String.eqb
         Ascii.eqb Bool.eqb].
    split.
    + destruct (negb (truthy (VNum (JInt (Mysql.funcionario_AUTO_INCREMENT
                                            (store w)))))); cbn [fst snd].
      * intros e E. inversion E. reflexivity.
      * intros e E. eapply set_idFuncionario_throws. exact E.
    + intros E. inversion E; subst z'. congruence.
  - cbn [outcome after events fst snd Mysql.rejected]. split.
    + intros e E. inversion E. reflexivity.
    + intros _ _. repeat split; eauto.
      apply in_or_app. right. right. left. reflexivity.
Qed.

End RoleLookup.

(** ** Trimming *)

Section TrimFacts.

Lemma trimStart_starts_clean s : starts_clean (trimStart s).
Proof.
  induction s as [| c s IH]; simpl; [exact I |].
  destruct (is_js_space c) eqn:E; [exact IH | simpl; exact E].
Qed.

Lemma trimStart_fixed s : starts_clean s -> trimStart s = s.
Proof. destruct s as [| c s]; simpl; [reflexivity | intros ->; reflexivity]. Qed.

Lemma trimStart_suffix s : exists p, s = p ++ trimStart s.
Proof.
  induction s as [| c s [p IH]]; simpl; [exists []; reflexivity |].
  destruct (is_js_space c).
  - exists (c :: p). simpl. rewrite <- IH. reflexivity.
  - exists []. reflexivity.
Qed.

Lemma starts_clean_prefix a b : a <> [] -> starts_clean (a ++ b) -> starts_clean a.
Proof. destruct a; [congruence | simpl; auto]. Qed.

Lemma trim_idempotent s : trim (trim s) = trim s.
Proof.
  unfold trim, trimEnd.
  pose proof (trimStart_starts_clean s) as Ht.
  pose proof (trimStart_starts_clean (rev (trimStart s))) as Hu.
  destruct (trimStart_suffix (rev (trimStart s))) as [p Hp].
  remember (trimStart s) as t eqn:Et. clear Et s.
  remember (trimStart (rev t)) as u eqn:Eu. clear Eu.
  destruct u as [| c u]; [reflexivity |].
  assert (Hrt : t = rev (c :: u) ++ rev p).
  { rewrite <- rev_app_distr, <- Hp, rev_involutive. reflexivity. }
  assert (Hc : starts_clean (rev (c :: u))).
  { apply starts_clean_prefix with (b := rev p).
    - simpl. intros E. apply app_eq_nil in E as [_ E]. discriminate.
    - rewrite <- Hrt. exact Ht. }
  rewrite (trimStart_fixed _ Hc), rev_involutive, (trimStart_fixed _ Hu).
  reflexivity.
Qed.

End TrimFacts.

(** ** Routes of one handler *)

Section Serving.

Lemma serve_first_throws handler rest request w e w1 t1 :
  handler request w = (Throw e, w1, t1) ->
  Server.serve (handler :: rest) request w =
  (outcome (Server.errorHandler e w1), after (Server.errorHandler e w1),
   t1 ++ events (Server.errorHandler e w1)).
Proof.
  intros H. apply serve_throws. rewrite run_cons.
  erewrite bind_run_throw by exact H. reflexivity.
Qed.

Lemma serve_last_sends handler request w response w1 t1 :
  handler request w = (Ok (Send response), w1, t1) ->
  Server.serve [handler] request w = (Ok response, w1, t1).
Proof.
  intros H. apply serve_returns. rewrite run_cons.
  erewrite bind_run by exact H. unfold ret, outcome, after, events.
  cbn [fst snd]. rewrite app_nil_r. reflexivity.
Qed.

End Serving.

(** ** Values read back from the value objects *)

Section Reaccept.
Context {rt : JsRuntime}.

Ltac setter_cases H :=
  repeat match type of H with
    | (if ?b then _ else _) = Ok _ =>
        let E := fresh "E" in destruct b eqn:E; [discriminate H |]
    | (match ?v with VStr _ => _ | _ => _ end) = Ok _ =>
        destruct v; try discriminate H; cbv zeta in H
    end;
  try (injection H as <-).

(** X1. What a getter returns after a successful assignment is accepted by
    the same setter again, on any object, and read back unchanged: for the
    id and the name of a role, and for the id, the name, the e-mail
    address, the password and the commute flag of an employee.
    [FuncionarioDAO.login] relies on it when it copies a row into a new
    object. *)
Theorem stored_values_pass_the_setters_again :
  (forall this that v c,
      CargoModel.set_idCargo this v = Ok c ->
      CargoModel.set_idCargo that (CargoModel.idCargo c)
      = Ok (mkCargo (priv_idCargo c) (priv_nomeCargo that)))
  /\ (forall this that v c,
         CargoModel.set_nomeCargo this v = Ok c ->
         CargoModel.set_nomeCargo that (CargoModel.nomeCargo c)
         = Ok (mkCargo (priv_idCargo that) (priv_nomeCargo c)))
  /\ (forall this that v f,
         FuncionarioModel.set_idFuncionario this v = Ok f ->
         exists f',
           FuncionarioModel.set_idFuncionario that (FuncionarioModel.idFuncionario f)
           = Ok f'
           /\ FuncionarioModel.idFuncionario f' = FuncionarioModel.idFuncionario f)
  /\ (forall this that v f,
         FuncionarioModel.set_nomeFuncionario this v = Ok f ->
         exists f',
           FuncionarioModel.set_nomeFuncionario that
             (FuncionarioModel.nomeFuncionario f) = Ok f'
           /\ FuncionarioModel.nomeFuncionario f' = FuncionarioModel.nomeFuncionario f)
  /\ (forall this that v f,
         FuncionarioModel.set_email this v = Ok f ->
         exists f',
           FuncionarioModel.set_email that (FuncionarioModel.email f) = Ok f'
           /\ FuncionarioModel.email f' = FuncionarioModel.email f)
  /\ (forall this that v f,
         FuncionarioModel.set_senha this v = Ok f ->
         exists f',
           FuncionarioModel.set_senha that (FuncionarioModel.senha f) = Ok f'
           /\ FuncionarioModel.senha f' = FuncionarioModel.senha f)
  /\ (forall this that v f,
         FuncionarioModel.set_recebeValeTransporte this v = Ok f ->
         exists f',
           FuncionarioModel.set_recebeValeTransporte that
             (FuncionarioModel.recebeValeTransporte f) = Ok f'
           /\ FuncionarioModel.recebeValeTransporte f'
              = FuncionarioModel.recebeValeTransporte f).
Proof.
  repeat match goal with |- _ /\ _ => split end; intros this that v c H.
  - unfold CargoModel.set_idCargo in *. cbv zeta in *. setter_cases H.
    cbn [CargoModel.idCargo priv_idCargo priv_nomeCargo opt_num Number].
    rewrite E, E0. reflexivity.
  - unfold CargoModel.set_nomeCargo in *. setter_cases H.
    cbn [CargoModel.nomeCargo priv_idCargo priv_nomeCargo opt_str].
    cbv zeta. rewrite trim_idempotent, E, E0. reflexivity.
  - unfold FuncionarioModel.set_idFuncionario in *. cbv zeta in *. setter_cases H.
    cbn [FuncionarioModel.idFuncionario priv_idFuncionario opt_num Number].
    rewrite E, E0. eexists; split; reflexivity.
  - unfold FuncionarioModel.set_nomeFuncionario in *. setter_cases H.
    cbn [FuncionarioModel.nomeFuncionario priv_nomeFuncionario opt_str].
    cbv zeta. rewrite trim_idempotent, E. eexists; split; reflexivity.
  - unfold FuncionarioModel.set_email in *. setter_cases H.
    cbn [FuncionarioModel.email priv_email opt_str].
    cbv zeta. rewrite trim_idempotent, E, E0. eexists; split; reflexivity.
  - unfold FuncionarioModel.set_senha in *. setter_cases H.
    cbn [FuncionarioModel.senha priv_senha opt_str].
    cbv zeta. rewrite trim_idempotent, E, E0, E1, E2, E3.
    eexists; split; reflexivity.
  - unfold FuncionarioModel.set_recebeValeTransporte in *. setter_cases H.
    cbn [FuncionarioModel.recebeValeTransporte priv_recebeValeTransporte].
    rewrite E. eexists; split; reflexivity.
Qed.

End Reaccept.

(** ** The body check of the creation and update routes *)

Section CreateBody.
Context {rt : JsRuntime}.

Lemma missing_false v : missing v = false <-> present v.
Proof.
  unfold present. split.
  - intros H. repeat split; intros ->; discriminate.
  - intros (H1 & H2 & H3). destruct v as [| | | | [|] | | | |]; try reflexivity; congruence.
Qed.

Lemma includes_0_1_true v :
  includes_0_1 v = true <-> v = VNum (JInt 0) \/ v = VNum (JInt 1).
Proof.
  split.
  - destruct v as [| | | [[| [| |] |] | | |] | | | | |]; try discriminate; auto.
  - intros [-> | ->]; reflexivity.
Qed.

Lemma not_positive_integer_false v :
  not_positive_integer v = false <-> exists z, v = VNum (JInt z) /\ 0 < z.
Proof.
  split.
  - destruct v as [| | | [z | | |] | | | | |]; try discriminate.
    simpl. intros H. apply Z.leb_gt in H. eauto.
  - intros (z & -> & H). simpl. apply Z.leb_gt. exact H.
Qed.

Lemma get_VObj_idCargo c z :
  get c "idCargo" = Ok (VNum (JInt z)) ->
  truthy c = true /\ typeof_not_object c = false.
Proof.
  destruct c as [| | | | s | xs | | |]; try discriminate; auto.
Qed.

(** X2. On a body that is an object, the body check of the creation and
    update routes reads nothing but the request and writes one line to the
    console. It passes the request on unchanged exactly when the member
    [funcionario] is a creation payload; in every other case it throws the
    [ErrorResponse] 400 of a validation error, never another error. *)
Theorem validateCreateBody_screens request fields w :
  body request = VObj fields ->
  let r := FuncionarioMiddleware.validateCreateBody request w in
  after r = w
  /\ events r = [Log "FuncionarioMiddleware.validateCreateBody()"]
  /\ ((creation_payload (lookup "funcionario" fields)
       /\ outcome r = Ok (Next request))
      \/ (~ creation_payload (lookup "funcionario" fields)
          /\ exists detail, outcome r = Throw (bad_request detail))).
Proof.
  intros Hb. cbv zeta. unfold FuncionarioMiddleware.validateCreateBody.
  rewrite bind_console_log. cbv zeta. rewrite Hb, bind_lift. cbn [get].
  remember (lookup "funcionario" fields) as f eqn:Ef. clear Ef.
  match goal with
  | |- after (outcome ?r, _, _) = _ /\ _ =>
      assert (H : exists o,
                 r = (o, w, [])
                 /\ ((creation_payload f /\ o = Ok (Next request))
                     \/ (~ creation_payload f
                         /\ exists detail, o = Throw (bad_request detail))));
      [| destruct H as (o & -> & Ho); unfold outcome, after, events;
         cbn [fst snd]; auto]
  end.
  assert (Hno : forall o : Outcome Step,
             (forall fs, f <> VObj fs) ->
             (exists detail, o = Throw (bad_request detail)) ->
             (creation_payload f /\ o = Ok (Next request))
             \/ (~ creation_payload f
                 /\ exists detail, o = Throw (bad_request detail))).
  { intros o Hf Ho. right. split; [| exact Ho].
    intros (fs & z & E & _). exact (Hf fs E). }
  destruct f as [| | [|] | n | s | xs | fs | c | p];
    try (eexists; split; [reflexivity |]; apply Hno;
         [intros fs; discriminate | eexists; reflexivity]).
  - (* a number *)
    destruct (truthy (VNum n)) eqn:T; cbn [negb];
      (eexists; split; [reflexivity |]; apply Hno;
         [intros fs; discriminate | eexists; reflexivity]).
  - (* a string *)
    destruct s as [| c s];
      (eexists; split; [reflexivity |]; apply Hno;
         [intros fs; discriminate | eexists; reflexivity]).
  - clear Hno. cbn [truthy negb]. rewrite bind_lift.
    cbn [FuncionarioMiddleware.required obind get].
    assert (Hbad : forall (P : Prop) (o : Outcome Step),
               (creation_payload (VObj fs) -> P) -> ~ P ->
               (exists detail, o = Throw (bad_request detail)) ->
               (creation_payload (VObj fs) /\ o = Ok (Next request))
               \/ (~ creation_payload (VObj fs)
                   /\ exists detail, o = Throw (bad_request detail))).
    { intros P o HP HnP Ho. right. split; [tauto | exact Ho]. }
    destruct (missing (lookup "nomeFuncionario" fs)) eqn:M1.
    { eexists; split; [reflexivity |].
      apply (Hbad (present (lookup "nomeFuncionario" fs)));
        [| rewrite <- missing_false; congruence | eexists; reflexivity].
      intros (fs' & z & E & P1 & _). inversion E; subst; exact P1. }
    destruct (missing (lookup "email" fs)) eqn:M2.
    { eexists; split; [reflexivity |].
      apply (Hbad (present (lookup "email" fs)));
        [| rewrite <- missing_false; congruence | eexists; reflexivity].
      intros (fs' & z & E & _ & P2 & _). inversion E; subst; exact P2. }
    destruct (missing (lookup "senha" fs)) eqn:M3.
    { eexists; split; [reflexivity |].
      apply (Hbad (present (lookup "senha" fs)));
        [| rewrite <- missing_false; congruence | eexists; reflexivity].
      intros (fs' & z & E & _ & _ & P3 & _). inversion E; subst; exact P3. }
    destruct (missing (lookup "recebeValeTransporte" fs)) eqn:M4.
    { eexists; split; [reflexivity |].
      apply (Hbad (lookup "recebeValeTransporte" fs = VNum (JInt 0)
                   \/ lookup "recebeValeTransporte" fs = VNum (JInt 1)));
        [| intros [E | E]; rewrite E in M4; discriminate | eexists; reflexivity].
      intros (fs' & z & E & _ & _ & _ & P4 & _). inversion E; subst; exact P4. }
    rewrite bind_lift.
    destruct (includes_0_1 (lookup "recebeValeTransporte" fs)) eqn:V; cbn [negb].
    2:{ eexists; split; [reflexivity |].
      apply (Hbad (lookup "recebeValeTransporte" fs = VNum (JInt 0)
                   \/ lookup "recebeValeTransporte" fs = VNum (JInt 1)));
        [| rewrite <- includes_0_1_true; congruence | eexists; reflexivity].
      intros (fs' & z & E & _ & _ & _ & P4 & _). inversion E; subst; exact P4. }
    rewrite bind_lift.
    destruct (negb (truthy (lookup "cargo" fs))
              || typeof_not_object (lookup "cargo" fs)) eqn:C.
    { eexists; split; [reflexivity |].
      apply (Hbad (exists z, get (lookup "cargo" fs) "idCargo" = Ok (VNum (JInt z))));
        [| | eexists; reflexivity].
      - intros (fs' & z & E & _ & _ & _ & _ & P5 & _). inversion E; subst; eauto.
      - intros [z Hz]. apply get_VObj_idCargo in Hz as [T O].
        rewrite T, O in C. discriminate. }
    rewrite bind_lift.
    destruct (get (lookup "cargo" fs) "idCargo") as [idCargo | e] eqn:G.
    2:{ destruct (lookup "cargo" fs); discriminate. }
    destruct (not_positive_integer idCargo) eqn:N.
    { eexists; split; [reflexivity |].
      apply (Hbad (exists z, idCargo = VNum (JInt z) /\ 0 < z));
        [| rewrite <- not_positive_integer_false; congruence | eexists; reflexivity].
      intros (fs' & z & E & _ & _ & _ & _ & P5 & P6). inversion E; subst.
      rewrite G in P5. inversion P5; subst. eauto. }
    eexists; split; [reflexivity |]. left. split; [| reflexivity].
    apply not_positive_integer_false in N as (z & -> & Hz).
    exists fs, z. rewrite <- !missing_false, <- includes_0_1_true. auto 10.
Qed.

End CreateBody.

(** ** The body check of the login route *)

Section LoginBody.
Context {rt : JsRuntime} {bc : Bcrypt} {jwt : MeuTokenJWT}.

Lemma not_space_or_at_clean c :
  FuncionarioModel.not_space_or_at c = true -> is_js_space c = false.
Proof.
  unfold FuncionarioModel.not_space_or_at. intros H.
  apply negb_true_iff, orb_false_iff in H as [H _]. exact H.
Qed.

Lemma forallb_clean s :
  forallb FuncionarioModel.not_space_or_at s = true -> existsb is_js_space s = false.
Proof.
  induction s as [| c s IH]; simpl; [reflexivity |].
  intros H. apply andb_true_iff in H as [Hc Hs].
  rewrite (not_space_or_at_clean _ Hc), (IH Hs). reflexivity.
Qed.

(** An address of the shape [local@domain.tld] holds no white space. *)
Lemma email_shape_clean s : email_shape s -> existsb is_js_space s = false.
Proof.
  intros (a & b & c & -> & _ & _ & _ & H).
  rewrite !forallb_app in H.
  apply andb_true_iff in H as [Ha H]. apply andb_true_iff in H as [Hb Hc].
  rewrite !existsb_app, (forallb_clean _ Ha), (forallb_clean _ Hb),
    (forallb_clean _ Hc). reflexivity.
Qed.

Lemma email_shape_trim s : email_shape s -> trim s = s.
Proof. intros H. apply trim_no_space, email_shape_clean, H. Qed.

Lemma get_email_VObj json s :
  get json "email" = Ok (VStr s) -> exists fs, json = VObj fs.
Proof.
  destruct json as [| | | | s0 | xs | fs | c | p]; simpl; try discriminate.
  eauto.
Qed.

(** The body check of the login route on credentials that are strings. *)
Lemma validateLoginBody_strings json email senha w :
  get json "email" = Ok (VStr email) ->
  get json "senha" = Ok (VStr senha) ->
  FuncionarioMiddleware.validateLoginBody (login_request json) w =
  (if jsstring_eqb (trim email) [] || jsstring_eqb (trim senha) []
      || negb (accepts FuncionarioModel.emailRegex email)
   then
     Throw (bad_request
              (if jsstring_eqb (trim email) [] then
                 js "O campo '" ++ js "email" ++ js "' é obrigatório!"
               else if jsstring_eqb (trim senha) [] then
                 js "O campo '" ++ js "senha" ++ js "' é obrigatório!"
               else js "O campo 'email' não é um e-mail válido"))
   else Ok (Next (login_request json)),
   w, [Log "FuncionarioMiddleware.validateLoginBody()"]).
Proof.
  intros He Hs. destruct (get_email_VObj _ He) as [fs ->].
  cbn [get] in He, Hs. injection He as He. injection Hs as Hs.
  unfold FuncionarioMiddleware.validateLoginBody.
  rewrite bind_console_log. cbv zeta.
  match goal with
  | |- (outcome ?r, _, _) = (?o, _, _) =>
      assert (H : r = (o, w, [])); [| rewrite H; reflexivity]
  end.
  cbn [body login_request]. rewrite bind_lift.
  cbn [get lookup String.eqb Ascii.eqb Bool.eqb truthy negb].
  rewrite bind_lift. cbn [FuncionarioMiddleware.required_login get].
  rewrite He, Hs. cbn [obind interpolate].
  assert (Ht : forall s, jsstring_eqb (trim s) [] = false -> truthy (VStr s) = true).
  { intros [| c s] H; [discriminate H | reflexivity]. }
  destruct (jsstring_eqb (trim email) []) eqn:E1.
  { rewrite orb_true_r. reflexivity. }
  rewrite (Ht _ E1). cbn [negb orb].
  destruct (jsstring_eqb (trim senha) []) eqn:E2.
  { rewrite orb_true_r. reflexivity. }
  rewrite (Ht _ E2). cbn [negb orb].
  rewrite bind_lift. cbn [interpolate].
  destruct (accepts FuncionarioModel.emailRegex email); reflexivity.
Qed.


(** X4. A login attempt with a well-formed address and a password that is
    not blank but breaks the password rule passes the body check and is
    stopped by the password setter of the service: the route answers 500,
    not 401, and neither the store nor the hash library is used. *)
Theorem login_with_a_password_off_policy_is_an_internal_error
  json email senha w :
  get json "email" = Ok (VStr email) ->
  get json "senha" = Ok (VStr senha) ->
  email_shape email ->
  trim senha <> [] ->
  ~ password_policy (trim senha) ->
  let r := Server.serve
             [FuncionarioMiddleware.validateLoginBody; FuncionarioControl.login]
             (login_request json) w in
  (exists sent, outcome r = Ok (mkResponse 500 sent))
  /\ after r = w
  /\ effects (events r) = [].
Proof.
  intros He Hs We Hne Hbad. cbv zeta.
  pose proof (email_shape_trim We) as Et.
  assert (Hmw : FuncionarioMiddleware.validateLoginBody (login_request json) w =
                (Ok (Next (login_request json)), w,
                 [Log "FuncionarioMiddleware.validateLoginBody()"])).
  { rewrite (validateLoginBody_strings _ w He Hs), Et.
    destruct (jsstring_eqb email []) eqn:E1.
    { apply jsstring_eqb_eq in E1. subst email.
      destruct We as (a & b & c & E & Ha & _). destruct a; [congruence | discriminate]. }
    destruct (jsstring_eqb (trim senha) []) eqn:E2.
    { apply jsstring_eqb_eq in E2. contradiction. }
    apply emailRegex_shape in We. rewrite We. reflexivity. }
  destruct (set_senha_rejects
              (mkFuncionario None None None (Some email) None None) senha Hbad)
    as [msg Hrej].
  assert (Hsvc : FuncionarioService.loginFuncionario json w =
                 (Throw (Error msg None), w,
                  [Log "FuncionarioService.loginFuncionario()"])).
  { unfold FuncionarioService.loginFuncionario. rewrite bind_console_log.
    cbv zeta. rewrite bind_lift, He, bind_lift.
    rewrite set_email_accepts by (rewrite Et; exact We). rewrite Et.
    rewrite bind_lift, Hs, bind_lift.
    cbn [FuncionarioModel.new priv_idFuncionario priv_cargo priv_nomeFuncionario
         priv_email priv_senha priv_recebeValeTransporte].
    rewrite Hrej. reflexivity. }
  assert (Hctl : FuncionarioControl.login (login_request json) w =
                 (Throw (Error msg None), w,
                  [Log "FuncionarioControl.login()";
                   Log "FuncionarioService.loginFuncionario()"])).
  { unfold FuncionarioControl.login. rewrite bind_console_log, bind_lift.
    cbn [body login_request get lookup String.eqb Ascii.eqb Bool.eqb].
    erewrite bind_run_throw by exact Hsvc. reflexivity. }
  assert (Hrun : Server.run
                   [FuncionarioMiddleware.validateLoginBody; FuncionarioControl.login]
                   (login_request json) w =
                 (Throw (Error msg None), w,
                  [Log "FuncionarioMiddleware.validateLoginBody()";
                   Log "FuncionarioControl.login()";
                   Log "FuncionarioService.loginFuncionario()"])).
  { rewrite run_cons. erewrite bind_run by exact Hmw. cbv beta iota.
    rewrite run_cons. erewrite bind_run_throw by exact Hctl. reflexivity. }
  rewrite (serve_throws _ _ _ Hrun).
  destruct (@errorHandler_internal (Error msg None) w eq_refl) as (sent & Hh & _).
  rewrite Hh. unfold outcome, after, events. cbn [fst snd app].
  split; [eexists; reflexivity |]. split; reflexivity.
Qed.

End LoginBody.

(** ** The body check of the role routes *)

Section CargoBody.

Lemma get_truthy c k : truthy c = true -> exists v, get c k = Ok v.
Proof.
  destruct c; simpl; try discriminate; eauto.
Qed.

Lemma get_nomeCargo_truthy c s : get c "nomeCargo" = Ok (VStr s) -> truthy c = true.
Proof. destruct c; simpl; try discriminate; auto. Qed.

(** X5. On a body that is an object, the body check of the role routes
    reads nothing but the request. It passes the request on exactly when
    [cargo.nomeCargo] is a string that is not blank; a name that is truthy
    without being a string makes it throw a [TypeError], which the route
    answers with 500; in every other case it throws the 400 of a
    validation error. *)
Theorem validateBody_screens request fields w :
  body request = VObj fields ->
  let cargo := lookup "cargo" fields in
  let r := CargoMiddleware.validateBody request w in
  after r = w
  /\ events r = [Log "CargoMiddleware.validateBody()"]
  /\ (outcome r = Ok (Next request)
      <-> exists s, get cargo "nomeCargo" = Ok (VStr s) /\ trim s <> [])
  /\ ((exists msg, outcome r = Throw (TypeError msg))
      <-> exists v, truthy cargo = true /\ get cargo "nomeCargo" = Ok v
                    /\ truthy v = true /\ forall s, v <> VStr s)
  /\ (outcome r = Ok (Next request)
      \/ (exists msg, outcome r = Throw (TypeError msg))
      \/ exists detail, outcome r = Throw (bad_request detail))
  /\ forall msg rest,
       outcome r = Throw (TypeError msg) ->
       exists sent,
         outcome (Server.serve (CargoMiddleware.validateBody :: rest) request w)
         = Ok (mkResponse 500 sent).
Proof.
  intros Hb. cbv zeta.
  match goal with
  | |- ?A /\ ?B /\ ?C /\ ?D /\ ?E /\ ?F =>
      assert (H : A /\ B /\ C /\ D /\ E);
      [| destruct H as (H1 & H2 & H3 & H4 & H5);
         do 5 (split; [assumption |]);
         intros msg rest Hm;
         destruct (CargoMiddleware.validateBody request w) as [[o w1] t1] eqn:Hr;
         unfold outcome, after, events in H1, H2, Hm; cbn [fst snd] in H1, H2, Hm;
         subst o w1 t1;
         erewrite serve_first_throws by exact Hr;
         destruct (@errorHandler_internal (TypeError msg) w eq_refl)
           as (sent & Hh & _);
         rewrite Hh; eexists; reflexivity]
  end.
  unfold CargoMiddleware.validateBody.
  rewrite bind_console_log. cbv zeta. rewrite Hb, bind_lift. cbn [get].
  remember (lookup "cargo" fields) as cargo eqn:Ec. clear Ec.
  match goal with
  | |- after (outcome ?r, _, _) = _ /\ _ =>
      assert (H : exists o,
                 r = (o, w, [])
                 /\ (o = Ok (Next request)
                     <-> exists s, get cargo "nomeCargo" = Ok (VStr s) /\ trim s <> [])
                 /\ ((exists msg, o = Throw (TypeError msg))
                     <-> exists v, truthy cargo = true /\ get cargo "nomeCargo" = Ok v
                                   /\ truthy v = true /\ forall s, v <> VStr s)
                 /\ (o = Ok (Next request)
                     \/ (exists msg, o = Throw (TypeError msg))
                     \/ exists detail, o = Throw (bad_request detail)));
      [| destruct H as (o & -> & Ho); unfold outcome, after, events;
         cbn [fst snd]; auto]
  end.
  destruct (truthy cargo) eqn:T; cbn [negb].
  2:{ eexists. split; [reflexivity |]. split; [| split].
      - split; [discriminate |]. intros (s & Hs & _).
        apply get_nomeCargo_truthy in Hs. congruence.
      - split; [intros [msg E]; discriminate | intros (v & E & _); discriminate].
      - right; right. eexists; reflexivity. }
  destruct (get_truthy cargo "nomeCargo" T) as [nome Hn].
  rewrite bind_lift, Hn.
  destruct (truthy nome) eqn:Tn; cbn [negb].
  2:{ eexists. split; [reflexivity |]. split; [| split].
      - split; [discriminate |]. intros (s & Hs & Hne). inversion Hs; subst nome.
        destruct s; [exfalso; apply Hne; reflexivity | discriminate Tn].
      - split; [intros [msg E]; discriminate |].
        intros (v & _ & E & Tv & _). inversion E; subst. congruence.
      - right; right. eexists; reflexivity. }
  destruct nome as [| | b | n | s | xs | fs | c | p];
    try discriminate Tn;
    try (eexists; split; [reflexivity |]; split; [| split];
         [ split; [discriminate | intros (s & Hs & _); discriminate]
         | split; [intros _; eexists; split; [reflexivity |];
                            split; [reflexivity |]; split; [exact Tn | discriminate]
                  | intros _; eexists; reflexivity]
         | right; left; eexists; reflexivity ]).
  destruct (jsstring_eqb (trim s) []) eqn:E.
  - eexists. split; [reflexivity |]. split; [| split].
    + split; [discriminate |]. intros (s' & Hs & Hne). inversion Hs; subst s'.
      apply jsstring_eqb_eq in E. contradiction.
    + split; [intros [msg E']; discriminate |].
      intros (v & _ & E' & _ & Hv). inversion E'; subst v. exfalso. exact (Hv s eq_refl).
    + right; right. eexists; reflexivity.
  - eexists. split; [reflexivity |]. split; [| split].
    + split; [| reflexivity]. intros _. exists s. split; [reflexivity |].
      intros E'. rewrite E' in E. discriminate.
    + split; [intros [msg E']; discriminate |].
      intros (v & _ & E' & _ & Hv). inversion E'; subst v. exfalso. exact (Hv s eq_refl).
    + left. reflexivity.
Qed.

End CargoBody.

(** ** What the role controller answers to a removal and a creation *)

Section Responses.
Context {rt : JsRuntime} {bc : Bcrypt} {jwt : MeuTokenJWT}.

(** X6. The controller that removes a role does not await the service: it
    tests the promise, which is truthy. Whatever the identifier, whether a
    role has it or not, and whatever becomes of the removal, the answer is
    204 and the branch that answers 404 is never taken. *)
Theorem CargoControl_destroy_always_answers_204 request fields w :
  params request = VObj fields ->
  let r := CargoControl.destroy request w in
  outcome r
  = Ok (Send (mkResponse 204
                (success "Ecluido com sucesso com sucesso"
                   (CargoControl.cargos
                      [ ("idCargo"%string, lookup "idCargo" fields) ])))).
Proof.
  intros Hp. cbv zeta. unfold CargoControl.destroy.
  rewrite bind_console_log, Hp, bind_lift. cbn [get].
  destruct (CargoService.deleteCargo (lookup "idCargo" fields) w)
    as [[o w1] t1] eqn:E.
  erewrite bind_call_async by exact E. reflexivity.
Qed.

(** [CargoDAO.create] returns nothing but an id that is truthy. *)
Lemma CargoDAO_create_truthy c w v w1 t :
  CargoDAO.create c w = (Ok v, w1, t) -> truthy v = true.
Proof.
  unfold CargoDAO.create. rewrite bind_console_log. cbv zeta.
  intros H. apply run_Ok_inv in H as (t' & H & _). revert H.
  rewrite bind_pool_execute.
  destruct (Mysql.execute _ _ (store w)) as [[resultado | e] db]; [| discriminate].
  cbv zeta. intros H. apply run_Ok_inv in H as (t'' & H & _). revert H.
  rewrite bind_lift.
  destruct (get resultado "insertId") as [insertId | e]; [| discriminate].
  destruct (truthy insertId) eqn:T; cbn [negb]; [| discriminate].
  unfold ret. intros H. inversion H; subst. exact T.
Qed.

Lemma createCargo_truthy cargoJson w v w1 t :
  CargoService.createCargo cargoJson w = (Ok v, w1, t) -> truthy v = true.
Proof.
  intros H. destruct (createCargo_success_name _ _ H) as (s & Hget & Hlen).
  rewrite (@createCargo_run _ cargoJson s w Hget Hlen) in H.
  destruct (Mysql.cargo_named (store w) (trim s)); [discriminate |].
  cbv zeta in H.
  destruct (CargoDAO.create _ w) as [[o w'] t'] eqn:Hc.
  unfold outcome, after, events in H. cbn [fst snd] in H.
  inversion H; subst. exact (CargoDAO_create_truthy _ _ Hc).
Qed.

(** X7. An id that [createCargo] returns is truthy, since
    [CargoDAO.create] throws on an id that is not. So whenever the service
    returns, the controller answers 201 with the id and with the name as it
    was sent, before trimming; its branch for a falsy id is never taken. *)
Theorem CargoControl_store_answers_201 request cargoBody novoId w w1 t :
  get (body request) "cargo" = Ok cargoBody ->
  CargoService.createCargo cargoBody w = (Ok novoId, w1, t) ->
  truthy novoId = true
  /\ exists nome,
       get cargoBody "nomeCargo" = Ok (VStr nome)
       /\ CargoControl.store request w =
          (Ok (Send (mkResponse 201
                       (success "Cadastro realizado com sucesso"
                          (CargoControl.cargos
                             [ ("idCargo"%string, novoId);
                               ("nomeCargo"%string, VStr nome) ])))),
           w1, Log "CargoControle.store()" :: t).
Proof.
  intros Hb Hrun. pose proof (createCargo_truthy _ _ Hrun) as T.
  split; [exact T |].
  destruct (createCargo_success_name _ _ Hrun) as (s & Hget & _).
  exists s. split; [exact Hget |].
  unfold CargoControl.store. rewrite bind_console_log, bind_lift, Hb.
  erewrite bind_run by exact Hrun. rewrite bind_lift, Hget. cbv zeta.
  rewrite T. unfold ret, outcome, after, events. cbn [fst snd].
  rewrite app_nil_r. reflexivity.
Qed.

End Responses.

(** ** Lookups by id *)

Section ById.
Context {rt : JsRuntime} {bc : Bcrypt} {jwt : MeuTokenJWT}.

Lemma execute_select_funcionario_idFuncionario v db :
  Mysql.execute (Sql.funcionario_findByField (js "idFuncionario")) [v] db =
  (Ok (VArr (map Mysql.funcionario_object
               (filter (fun r => Mysql.sql_eq (VNum (JInt (Mysql.col_idFuncionario r))) v)
                  (Mysql.funcionario db)))), db).
Proof. reflexivity. Qed.

Lemma execute_funcionario_delete ps db :
  Mysql.execute Sql.funcionario_delete ps db = Mysql.funcionario_remove ps db.
Proof. reflexivity. Qed.

Lemma execute_cargo_update ps db :
  Mysql.execute Sql.cargo_update ps db = Mysql.cargo_change ps db.
Proof. reflexivity. Qed.

Lemma first_rows {R} (object : R -> jsval) (rows : list R) :
  (forall r, truthy (object r) = true) ->
  or_else (first (or_else (VArr (map object rows)) (VArr []))) VNull =
  match rows with
  | [] => VNull
  | r :: _ => object r
  end.
Proof.
  intros H. unfold or_else at 2. cbn [truthy].
  destruct rows as [| r rows]; [reflexivity |].
  cbn [map first]. unfold or_else. rewrite H. reflexivity.
Qed.

(** [CargoDAO.findById] on an integer: the first role with the id, or
    [null]. *)
Lemma CargoDAO_findById_run z w :
  CargoDAO.findById (VNum (JInt z)) w =
  (Ok match filter (fun c => Mysql.col_idCargo c =? z) (Mysql.cargo (store w)) with
      | [] => VNull
      | c :: _ => Mysql.cargo_object c
      end,
   w,
   [ Log "CargoDAO.findById()"; Log "CargoDAO.findByField()";
     Execute (Sql.cargo_findByField (js "idCargo")) [VNum (JInt z)] ]).
Proof.
  unfold CargoDAO.findById. rewrite bind_console_log.
  assert (Hin : In (js "idCargo") CargoDAO.allowedFields) by (left; reflexivity).
  pose proof (CargoDAO_findByField_runs (VNum (JInt z)) w Hin) as Hrun.
  cbv zeta in Hrun. rewrite execute_select_cargo_idCargo in Hrun.
  cbn [fst snd] in Hrun. rewrite world_eta in Hrun.
  erewrite bind_run by exact Hrun. unfold ret, outcome, after, events.
  cbn [fst snd app Mysql.sql_eq].
  rewrite first_rows by reflexivity. reflexivity.
Qed.

Lemma FuncionarioDAO_findById_run z w :
  FuncionarioDAO.findById (VNum (JInt z)) w =
  (Ok match filter (fun f => Mysql.col_idFuncionario f =? z)
              (Mysql.funcionario (store w)) with
      | [] => VNull
      | f :: _ => Mysql.funcionario_object f
      end,
   w,
   [ Log "FuncionarioDAO.findById()"; Log "FuncionarioDAO.findByField()";
     Execute (Sql.funcionario_findByField (js "idFuncionario")) [VNum (JInt z)] ]).
Proof.
  unfold FuncionarioDAO.findById. rewrite bind_console_log.
  assert (Hin : In (js "idFuncionario") FuncionarioDAO.allowedFields)
    by (left; reflexivity).
  pose proof (FuncionarioDAO_findByField_runs (VNum (JInt z)) w Hin) as Hrun.
  cbv zeta in Hrun. rewrite execute_select_funcionario_idFuncionario in Hrun.
  cbn [fst snd] in Hrun. rewrite world_eta in Hrun.
  erewrite bind_run by exact Hrun. unfold ret, outcome, after, events.
  cbn [fst snd app Mysql.sql_eq].
  rewrite first_rows by reflexivity. reflexivity.
Qed.

Lemma positive_id_int v z : Number v = JInt z -> 0 < z -> positive_id v.
Proof. intros H Hz. exists z. auto. Qed.

Lemma CargoService_findById_run id z w :
  Number id = JInt z -> 0 < z ->
  CargoService.findById id w =
  (Ok match filter (fun c => Mysql.col_idCargo c =? z) (Mysql.cargo (store w)) with
      | [] => VNull
      | c :: _ => Mysql.cargo_object c
      end, w,
   [ Log "CargoService.findById()";
     Log "CargoDAO.findById()"; Log "CargoDAO.findByField()";
     Execute (Sql.cargo_findByField (js "idCargo")) [VNum (JInt z)] ]).
Proof.
  intros Hn Hz. unfold CargoService.findById. rewrite bind_console_log. cbv zeta.
  rewrite bind_lift, (set_idCargo_accepts _ (positive_id_int _ Hn Hz)), Hn.
  cbn [CargoModel.idCargo priv_idCargo opt_num].
  rewrite CargoDAO_findById_run. reflexivity.
Qed.

(** X8. For an identifier that is a positive integer, the lookup of a
    role answers 200: with the first role that has the id, or with [null]
    when none has. It executes the one select and leaves the store as it
    was; unlike the lookup of an employee it has no 404. *)
Theorem CargoControl_show_never_answers_404 request id z w :
  get (params request) "idCargo" = Ok id ->
  Number id = JInt z -> 0 < z ->
  let r := CargoControl.show request w in
  outcome r =
  Ok (Send (mkResponse 200
              (success "Executado com sucesso"
                 [ ("data"%string,
                     VObj [ ("cargos"%string,
                              match filter (fun c => Mysql.col_idCargo c =? z)
                                      (Mysql.cargo (store w)) with
                              | [] => VNull
                              | c :: _ => Mysql.cargo_object c
                              end) ]) ])))
  /\ after r = w
  /\ effects (events r)
     = [Execute (Sql.cargo_findByField (js "idCargo")) [VNum (JInt z)]].
Proof.
  intros Hp Hn Hz. cbv zeta. unfold CargoControl.show.
  rewrite bind_console_log, bind_lift, Hp.
  erewrite bind_run by exact (CargoService_findById_run _ w Hn Hz).
  repeat split.
Qed.

Lemma FuncionarioService_findById_run id z w :
  Number id = JInt z -> 0 < z ->
  FuncionarioService.findById id w =
  (match filter (fun f => Mysql.col_idFuncionario f =? z)
           (Mysql.funcionario (store w)) with
   | [] => Throw (ErrorResponse 404 (js "Funcionário não encontrado")
                    (js "Não existe funcionário com id " ++ interpolate id))
   | f :: _ => Ok (Mysql.funcionario_object f)
   end, w,
   [ Log "FuncionarioDAO.findById()"; Log "FuncionarioDAO.findByField()";
     Execute (Sql.funcionario_findByField (js "idFuncionario")) [VNum (JInt z)] ]).
Proof.
  intros Hn Hz. unfold FuncionarioService.findById. cbv zeta.
  rewrite bind_lift, (set_idFuncionario_accepts _ (positive_id_int _ Hn Hz)), Hn.
  cbn [FuncionarioModel.idFuncionario priv_idFuncionario opt_num].
  erewrite bind_run by apply FuncionarioDAO_findById_run.
  destruct (filter _ (Mysql.funcionario (store w))) as [| f rows]; reflexivity.
Qed.

(** X9. For an identifier that is a positive integer, the lookup of an
    employee answers 404 when no row has the id; when one has, it answers
    200 with the row of [SELECT *] as the table holds it, the password
    column with its digest included. It executes the one select and leaves
    the store as it was. *)
Theorem FuncionarioControl_show_hands_the_row_back request id z w :
  get (params request) "idFuncionario" = Ok id ->
  Number id = JInt z -> 0 < z ->
  let r := Server.serve [FuncionarioControl.show] request w in
  match filter (fun f => Mysql.col_idFuncionario f =? z)
          (Mysql.funcionario (store w)) with
  | [] =>
      outcome r =
      Ok (mkResponse 404
            (VObj [ ("success"%string, VBool false);
                    ("message"%string, VStr (js "Funcionário não encontrado"));
                    ("error"%string,
                      VObj [ ("message"%string,
                               VStr (js "Não existe funcionário com id "
                                       ++ interpolate id)) ]) ]))
  | f :: _ =>
      outcome r =
      Ok (mkResponse 200
            (success "Executado com sucesso"
               [ ("data"%string, Mysql.funcionario_object f) ]))
      /\ get (Mysql.funcionario_object f) "senha" = Ok (VStr (Mysql.col_senha f))
  end
  /\ after r = w
  /\ effects (events r)
     = [Execute (Sql.funcionario_findByField (js "idFuncionario")) [VNum (JInt z)]].
Proof.
  intros Hp Hn Hz. cbv zeta.
  pose proof (FuncionarioService_findById_run _ w Hn Hz) as Hsvc.
  destruct (filter _ (Mysql.funcionario (store w))) as [| f rows].
  - erewrite serve_first_throws.
    2:{ unfold FuncionarioControl.show. rewrite bind_console_log, bind_lift, Hp.
        erewrite bind_run_throw by exact Hsvc. reflexivity. }
    rewrite errorHandler_ErrorResponse. repeat split.
  - erewrite serve_last_sends.
    2:{ unfold FuncionarioControl.show. rewrite bind_console_log, bind_lift, Hp.
        erewrite bind_run by exact Hsvc. reflexivity. }
    repeat split.
Qed.

End ById.

(** ** Removal of an employee *)

Section Removal.
Context {rt : JsRuntime} {bc : Bcrypt} {jwt : MeuTokenJWT}.

Lemma affected_existsb {R} (hit : R -> bool) rows :
  (0 <? Mysql.affected hit rows) = existsb hit rows.
Proof.
  unfold Mysql.affected.
  destruct (existsb hit rows) eqn:E.
  - apply Z.ltb_lt, filter_nonempty, E.
  - apply Z.ltb_ge.
    destruct (Z.ltb_spec 0 (Z.of_nat (List.length (filter hit rows)))) as [H | H];
      [| lia].
    apply filter_nonempty in H. congruence.
Qed.

Lemma existsb_filter_negb {R} (hit : R -> bool) rows :
  existsb hit (filter (fun r => negb (hit r)) rows) = false.
Proof.
  induction rows as [| r rows IH]; [reflexivity |].
  cbn [filter]. destruct (hit r) eqn:E; cbn [negb]; [exact IH |].
  cbn [existsb]. rewrite E, IH. reflexivity.
Qed.

Lemma FuncionarioService_deleteFuncionario_run id z w :
  Number id = JInt z -> 0 < z ->
  let hit := fun f => Mysql.col_idFuncionario f =? z in
  FuncionarioService.deleteFuncionario id w =
  (Ok (VBool (existsb hit (Mysql.funcionario (store w)))),
   mkWorld
     (Mysql.mkStore (Mysql.cargo (store w))
        (filter (fun f => negb (hit f)) (Mysql.funcionario (store w)))
        (Mysql.cargo_AUTO_INCREMENT (store w))
        (Mysql.funcionario_AUTO_INCREMENT (store w)))
     (clock w) (entropy w),
   [ Log "FuncionarioDAO.delete()";
     Execute Sql.funcionario_delete [VNum (JInt z)] ]).
Proof.
  intros Hn Hz. cbv zeta. unfold FuncionarioService.deleteFuncionario. cbv zeta.
  rewrite bind_lift, (set_idFuncionario_accepts _ (positive_id_int _ Hn Hz)), Hn.
  unfold FuncionarioDAO.delete. rewrite bind_console_log. cbv zeta.
  cbn [FuncionarioModel.idFuncionario priv_idFuncionario opt_num].
  rewrite bind_pool_execute, execute_funcionario_delete.
  cbn [Mysql.funcionario_remove Mysql.int]. cbv zeta.
  rewrite bind_lift.
  cbn [get Mysql.ResultSetHeader lookup String.eqb Ascii.eqb Bool.eqb].
  rewrite gt_zero_int, affected_existsb. reflexivity.
Qed.

(** X10. For an identifier that is a positive integer, the removal of an
    employee executes the one delete and answers 204 when a row had the id
    and 404 when none had. Afterwards no row has the id, the other rows are
    the ones there were, and the roles are untouched. *)
Theorem FuncionarioControl_destroy_answers_by_presence request id z w :
  get (params request) "idFuncionario" = Ok id ->
  Number id = JInt z -> 0 < z ->
  let hit := fun f => Mysql.col_idFuncionario f =? z in
  let r := FuncionarioControl.destroy request w in
  outcome r =
  Ok (Send
        (if existsb hit (Mysql.funcionario (store w)) then
           mkResponse 204 (success "Excluído com sucesso" [])
         else
           mkResponse 404
             (VObj [ ("success"%string, VBool false);
                     ("message"%string, VStr (js "Funcionário não encontrado"));
                     ("error"%string,
                       VObj [ ("message"%string,
                                VStr (js "Não existe funcionário com id "
                                        ++ interpolate id)) ]) ])))
  /\ Mysql.funcionario (store (after r))
     = filter (fun f => negb (hit f)) (Mysql.funcionario (store w))
  /\ existsb hit (Mysql.funcionario (store (after r))) = false
  /\ Mysql.cargo (store (after r)) = Mysql.cargo (store w)
  /\ effects (events r) = [Execute Sql.funcionario_delete [VNum (JInt z)]].
Proof.
  intros Hp Hn Hz. cbv zeta. unfold FuncionarioControl.destroy.
  rewrite bind_console_log, bind_lift, Hp.
  erewrite bind_run by exact (FuncionarioService_deleteFuncionario_run _ w Hn Hz).
  cbn [truthy].
  destruct (existsb _ (Mysql.funcionario (store w))); cbn [negb];
    (split; [reflexivity |]); (split; [reflexivity |]);
    (split; [apply existsb_filter_negb with (hit := fun f => Mysql.col_idFuncionario f =? z) |]);
    split; reflexivity.
Qed.

End Removal.

(** ** Updates addressed by id *)

Section Updates.
Context {rt : JsRuntime} {bc : Bcrypt} {jwt : MeuTokenJWT}.

Lemma map_unhit {R} (hit : R -> bool) (change : R -> R) rows :
  existsb hit rows = false ->
  map (fun r => if hit r then change r else r) rows = rows.
Proof.
  induction rows as [| r rows IH]; [reflexivity |].
  cbn [existsb map]. intros H. apply orb_false_iff in H as [-> H].
  rewrite (IH H). reflexivity.
Qed.

Lemma store_eta db :
  Mysql.mkStore (Mysql.cargo db) (Mysql.funcionario db)
    (Mysql.cargo_AUTO_INCREMENT db) (Mysql.funcionario_AUTO_INCREMENT db) = db.
Proof. destruct db; reflexivity. Qed.

(** X11. The controller that updates an employee does not look at what
    the service returns. On a full, well-formed payload addressed to an id
    that no row has, the service returns [false], the store is left as it
    was, and the answer is still 200 with the id and the name of the
    request. *)
Theorem FuncionarioControl_update_answers_200_without_a_row
  request id z json nome email senha vale idCargo w :
  get (params request) "idFuncionario" = Ok id ->
  Number id = JInt z -> 0 < z ->
  get (body request) "funcionario" = Ok json ->
  carries json nome email senha vale idCargo ->
  well_formed nome email senha vale idCargo ->
  existsb (fun f => Mysql.col_idFuncionario f =? z) (Mysql.funcionario (store w))
  = false ->
  let r := FuncionarioControl.update request w in
  outcome (FuncionarioService.updateFuncionario id (body request) w)
  = Ok (VBool false)
  /\ outcome r =
     Ok (Send (mkResponse 200
                 (success "Atualizado com sucesso"
                    [ ("data"%string,
                        VObj [ ("funcionario"%string,
                                 VObj [ ("idFuncionario"%string,
                                          VNum (parseInt id));
                                        ("nomeFuncionario"%string,
                                          VStr nome) ]) ]) ])))
  /\ store (after r) = store w.
Proof.
  intros Hp Hn Hz Hb Hc Hw Hex. cbv zeta.
  pose proof (@updateFuncionario_run _ _ id (body request) json nome email senha
                vale idCargo w Hb Hc Hw (positive_id_int _ Hn Hz)) as Hrun.
  cbv zeta in Hrun.
  destruct Hw as (_ & _ & _ & Wv & (c & Hi & Hc0)).
  assert (Hx : Mysql.funcionario_change_senha
                 (update_params w id nome email senha vale idCargo) (store w)
               = (Ok (Mysql.ResultSetHeader 0 0), store w)).
  { unfold update_params. rewrite Hi, Hn.
    destruct Wv as [-> | ->];
      cbn [Mysql.funcionario_change_senha Mysql.text Mysql.int];
      unfold Mysql.funcionario_set; rewrite Hex; cbn [andb];
      rewrite (map_unhit _ _ _ Hex), store_eta;
      pose proof (affected_existsb
                    (fun f => Mysql.col_idFuncionario f =? z)
                    (Mysql.funcionario (store w))) as Ha;
      rewrite Hex in Ha; apply Z.ltb_ge in Ha;
      assert (E : Mysql.affected (fun f => Mysql.col_idFuncionario f =? z)
                    (Mysql.funcionario (store w)) = 0)
        by (unfold Mysql.affected in *; lia);
      rewrite E; reflexivity. }
  rewrite Hx in Hrun. cbn [fst snd] in Hrun.
  cbn [get Mysql.ResultSetHeader lookup String.eqb Ascii.eqb Bool.eqb] in Hrun.
  rewrite gt_zero_int in Hrun. cbn [Z.ltb Z.compare] in Hrun.
  split; [rewrite Hrun; reflexivity |].
  unfold FuncionarioControl.update.
  rewrite bind_console_log, bind_lift, Hp.
  erewrite bind_run by exact Hrun.
  rewrite bind_lift, Hb.
  destruct Hc as (Hnome & _). rewrite bind_lift, Hnome.
  split; reflexivity.
Qed.

Lemma CargoService_updateCargo_run id z s w :
  Number id = JInt z -> 0 < z ->
  3 <= strlen (trim s) <= 64 ->
  let x := Mysql.cargo_change [VStr (trim s); VNum (JInt z)] (store w) in
  CargoService.updateCargo id (VStr s) w =
  (match fst x with
   | Ok resultado =>
       match get resultado "affectedRows" with
       | Ok affectedRows => Ok (VBool (gt_zero affectedRows))
       | Throw e => Throw e
       end
   | Throw e => Throw e
   end,
   mkWorld (snd x) (clock w) (entropy w),
   [ Log "CargoService.updateCargo()"; Log "CargoDAO.update()";
     Execute Sql.cargo_update [VStr (trim s); VNum (JInt z)] ]).
Proof.
  intros Hn Hz Hs. cbv zeta. unfold CargoService.updateCargo.
  rewrite bind_console_log. cbv zeta.
  rewrite bind_lift, (set_idCargo_accepts _ (positive_id_int _ Hn Hz)), Hn.
  rewrite bind_lift, (set_nomeCargo_accepts _ s Hs).
  unfold CargoDAO.update. rewrite bind_console_log. cbv zeta.
  cbn [CargoModel.idCargo CargoModel.nomeCargo priv_idCargo priv_nomeCargo
       opt_num opt_str].
  rewrite bind_pool_execute, execute_cargo_update.
  destruct (Mysql.cargo_change _ (store w)) as [[resultado | e] db];
    [| reflexivity].
  cbv zeta. cbn [fst snd]. rewrite bind_lift.
  destruct (get resultado "affectedRows") as [affectedRows | e]; reflexivity.
Qed.

(** X12. The renaming of a role, for an id that is a positive integer and
    a name within the bounds, executes the one update, with the trimmed
    name, and no lookup before it. It is answered 404 when no role has the
    id, 200 when the role was renamed, and 500 when another role holds the
    name: the unique index of the table is the only check of the new name
    against the others, and the store is then left as it was. *)
Theorem CargoControl_update_on_the_store request id z cargo s w :
  get (params request) "idCargo" = Ok id ->
  Number id = JInt z -> 0 < z ->
  get (body request) "cargo" = Ok cargo ->
  get cargo "nomeCargo" = Ok (VStr s) ->
  3 <= strlen (trim s) <= 64 ->
  let hit := fun c => Mysql.col_idCargo c =? z in
  let held c := jsstring_eqb (Mysql.col_nomeCargo c) (trim s) && negb (hit c) in
  let shown := CargoControl.cargos
                 [ ("idCargo"%string, id); ("nomeCargo"%string, VStr s) ] in
  let r := Server.serve [CargoControl.update] request w in
  effects (events r) = [Execute Sql.cargo_update [VStr (trim s); VNum (JInt z)]]
  /\ if existsb hit (Mysql.cargo (store w)) then
       if existsb held (Mysql.cargo (store w)) then
         (exists sent, outcome r = Ok (mkResponse 500 sent))
         /\ store (after r) = store w
       else
         outcome r = Ok (mkResponse 200 (success "Atualizado com sucesso" shown))
         /\ Mysql.cargo (store (after r))
            = map (fun c => if hit c then Mysql.mkCargoRow z (trim s) else c)
                (Mysql.cargo (store w))
     else
       outcome r =
       Ok (mkResponse 404
             (VObj ([ ("success"%string, VBool false);
                      ("message"%string,
                        VStr (js "Cargo não encontrado para atualização")) ]
                    ++ shown)))
       /\ store (after r) = store w.
Proof.
  intros Hp Hn Hz Hb Hc Hs. cbv zeta.
  pose proof (@CargoService_updateCargo_run id z s w Hn Hz Hs) as Hrun.
  cbv zeta in Hrun. cbn [Mysql.cargo_change Mysql.text Mysql.int] in Hrun.
  unfold Mysql.has_cargo in Hrun.
  assert (Hctl : forall o w1 t,
             CargoService.updateCargo id (VStr s) w = (o, w1, t) ->
             CargoControl.update request w =
             (match o with
              | Ok atualizou =>
                  Ok (Send
                        (if truthy atualizou then
                           mkResponse 200
                             (success "Atualizado com sucesso"
                                (CargoControl.cargos
                                   [ ("idCargo"%string, id);
                                     ("nomeCargo"%string, VStr s) ]))
                         else
                           mkResponse 404
                             (VObj ([ ("success"%string, VBool false);
                                      ("message"%string,
                                        VStr (js "Cargo não encontrado para atualização")) ]
                                    ++ CargoControl.cargos
                                         [ ("idCargo"%string, id);
                                           ("nomeCargo"%string, VStr s) ]))))
              | Throw e => Throw e
              end, w1, Log "CargoControle.update()" :: t)).
  { intros o w1 t H. unfold CargoControl.update.
    rewrite bind_console_log, bind_lift, Hp, bind_lift, Hb, bind_lift, Hc.
    destruct o as [atualizou | e].
    - erewrite bind_run by exact H. cbv zeta.
      destruct (truthy atualizou); unfold ret, outcome, after, events;
        cbn [fst snd]; rewrite app_nil_r; reflexivity.
    - erewrite bind_run_throw by exact H. reflexivity. }
  destruct (existsb (fun c => Mysql.col_idCargo c =? z) (Mysql.cargo (store w)))
    eqn:Hex.
  - cbn [andb] in Hrun.
    destruct (existsb _ (Mysql.cargo (store w))) eqn:Hheld in Hrun |- *.
    + cbn [Mysql.rejected fst snd] in Hrun. rewrite world_eta in Hrun.
      apply Hctl in Hrun.
      erewrite serve_first_throws by exact Hrun.
      destruct (@errorHandler_internal (Mysql.sql_error "ER_DUP_ENTRY") w eq_refl)
        as (sent & Hh & _).
      rewrite Hh. split; [reflexivity |]. split; [eexists; reflexivity | reflexivity].
    + cbn [fst snd] in Hrun.
      cbn [get Mysql.ResultSetHeader lookup String.eqb Ascii.eqb Bool.eqb] in Hrun.
      rewrite gt_zero_int, affected_existsb, Hex in Hrun.
      apply Hctl in Hrun. cbn [truthy] in Hrun.
      erewrite serve_last_sends by exact Hrun.
      split; [reflexivity |]. split; reflexivity.
  - cbn [andb fst snd] in Hrun.
    cbn [get Mysql.ResultSetHeader lookup String.eqb Ascii.eqb Bool.eqb] in Hrun.
    rewrite gt_zero_int, affected_existsb, Hex in Hrun.
    rewrite (map_unhit _ _ _ Hex), store_eta, world_eta in Hrun.
    apply Hctl in Hrun. cbn [truthy] in Hrun.
    erewrite serve_last_sends by exact Hrun.
    split; [reflexivity |]. split; reflexivity.
Qed.

End Updates.

(** ** The listing of the employees *)

Section Listing.
Context {rt : JsRuntime} {bc : Bcrypt} {jwt : MeuTokenJWT}.

Lemma execute_funcionario_findAll db :
  Mysql.execute Sql.funcionario_findAll [] db =
  (Ok (VArr (Mysql.joined false db (fun _ => true))), db).
Proof. reflexivity. Qed.

Lemma map_rows_app f xs ys :
  FuncionarioDAO.map_rows f (xs ++ ys) =
  match FuncionarioDAO.map_rows f xs with
  | Ok xs' =>
      match FuncionarioDAO.map_rows f ys with
      | Ok ys' => Ok (xs' ++ ys')
      | Throw e => Throw e
      end
  | Throw e => Throw e
  end.
Proof.
  induction xs as [| x xs IH]; cbn [app FuncionarioDAO.map_rows obind].
  - destruct (FuncionarioDAO.map_rows f ys); reflexivity.
  - destruct (f x) as [x' | e]; [| reflexivity]. cbn [obind]. rewrite IH.
    destruct (FuncionarioDAO.map_rows f xs) as [xs' | e]; [| reflexivity].
    destruct (FuncionarioDAO.map_rows f ys); reflexivity.
Qed.

Lemma map_rows_listed_roles f cs :
  FuncionarioDAO.map_rows FuncionarioDAO.listed (map (Mysql.joined_object false f) cs)
  = Ok (map (listing f) cs).
Proof.
  induction cs as [| c cs IH]; [reflexivity |].
  cbn [map FuncionarioDAO.map_rows]. rewrite IH. reflexivity.
Qed.

Lemma map_rows_listed_joined db fs :
  FuncionarioDAO.map_rows FuncionarioDAO.listed
    (flat_map (fun f => map (Mysql.joined_object false f) (roles_of db f)) fs)
  = Ok (flat_map (fun f => map (listing f) (roles_of db f)) fs).
Proof.
  induction fs as [| f fs IH]; [reflexivity |].
  cbn [flat_map]. rewrite map_rows_app, map_rows_listed_roles, IH. reflexivity.
Qed.

Lemma filter_all {A} (l : list A) : filter (fun _ => true) l = l.
Proof. induction l as [| x l IH]; [reflexivity |]. cbn [filter]. rewrite IH. reflexivity. Qed.

(** X13. The listing of the employees executes the one join and leaves the
    store as it was. It has one entry for every employee row and the role
    it refers to, with the role nested under [cargo], and no entry has a
    [senha] member. *)
Theorem FuncionarioDAO_findAll_lists_no_password w :
  let r := FuncionarioDAO.findAll w in
  let listed :=
    flat_map (fun f => map (listing f) (roles_of (store w) f))
      (Mysql.funcionario (store w)) in
  outcome r = Ok (VArr listed)
  /\ after r = w
  /\ effects (events r) = [Execute Sql.funcionario_findAll []]
  /\ Forall (fun x => get x "senha" = Ok VUndefined) listed.
Proof.
  cbv zeta. unfold FuncionarioDAO.findAll. rewrite bind_console_log. cbv zeta.
  rewrite bind_pool_execute, execute_funcionario_findAll. cbv zeta.
  rewrite world_eta, bind_lift. unfold Mysql.joined. rewrite filter_all.
  change (fun f => map (Mysql.joined_object false f)
                     (filter (fun c => Mysql.col_idCargo c =? Mysql.col_Cargo_idCargo f)
                        (Mysql.cargo (store w))))
    with (fun f => map (Mysql.joined_object false f) (roles_of (store w) f)).
  rewrite map_rows_listed_joined.
  split; [reflexivity |]. split; [reflexivity |]. split; [reflexivity |].
  apply Forall_forall. intros x Hin. apply in_flat_map in Hin as (f & _ & Hin).
  apply in_map_iff in Hin as (c & <- & _). reflexivity.
Qed.

End Listing.

(** ** Identifiers that break the invariant *)

Section Identifiers.
Context {rt : JsRuntime} {bc : Bcrypt} {jwt : MeuTokenJWT}.

Lemma set_idCargo_rejects this v :
  ~ positive_id v -> exists msg, CargoModel.set_idCargo this v = Throw (Error msg None).
Proof.
  intros H. unfold CargoModel.set_idCargo. cbv zeta.
  destruct (negb (isInteger (Number v))) eqn:E1; [eauto |].
  destruct (num_le_zero (Number v)) eqn:E2; [eauto |].
  exfalso. apply H, positive_id_checks. auto.
Qed.

Lemma set_idFuncionario_rejects this v :
  ~ positive_id v ->
  exists msg, FuncionarioModel.set_idFuncionario this v = Throw (Error msg None).
Proof.
  intros H. unfold FuncionarioModel.set_idFuncionario. cbv zeta.
  destruct (negb (isInteger (Number v))) eqn:E1; [eauto |].
  destruct (num_le_zero (Number v)) eqn:E2; [eauto |].
  exfalso. apply H, positive_id_checks. auto.
Qed.

(** X14. An identifier that is not a positive integer stops the lookup by
    id and the removal of both services, and the renaming of a role, at
    their first assignment: the method throws the plain error of the
    setter, the world is left as it was, and no statement is executed. *)
Theorem an_invalid_id_never_reaches_the_store id w :
  ~ positive_id id ->
  let stopped (r : Outcome jsval * World * list Event) :=
    (exists msg, outcome r = Throw (Error msg None))
    /\ after r = w /\ effects (events r) = [] in
  stopped (CargoService.findById id w)
  /\ (forall nomeCargo, stopped (CargoService.updateCargo id nomeCargo w))
  /\ stopped (CargoService.deleteCargo id w)
  /\ stopped (FuncionarioService.findById id w)
  /\ stopped (FuncionarioService.deleteFuncionario id w).
Proof.
  intros H. cbv zeta.
  destruct (set_idCargo_rejects CargoModel.new H) as [m1 H1].
  destruct (set_idFuncionario_rejects FuncionarioModel.new H) as [m2 H2].
  assert (S : forall (r : Outcome jsval * World * list Event) msg t,
             r = (Throw (Error msg None), w, t) -> effects t = [] ->
             (exists msg, outcome r = Throw (Error msg None))
             /\ after r = w /\ effects (events r) = []).
  { intros r msg t -> Ht. split; [exists msg; reflexivity |]. split; [reflexivity |].
    exact Ht. }
  split; [| split; [intros nomeCargo | split; [| split]]].
  - eapply S; [unfold CargoService.findById;
    rewrite bind_console_log; cbv zeta; rewrite bind_lift, H1; reflexivity | reflexivity].
  - eapply S; [unfold CargoService.updateCargo;
    rewrite bind_console_log; cbv zeta; rewrite bind_lift, H1; reflexivity | reflexivity].
  - eapply S; [unfold CargoService.deleteCargo;
    rewrite bind_console_log; cbv zeta; rewrite bind_lift, H1; reflexivity | reflexivity].
  - eapply S; [unfold FuncionarioService.findById;
    cbv zeta; rewrite bind_lift, H2; reflexivity | reflexivity].
  - eapply S; [unfold FuncionarioService.deleteFuncionario;
    cbv zeta; rewrite bind_lift, H2; reflexivity | reflexivity].
Qed.

End Identifiers.

(** ** The rows of the login query, and the answers of the server *)

Section LoginRows.
Context {rt : JsRuntime} {bc : Bcrypt} {jwt : MeuTokenJWT}.

Lemma DAO_login_not_one obj e w :
  priv_email obj = Some e ->
  List.length (matching (store w) e) <> 1%nat ->
  FuncionarioDAO.login obj w =
  (Ok None, w,
   [Log "FuncionarioDAO.login()"; Execute Sql.funcionario_login [VStr e];
    Log "Funcionário não encontrado"]).
Proof.
  intros He Hlen. unfold FuncionarioDAO.login. rewrite bind_console_log.
  cbv zeta. erewrite login_rows by exact He. cbv zeta.
  rewrite bind_lift, get_length_rows.
  cbn [strict_eq_number num_eqb].
  destruct (Z.eqb_spec (Z.of_nat (List.length (matching (store w) e))) 1) as [E | E].
  - exfalso. apply Hlen. lia.
  - cbn [negb]. rewrite bind_console_log. reflexivity.
Qed.

(** X15. The login query has to return exactly one row. For credentials
    that pass the value object, when no employee has the address or more
    than one has, the attempt is refused with the 401 of a wrong password;
    the one statement executed is the login query, and the hash library is
    not called. *)
Theorem login_needs_exactly_one_row json email senha w :
  credentials json email senha ->
  List.length (matching (store w) (trim email)) <> 1%nat ->
  let r := FuncionarioService.loginFuncionario json w in
  outcome r = Throw unauthorized
  /\ after r = w
  /\ effects (events r) = [Execute Sql.funcionario_login [VStr (trim email)]].
Proof.
  intros Hc Hlen. cbv zeta.
  pose proof (@DAO_login_not_one
                (mkFuncionario None None None (Some (trim email))
                   (Some (trim senha)) None) (trim email) w eq_refl Hlen) as H.
  rewrite (loginFuncionario_fails Hc H). repeat split.
Qed.

End LoginRows.

Section Answers.


End Answers.

(** ** A successful login *)

Section LoginSuccess.
Context {rt : JsRuntime} {bc : Bcrypt} {jwt : MeuTokenJWT}.

Lemma DAO_login_right obj e p f c w :
  priv_email obj = Some e ->
  priv_senha obj = Some p ->
  matching (store w) e = [Mysql.joined_object true f c] ->
  bcrypt_compare p (Mysql.col_senha f) = true ->
  parseInt (VNum (JInt (Mysql.col_idCargo c))) = JInt (Mysql.col_idCargo c) ->
  0 < Mysql.col_idCargo c ->
  3 <= strlen (trim (Mysql.col_nomeCargo c)) <= 64 ->
  0 < Mysql.col_idFuncionario f ->
  3 <= strlen (trim (Mysql.col_nomeFuncionario f)) ->
  email_shape (trim (Mysql.col_email f)) ->
  Mysql.col_recebeValeTransporte f = 0 \/ Mysql.col_recebeValeTransporte f = 1 ->
  FuncionarioDAO.login obj w =
  (Ok (Some (mkFuncionario
               (Some (JInt (Mysql.col_idFuncionario f)))
               (Some (mkCargo (Some (JInt (Mysql.col_idCargo c)))
                        (Some (trim (Mysql.col_nomeCargo c)))))
               (Some (trim (Mysql.col_nomeFuncionario f)))
               (Some (trim (Mysql.col_email f)))
               None
               (Some (VNum (JInt (Mysql.col_recebeValeTransporte f)))))),
   w,
   [ Log "FuncionarioDAO.login()"; Execute Sql.funcionario_login [VStr e];
     Compare p (Mysql.col_senha f) ]).
Proof.
  intros He Hp Hrows Hcmp Hint Hidc Hnc Hidf Hnf Hef Hv.
  unfold FuncionarioDAO.login. rewrite bind_console_log.
  cbv zeta. erewrite login_rows by exact He. cbv zeta. rewrite Hrows.
  rewrite bind_lift. cbn [get String.eqb Ascii.eqb Bool.eqb List.length].
  cbn [strict_eq_number num_eqb Z.of_nat Pos.of_succ_nat Z.eqb Pos.eqb negb].
  rewrite bind_lift. cbn [first].
  unfold FuncionarioModel.senha. rewrite Hp. cbn [opt_str].
  cbn [Mysql.joined_object app get lookup String.eqb Ascii.eqb Bool.eqb].
  unfold compare. rewrite bind_assoc, bind_emit, bind_ret, Hcmp.
  cbn [negb]. rewrite bind_lift, Hint.
  rewrite bind_lift, set_idCargo_accepts
    by (exists (Mysql.col_idCargo c); split; [reflexivity | exact Hidc]).
  rewrite bind_lift, bind_lift, (set_nomeCargo_accepts _ _ Hnc).
  rewrite bind_lift, bind_lift, set_idFuncionario_accepts
    by (exists (Mysql.col_idFuncionario f); split; [reflexivity | exact Hidf]).
  rewrite bind_lift, bind_lift, (set_nomeFuncionario_accepts _ _ Hnf).
  rewrite bind_lift, bind_lift, (set_email_accepts _ _ Hef).
  rewrite bind_lift, bind_lift, set_recebeValeTransporte_accepts
    by (destruct Hv as [-> | ->]; auto).
  rewrite bind_lift. reflexivity.
Qed.

Lemma valid_nonempty s : 3 <= strlen (trim s) -> truthy (VStr (trim s)) = true.
Proof.
  intros H. destruct (trim s); [unfold strlen in H; simpl in H; lia | reflexivity].
Qed.

Lemma loginFuncionario_succeeds json email senha f c w :
  credentials json email senha ->
  matching (store w) (trim email) = [Mysql.joined_object true f c] ->
  bcrypt_compare (trim senha) (Mysql.col_senha f) = true ->
  parseInt (VNum (JInt (Mysql.col_idCargo c))) = JInt (Mysql.col_idCargo c) ->
  valid_employee f -> valid_role c ->
  let r := FuncionarioService.loginFuncionario json w in
  outcome r = Ok (login_answer (clock w) f c)
  /\ after r = w
  /\ effects (events r) =
     [ Execute Sql.funcionario_login [VStr (trim email)];
       Compare (trim senha) (Mysql.col_senha f);
       Sign (login_claims f c) ].
Proof.
  intros (He & Hs & We & Ws) Hrows Hcmp Hint (Hidf & Hnf & Hef & Hv) (Hidc & Hnc).
  cbv zeta.
  pose proof (@DAO_login_right
                (mkFuncionario None None None (Some (trim email))
                   (Some (trim senha)) None) (trim email) (trim senha) f c w
                eq_refl eq_refl Hrows Hcmp Hint Hidc Hnc Hidf Hnf Hef Hv) as Hdao.
  unfold FuncionarioService.loginFuncionario.
  rewrite bind_console_log. cbv zeta.
  rewrite bind_lift, He, bind_lift.
  erewrite set_email_accepts by exact We.
  rewrite bind_lift, Hs, bind_lift.
  erewrite set_senha_accepts by exact Ws.
  cbn [priv_idFuncionario priv_cargo priv_nomeFuncionario priv_email priv_senha
       priv_recebeValeTransporte FuncionarioModel.new].
  erewrite bind_run by exact Hdao.
  cbn [priv_cargo priv_nomeCargo CargoModel.nomeCargo opt_str
       FuncionarioModel.email FuncionarioModel.nomeFuncionario
       FuncionarioModel.idFuncionario priv_email priv_nomeFuncionario
       priv_idFuncionario opt_num].
  unfold or_else.
  rewrite (valid_nonempty _ (proj1 Hnc)), (valid_nonempty _ Hnf).
  unfold jwt_gerarToken, bind, ret, outcome, after, events, login_answer,
    login_claims.
  cbn [fst snd app effects filter is_log negb]. repeat split.
Qed.

(** X16. A login with credentials that pass the value object and a
    password the hash library accepts, for the one employee that has the
    address, whose row and role satisfy the invariants of the data model
    (and a role id that [parseInt] returns as it is): the service answers
    with the claims read from the row (address, role name, name, id) and
    the token that signs them at the time of the request, after the login
    query, one comparison and one signature; the world is left as it
    was. *)
Theorem a_matching_password_logs_in json email senha f c w :
  credentials json email senha ->
  matching (store w) (trim email) = [Mysql.joined_object true f c] ->
  bcrypt_compare (trim senha) (Mysql.col_senha f) = true ->
  parseInt (VNum (JInt (Mysql.col_idCargo c))) = JInt (Mysql.col_idCargo c) ->
  valid_employee f -> valid_role c ->
  let r := FuncionarioService.loginFuncionario json w in
  outcome r = Ok (login_answer (clock w) f c)
  /\ after r = w
  /\ effects (events r) =
     [ Execute Sql.funcionario_login [VStr (trim email)];
       Compare (trim senha) (Mysql.col_senha f);
       Sign (login_claims f c) ].
Proof. apply loginFuncionario_succeeds. Qed.

End LoginSuccess.

(** ** Creation, then lookup or login *)

Section RoundTrips.
Context {rt : JsRuntime} {bc : Bcrypt} {jwt : MeuTokenJWT}.

Lemma filter_none {A} (f : A -> bool) l :
  Forall (fun x => f x = false) l -> filter f l = [].
Proof.
  induction 1 as [| x l Hx _ IH]; [reflexivity |].
  cbn [filter]. rewrite Hx. exact IH.
Qed.

(** What a successful [createCargo] has done to the store. *)
Lemma createCargo_success cargoJson w novoId w1 t :
  CargoService.createCargo cargoJson w = (Ok novoId, w1, t) ->
  exists s,
    get cargoJson "nomeCargo" = Ok (VStr s)
    /\ 3 <= strlen (trim s) <= 64
    /\ novoId = VNum (JInt (Mysql.cargo_AUTO_INCREMENT (store w)))
    /\ w1 = mkWorld
              (Mysql.mkStore
                 (Mysql.cargo (store w)
                  ++ [Mysql.mkCargoRow (Mysql.cargo_AUTO_INCREMENT (store w)) (trim s)])
                 (Mysql.funcionario (store w))
                 (Mysql.cargo_AUTO_INCREMENT (store w) + 1)
                 (Mysql.funcionario_AUTO_INCREMENT (store w)))
              (clock w) (entropy w).
Proof.
  intros H. destruct (createCargo_success_name _ _ H) as (s & Hget & Hlen).
  exists s. split; [exact Hget |]. split; [exact Hlen |].
  rewrite (@createCargo_run _ cargoJson s w Hget Hlen) in H.
  destruct (Mysql.cargo_named (store w) (trim s)) eqn:Hnamed; [discriminate |].
  cbv zeta in H. revert H.
  unfold CargoDAO.create. rewrite bind_console_log. cbv zeta.
  rewrite bind_pool_execute, execute_cargo_create.
  cbn [CargoModel.nomeCargo priv_nomeCargo opt_str Mysql.cargo_insert Mysql.text].
  rewrite Hnamed. cbv zeta. rewrite bind_lift.
  cbn [get Mysql.ResultSetHeader lookup String.eqb Ascii.eqb Bool.eqb].
  destruct (negb (truthy (VNum (JInt (Mysql.cargo_AUTO_INCREMENT (store w))))));
    unfold outcome, after, events; cbn [fst snd throw ret]; intros H;
    inversion H; subst. split; reflexivity.
Qed.

(** X18. A role created through the service is found again: the lookup by
    the id returned yields the role with the trimmed name, the name is
    taken from then on, and the ids in use stay below the next one to be
    generated. *)
Theorem a_created_role_is_found cargoJson w novoId w1 t :
  fresh_role_ids (store w) ->
  CargoService.createCargo cargoJson w = (Ok novoId, w1, t) ->
  exists s,
    get cargoJson "nomeCargo" = Ok (VStr s)
    /\ outcome (CargoService.findById novoId w1)
       = Ok (VObj [ ("idCargo"%string, novoId);
                    ("nomeCargo"%string, VStr (trim s)) ])
    /\ Mysql.cargo_named (store w1) (trim s) = true
    /\ fresh_role_ids (store w1).
Proof.
  intros [Hpos Hfresh] H.
  destruct (createCargo_success _ _ H) as (s & Hget & Hlen & -> & ->).
  exists s. split; [exact Hget |].
  set (id := Mysql.cargo_AUTO_INCREMENT (store w)) in *.
  split; [| split].
  - rewrite (@CargoService_findById_run _ (VNum (JInt id)) id _ eq_refl Hpos).
    unfold outcome. cbn [fst store Mysql.cargo].
    rewrite filter_app. cbn [filter Mysql.col_idCargo]. rewrite Z.eqb_refl.
    rewrite filter_none; [reflexivity |].
    eapply Forall_impl; [| exact Hfresh].
    intros c Hc. cbv beta in Hc. apply Z.eqb_neq. lia.
  - cbn [store]. unfold Mysql.cargo_named. cbn [Mysql.cargo].
    rewrite existsb_app. cbn [existsb Mysql.col_nomeCargo].
    rewrite jsstring_eqb_refl, orb_true_r. reflexivity.
  - cbn [store]. unfold fresh_role_ids.
    cbn [Mysql.cargo Mysql.cargo_AUTO_INCREMENT]. split; [lia |].
    apply Forall_app. split.
    + eapply Forall_impl; [| exact Hfresh]. intros c Hc. cbv beta in Hc. lia.
    + constructor; [cbn [Mysql.col_idCargo]; lia | constructor].
Qed.

(** What a successful [createFuncionario] has done to the store. *)
Lemma createFuncionario_success json w f w1 t :
  FuncionarioService.createFuncionario json w = (Ok f, w1, t) ->
  exists nome email senha v c,
    get json "email" = Ok (VStr email)
    /\ get json "senha" = Ok (VStr senha)
    /\ 3 <= strlen (trim nome)
    /\ email_shape (trim email)
    /\ password_policy (trim senha)
    /\ (v = 0 \/ v = 1)
    /\ 0 < c
    /\ email_registered (store w) (trim email) = false
    /\ Mysql.has_cargo (store w) c = true
    /\ 0 < Mysql.funcionario_AUTO_INCREMENT (store w)
    /\ priv_idFuncionario f
       = Some (JInt (Mysql.funcionario_AUTO_INCREMENT (store w)))
    /\ w1 = mkWorld
              (Mysql.mkStore (Mysql.cargo (store w))
                 (Mysql.funcionario (store w)
                  ++ [Mysql.mkFuncionarioRow
                        (Mysql.funcionario_AUTO_INCREMENT (store w))
                        (trim nome) (trim email)
                        (trim (bcrypt_hash (entropy w) (trim senha) 12)) v c])
                 (Mysql.cargo_AUTO_INCREMENT (store w))
                 (Mysql.funcionario_AUTO_INCREMENT (store w) + 1))
              (clock w) (S (entropy w)).
Proof.
  intros H.
  destruct (createFuncionario_success_well_formed _ _ H)
    as (nome & email & senha & vale & idCargo & Hc & Hw).
  rewrite (@createFuncionario_run _ _ _ _ _ _ _ _ w Hc Hw) in H.
  destruct Hc as (_ & He & Hs & _).
  destruct Hw as (Wn & We & Ws & Wv & (c & Hi & Hc0)).
  destruct (email_registered (store w) (trim email)) eqn:Hreg; [discriminate |].
  cbv zeta in H.
  assert (exists v, vale = VNum (JInt v) /\ (v = 0 \/ v = 1)) as (v & -> & Hv)
    by (destruct Wv as [-> | ->]; eexists; split; eauto).
  exists nome, email, senha, v, c.
  do 8 (split; [assumption || reflexivity |]).
  revert H. unfold built. erewrite (@create_run _ _ (trim senha) w) by reflexivity.
  cbv zeta.
  destruct (FuncionarioModel.set_senha _ _) as [f' | e0] eqn:Hset;
    [| unfold outcome; cbn [fst]; discriminate].
  apply set_senha_Ok in Hset as (h & Eh & ->). inversion Eh; subst h. clear Eh.
  cbn [FuncionarioModel.cargo priv_cargo get String.eqb Ascii.eqb Bool.eqb
       priv_idCargo opt_num].
  rewrite Hi.
  cbn [FuncionarioModel.nomeFuncionario FuncionarioModel.email
       FuncionarioModel.recebeValeTransporte priv_nomeFuncionario priv_email
       priv_recebeValeTransporte opt_str Mysql.funcionario_insert Mysql.text
       Mysql.int].
  destruct (Mysql.has_cargo (store w) c) eqn:Hhas;
    [| unfold outcome; cbn [fst Mysql.rejected]; discriminate].
  cbv zeta.
  cbn [fst snd get Mysql.ResultSetHeader lookup String.eqb Ascii.eqb Bool.eqb].
  destruct (negb (truthy (VNum (JInt (Mysql.funcionario_AUTO_INCREMENT (store w))))));
    [unfold outcome; cbn [fst]; discriminate |].
  unfold outcome, after, events. cbn [fst snd].
  unfold FuncionarioModel.set_idFuncionario. cbv zeta. cbn [Number isInteger negb].
  destruct (num_le_zero (JInt (Mysql.funcionario_AUTO_INCREMENT (store w)))) eqn:Hle;
    [discriminate |].
  intros H. inversion H; subst. cbn [num_le_zero] in Hle. apply Z.leb_gt in Hle.
  repeat split; assumption.
Qed.

Lemma filter_false {A} (f : A -> bool) l : existsb f l = false -> filter f l = [].
Proof.
  induction l as [| x l IH]; [reflexivity |].
  cbn [existsb filter]. intros H. apply orb_false_iff in H as [-> H]. exact (IH H).
Qed.

Lemma filter_unique {A} (key : A -> Z) k l :
  NoDup (map key l) ->
  existsb (fun x => key x =? k) l = true ->
  exists x, In x l /\ key x = k /\ filter (fun x => key x =? k) l = [x].
Proof.
  induction l as [| y l IH]; [discriminate |].
  cbn [map existsb filter]. intros Hnd Hex. inversion Hnd as [| ? ? Hnotin Hnd']; subst.
  destruct (Z.eqb_spec (key y) k) as [E | E].
  - exists y. split; [left; reflexivity |]. split; [exact E |].
    rewrite filter_none; [reflexivity |].
    apply Forall_forall. intros x Hx. apply Z.eqb_neq. intros E'.
    apply Hnotin. rewrite E, <- E'. apply in_map. exact Hx.
  - cbn [orb] in Hex. destruct (IH Hnd' Hex) as (x & Hin & Hk & Hf).
    exists x. split; [right; exact Hin |]. split; assumption.
Qed.

(** X19. After an employee was created through the service, in a store
    whose roles have distinct ids and valid names, a login with the address
    and the password of the creation payload succeeds, provided the hash
    library accepts the digest it made (and [parseInt] returns integers as
    they are): the answer carries the claims of the new row, which has the
    id the creation returned and refers to a role of the store. *)
Theorem a_created_employee_can_log_in json w f w1 t :
  FuncionarioService.createFuncionario json w = (Ok f, w1, t) ->
  NoDup (map Mysql.col_idCargo (Mysql.cargo (store w))) ->
  Forall valid_role (Mysql.cargo (store w)) ->
  (forall z, parseInt (VNum (JInt z)) = JInt z) ->
  (forall senha,
      get json "senha" = Ok (VStr senha) ->
      bcrypt_compare (trim senha)
        (trim (bcrypt_hash (entropy w) (trim senha) 12)) = true) ->
  exists row role,
    In row (Mysql.funcionario (store w1))
    /\ In role (Mysql.cargo (store w1))
    /\ priv_idFuncionario f = Some (JInt (Mysql.col_idFuncionario row))
    /\ Mysql.col_Cargo_idCargo row = Mysql.col_idCargo role
    /\ outcome (FuncionarioService.loginFuncionario json w1)
       = Ok (login_answer (clock w1) row role).
Proof.
  intros H Hnd Hroles Hint Hcmp.
  destruct (createFuncionario_success _ _ H)
    as (nome & email & senha & v & c & He & Hs & Wn & We & Ws & Hv & Hc & Hreg
        & Hhas & Hid & Hf & ->).
  destruct (filter_unique Mysql.col_idCargo c (Mysql.cargo (store w)) Hnd Hhas)
    as (role & Hin & Hk & Hfilter).
  set (row := Mysql.mkFuncionarioRow (Mysql.funcionario_AUTO_INCREMENT (store w))
                (trim nome) (trim email)
                (trim (bcrypt_hash (entropy w) (trim senha) 12)) v c).
  exists row, role. cbn [store Mysql.funcionario Mysql.cargo].
  split; [apply in_or_app; right; left; reflexivity |].
  split; [exact Hin |]. split; [exact Hf |]. split; [symmetry; exact Hk |].
  assert (Hrows : matching
                    (Mysql.mkStore (Mysql.cargo (store w))
                       (Mysql.funcionario (store w) ++ [row])
                       (Mysql.cargo_AUTO_INCREMENT (store w))
                       (Mysql.funcionario_AUTO_INCREMENT (store w) + 1))
                    (trim email)
                  = [Mysql.joined_object true row role]).
  { unfold matching, Mysql.joined. cbn [Mysql.funcionario Mysql.cargo].
    rewrite filter_app. unfold email_registered in Hreg.
    rewrite (filter_false _ _ Hreg). cbn [app filter Mysql.col_email row].
    rewrite jsstring_eqb_refl. cbn [flat_map Mysql.col_Cargo_idCargo row].
    rewrite Hfilter. reflexivity. }
  pose proof (@loginFuncionario_succeeds _ _ _ json email senha row role
                (mkWorld
                   (Mysql.mkStore (Mysql.cargo (store w))
                      (Mysql.funcionario (store w) ++ [row])
                      (Mysql.cargo_AUTO_INCREMENT (store w))
                      (Mysql.funcionario_AUTO_INCREMENT (store w) + 1))
                   (clock w) (S (entropy w)))) as Hlogin.
  cbv zeta in Hlogin. apply Hlogin.
  - exact (conj He (conj Hs (conj We Ws))).
  - exact Hrows.
  - exact (Hcmp senha Hs).
  - apply Hint.
  - unfold valid_employee. cbn [row Mysql.col_idFuncionario Mysql.col_nomeFuncionario
      Mysql.col_email Mysql.col_recebeValeTransporte].
    rewrite !trim_idempotent. exact (conj Hid (conj Wn (conj We Hv))).
  - rewrite Forall_forall in Hroles. exact (Hroles role Hin).
Qed.

End RoundTrips.

(** ** The digest and the password rule *)

Section DigestThroughTheSetter.
Context {rt : JsRuntime} {bc : Bcrypt}.

(** X20. [create] assigns the digest to the object through the password
    setter, so the digest itself is held to the password rule. When the
    digest breaks the rule the creation ends, after the hashing, with the
    plain error of the setter, and nothing is executed on the store. *)
Theorem a_digest_off_policy_stops_the_creation f p w :
  priv_senha f = Some p ->
  ~ password_policy (trim (bcrypt_hash (entropy w) p 12)) ->
  let r := FuncionarioDAO.create f w in
  (exists msg, outcome r = Throw (Error msg None))
  /\ store (after r) = store w
  /\ effects (events r) = [Hash p 12].
Proof.
  intros Hp Hbad. cbv zeta. rewrite (create_run f w Hp). cbv zeta.
  destruct (set_senha_rejects f (bcrypt_hash (entropy w) p 12) Hbad) as [msg ->].
  split; [exists msg; reflexivity |]. split; reflexivity.
Qed.

End DigestThroughTheSetter.

(** ** The code on concrete requests *)

#[local] Existing Instance Sample.runtime.
#[local] Existing Instance Sample.bcrypt.
#[local] Existing Instance Sample.token.

Lemma C2_invalid_token_stops_the_request_witness :
  let route :=
    mkRoute POST "/"
      [ JwtMiddleware.validateToken; FuncionarioMiddleware.validateCreateBody;
        FuncionarioControl.store ] in
  let request :=
    Sample.request_with_token (-3000)
      (VObj [ ("funcionario"%string, Sample.john 1) ]) in
  In route (FuncionarioRoteador.createRoutes ++ CargoRoteador.createRoutes)
  /\ protected route = true
  /\ validarToken (clock Sample.world) (authorization request) <> VBool true
  /\ Server.serve (handlers route) request Sample.world =
     (Ok token_refused, Sample.world, [Log "JwtMiddleware.validateToken()"]).
Proof.
  cbv zeta.
  assert (Hin : In (mkRoute POST "/"
      [ JwtMiddleware.validateToken; FuncionarioMiddleware.validateCreateBody;
        FuncionarioControl.store ])
      (FuncionarioRoteador.createRoutes ++ CargoRoteador.createRoutes))
    by (right; left; reflexivity).
  assert (Hv : validarToken (clock Sample.world)
                 (authorization
                    (Sample.request_with_token (-3000)
                       (VObj [ ("funcionario"%string, Sample.john 1) ])))
               <> VBool true)
    by (vm_compute; discriminate).
  split; [exact Hin | split; [reflexivity | split; [exact Hv |]]].
  exact (proj1 (@C2_invalid_token_stops_the_request Sample.runtime Sample.bcrypt
                  Sample.token _ _ Sample.world Hin eq_refl Hv)).
Defined.


Lemma C7_login_failures_coincide_witness :
  credentials Sample.wrong_login (js "john@x.com") (js "Wrong@123")
  /\ email_registered (store Sample.world) (trim (js "john@x.com")) = false
  /\ wrong_password (store Sample.world_with_john) (trim (js "john@x.com"))
       (trim (js "Wrong@123"))
  /\ outcome (FuncionarioService.loginFuncionario Sample.wrong_login Sample.world)
     = Throw unauthorized
  /\ outcome (FuncionarioService.loginFuncionario Sample.wrong_login
                Sample.world_with_john)
     = Throw unauthorized.
Proof.
  assert (Hc : credentials Sample.wrong_login (js "john@x.com") (js "Wrong@123")).
  { split; [reflexivity | split; [reflexivity | split]].
    - apply emailRegex_shape. vm_compute. reflexivity.
    - apply password_checks. vm_compute. auto. }
  assert (Ha : email_registered (store Sample.world) (trim (js "john@x.com"))
               = false) by (vm_compute; reflexivity).
  assert (Hw : wrong_password (store Sample.world_with_john)
                 (trim (js "john@x.com")) (trim (js "Wrong@123"))).
  { exists (Mysql.mkFuncionarioRow 3 (js "John Smith") (js "john@x.com")
              (Sample.bcrypt_hash 0 (js "Pass@123") 12) 1 1),
           (Mysql.mkCargoRow 1 (js "Administrador")).
    split; vm_compute; reflexivity. }
  pose proof (@C7_login_failures_coincide Sample.runtime Sample.bcrypt Sample.token
                Sample.wrong_login (js "john@x.com") (js "Wrong@123")
                Sample.world Sample.world_with_john Hc Ha Hw)
    as (H1 & H2 & _).
  auto.
Defined.

(** C1 (the code at a request for a role that does not exist). Role 999 is
    not in the store and the e-mail address is new. The service looks the
    role up but does not wait for the answer: it reads [length] of the
    pending promise, which is [undefined] and not equal to 0, so the
    bad-request error for a missing role is not thrown. The run goes on to
    the e-mail lookup, hashes the password and executes the insert; it is
    the store's foreign key that rejects the row, with a driver error the
    responder answers 500. *)
Theorem C1_missing_role_reaches_the_insert :
  let r := FuncionarioService.createFuncionario (Sample.john 999) Sample.world in
  Mysql.has_cargo (store Sample.world) 999 = false
  /\ outcome r = Throw (Mysql.sql_error "ER_NO_REFERENCED_ROW_2")
  /\ events r =
     select_email_events (VNum (JInt 999)) (js "john@x.com")
     ++ [ Log "FuncionarioDAO.create()"; Hash (js "Pass@123") 12;
          Execute Sql.funcionario_create
            [ VStr (js "John Smith"); VStr (js "john@x.com");
              VStr (Sample.bcrypt_hash 0 (js "Pass@123") 12);
              VNum (JInt 1); VNum (JInt 999) ] ]
  /\ store (after r) = store Sample.world
  /\ outcome (Server.serve [FuncionarioControl.store]
                (mkRequest VUndefined
                   (VObj [ ("funcionario"%string, Sample.john 999) ]) (VObj []))
                Sample.world)
     = Ok (mkResponse 500
             (VObj [ ("success"%string, VBool false);
                     ("message"%string,
                       VStr (js "Ocorreu um erro interno no servidor"));
                     ("error"%string,
                       VObj [ ("message"%string,
                                VStr (js "the statement was rejected by the database"));
                              ("code"%string,
                                VStr (js "ER_NO_REFERENCED_ROW_2")) ]) ])).
Proof.
  cbv zeta.
  repeat match goal with |- _ /\ _ => split end; vm_compute; reflexivity.
Qed.

Lemma C9_update_takes_a_full_payload_witness :
  get Sample.update_without_name "funcionario"
  = Ok (VObj [ ("email"%string, VStr (js "john@x.com"));
               ("senha"%string, VStr (js "Pass@123"));
               ("recebeValeTransporte"%string, VNum (JInt 1));
               ("cargo"%string, VObj [ ("idCargo"%string, VNum (JInt 1)) ]) ])
  /\ exists e,
       FuncionarioService.updateFuncionario (VNum (JInt 1)) Sample.update_without_name
         Sample.world
       = (Throw e, Sample.world, [Log "FuncionarioService.updateFuncionario()"]).
Proof.
  split; [reflexivity |].
  refine (proj1 (@C9_update_takes_a_full_payload Sample.runtime Sample.bcrypt
                   (VNum (JInt 1)) Sample.update_without_name _ Sample.world eq_refl)
            "nomeFuncionario"%string _ _).
  - left. reflexivity.
  - reflexivity.
Defined.

(** C9 as stated fails: an update payload without the name, otherwise
    valid, addressed to the first employee, does not leave the name as it
    was and go through: the service throws, and the body check the router
    puts before the controller refuses the same payload, the name being a
    required member. *)
Lemma C9_counterexample :
  omits (VObj [ ("email"%string, VStr (js "john@x.com"));
                ("senha"%string, VStr (js "Pass@123"));
                ("recebeValeTransporte"%string, VNum (JInt 1));
                ("cargo"%string, VObj [ ("idCargo"%string, VNum (JInt 1)) ]) ])
    "nomeFuncionario"
  /\ FuncionarioService.updateFuncionario (VNum (JInt 1)) Sample.update_without_name
       Sample.world
     = (Throw (Error (js "nomeFuncionario deve ser uma string.") None),
        Sample.world, [Log "FuncionarioService.updateFuncionario()"])
  /\ outcome (FuncionarioMiddleware.validateCreateBody
                (mkRequest VUndefined Sample.update_without_name (VObj []))
                Sample.world)
     = Throw (bad_request (js "O campo 'nomeFuncionario' é obrigatório!")).
Proof.
  repeat match goal with |- _ /\ _ => split end; vm_compute; reflexivity.
Qed.


Lemma C5_duplicates_conflict_witness :
  CargoService.createCargo
    (VObj [ ("nomeCargo"%string, VStr (js " Administrador ")) ]) Sample.world
  = (Throw (conflict_cargo (js "Administrador")), Sample.world,
     select_nomeCargo_events (js "Administrador"))
  /\ exists email idCargo,
       FuncionarioService.createFuncionario (Sample.john 1) Sample.world_with_john
       = (Throw (conflict_email email), Sample.world_with_john,
          select_email_events idCargo email).
Proof.
  destruct (@C5_duplicates_conflict Sample.runtime Sample.bcrypt)
    as (Hcargo & _ & _ & Htwice & _).
  split.
  - refine (Hcargo (VObj [ ("nomeCargo"%string, VStr (js " Administrador ")) ])
              (js " Administrador ") Sample.world eq_refl _ _).
    + vm_compute. split; discriminate.
    + vm_compute. reflexivity.
  - refine (Htwice (Sample.john 1) Sample.world
              (mkFuncionario (Some (JInt 3))
                 (Some (mkCargo (Some (JInt 1)) None)) (Some (js "John Smith"))
                 (Some (js "john@x.com"))
                 (Some (Sample.bcrypt_hash 0 (js "Pass@123") 12))
                 (Some (VNum (JInt 1))))
              Sample.world_with_john _ _).
    vm_compute. reflexivity.
Defined.

Lemma C8_only_digests_are_written_witness :
  let f := built None (js "John Smith") (js "john@x.com") (js "Pass@123")
             (VNum (JInt 1)) (VNum (JInt 1)) in
  let params :=
    [ VStr (js "John Smith"); VStr (js "john@x.com");
      VStr (Sample.bcrypt_hash 0 (js "Pass@123") 12);
      VNum (JInt 1); VNum (JInt 1) ] in
  In (Execute Sql.funcionario_create params)
    (events (FuncionarioDAO.create f Sample.world))
  /\ nth 2 params VUndefined
     = VStr (trim (bcrypt_hash (entropy Sample.world) (js "Pass@123") 12)).
Proof.
  cbv zeta.
  assert (Hin : In (Execute Sql.funcionario_create
      [ VStr (js "John Smith"); VStr (js "john@x.com");
        VStr (Sample.bcrypt_hash 0 (js "Pass@123") 12);
        VNum (JInt 1); VNum (JInt 1) ])
      (events (FuncionarioDAO.create
                 (built None (js "John Smith") (js "john@x.com") (js "Pass@123")
                    (VNum (JInt 1)) (VNum (JInt 1))) Sample.world))).
  { vm_compute. right. right. left. reflexivity. }
  split; [exact Hin |].
  destruct (proj1 (@C8_only_digests_are_written Sample.runtime Sample.bcrypt
                     _ _ _ _) Hin) as (p & Hp & _ & H3 & _).
  inversion Hp; subst p. exact H3.
Defined.

Lemma C10_findByField_allow_list_witness :
  let field := js "1=1 OR idCargo" in
  ~ In field CargoDAO.allowedFields
  /\ CargoDAO.findByField field (VNum (JInt 1)) Sample.world =
     (Throw (Error (js "Campo inválido para busca: " ++ field) None), Sample.world,
      [Log "CargoDAO.findByField()"]).
Proof.
  cbv zeta.
  assert (H : ~ In (js "1=1 OR idCargo") CargoDAO.allowedFields).
  { intros H. apply existsb_jsstring in H. vm_compute in H. discriminate. }
  split; [exact H |].
  exact (proj1 (C10_findByField_allow_list (js "1=1 OR idCargo") (VNum (JInt 1))
                  Sample.world) H).
Defined.

(** ** The further properties on concrete requests *)

Lemma stored_values_pass_the_setters_again_witness :
  CargoModel.set_nomeCargo CargoModel.new (VStr (js "  Gerente "))
  = Ok (mkCargo None (Some (js "Gerente")))
  /\ CargoModel.set_nomeCargo CargoModel.new (VStr (js "Gerente"))
     = Ok (mkCargo None (Some (js "Gerente"))).
Proof.
  assert (H : CargoModel.set_nomeCargo CargoModel.new (VStr (js "  Gerente "))
              = Ok (mkCargo None (Some (js "Gerente")))) by reflexivity.
  split; [exact H |].
  exact (proj1 (proj2 (@stored_values_pass_the_setters_again Sample.runtime))
           CargoModel.new CargoModel.new _ _ H).
Defined.

Lemma validateCreateBody_screens_witness :
  let request := Cases.request (VObj [ ("funcionario"%string, Sample.john 1) ])
                   (VObj []) in
  creation_payload (Sample.john 1)
  /\ outcome (FuncionarioMiddleware.validateCreateBody request Sample.world)
     = Ok (Next request).
Proof.
  cbv zeta.
  destruct (@validateCreateBody_screens
              (Cases.request (VObj [ ("funcionario"%string, Sample.john 1) ])
                 (VObj []))
              [ ("funcionario"%string, Sample.john 1) ] Sample.world eq_refl)
    as (_ & _ & [H | [_ [detail H]]]).
  - exact H.
  - vm_compute in H. discriminate H.
Defined.


Lemma login_with_a_password_off_policy_is_an_internal_error_witness :
  let r := Server.serve
             [FuncionarioMiddleware.validateLoginBody; FuncionarioControl.login]
             (login_request (Cases.login "john@x.com" "abc"))
             Sample.world_with_john in
  (exists sent, outcome r = Ok (mkResponse 500 sent))
  /\ after r = Sample.world_with_john
  /\ effects (events r) = [].
Proof.
  refine (@login_with_a_password_off_policy_is_an_internal_error
            Sample.runtime Sample.bcrypt Sample.token
            (Cases.login "john@x.com" "abc") (js "john@x.com") (js "abc")
            Sample.world_with_john eq_refl eq_refl _ _ _).
  - apply emailRegex_shape. vm_compute. reflexivity.
  - vm_compute. discriminate.
  - intros H. apply password_checks in H. vm_compute in H.
    destruct H as (_ & H & _). discriminate H.
Defined.

Lemma validateBody_screens_witness :
  let request := Cases.request
                   (VObj [ ("cargo"%string,
                             VObj [ ("nomeCargo"%string, VNum (JInt 5)) ]) ])
                   (VObj []) in
  (exists msg,
      outcome (CargoMiddleware.validateBody request Sample.world)
      = Throw (TypeError msg))
  /\ exists sent,
       outcome (Server.serve [CargoMiddleware.validateBody; CargoControl.store]
                  request Sample.world)
       = Ok (mkResponse 500 sent).
Proof.
  cbv zeta.
  destruct (@validateBody_screens
              (Cases.request
                 (VObj [ ("cargo"%string,
                           VObj [ ("nomeCargo"%string, VNum (JInt 5)) ]) ])
                 (VObj []))
              [ ("cargo"%string, VObj [ ("nomeCargo"%string, VNum (JInt 5)) ]) ]
              Sample.world eq_refl)
    as (_ & _ & _ & _ & _ & H).
  split.
  - eexists. vm_compute. reflexivity.
  - apply (H (js "cargo.nomeCargo.trim is not a function")). reflexivity.
Defined.

Lemma CargoControl_destroy_always_answers_204_witness :
  Mysql.has_cargo (store Sample.world) 999 = false
  /\ exists sent,
       outcome (CargoControl.destroy
                  (Cases.request (VObj []) (Cases.param "idCargo" "999"))
                  Sample.world)
       = Ok (Send (mkResponse 204 sent)).
Proof.
  split; [reflexivity |]. eexists.
  exact (@CargoControl_destroy_always_answers_204 Sample.runtime
           (Cases.request (VObj []) (Cases.param "idCargo" "999"))
           [ ("idCargo"%string, VStr (js "999")) ] Sample.world eq_refl).
Defined.

Lemma CargoControl_store_answers_201_witness :
  exists w1 t,
    CargoControl.store
      (Cases.request (VObj [ ("cargo"%string, Cases.gerente) ]) (VObj []))
      Sample.world
    = (Ok (Send (mkResponse 201
                   (success "Cadastro realizado com sucesso"
                      (CargoControl.cargos
                         [ ("idCargo"%string, VNum (JInt 5));
                           ("nomeCargo"%string, VStr (js "  Gerente ")) ])))),
       w1, t).
Proof.
  destruct (CargoService.createCargo Cases.gerente Sample.world)
    as [[o w1] t] eqn:Hrun.
  assert (Ho : o = Ok (VNum (JInt 5))).
  { change o with (fst (fst (o, w1, t))). rewrite <- Hrun. vm_compute. reflexivity. }
  subst o.
  destruct (@CargoControl_store_answers_201 Sample.runtime
              (Cases.request (VObj [ ("cargo"%string, Cases.gerente) ]) (VObj []))
              Cases.gerente (VNum (JInt 5)) Sample.world w1 t eq_refl Hrun)
    as (_ & nome & Hn & H).
  vm_compute in Hn. injection Hn as <-.
  exists w1, (Log "CargoControle.store()" :: t). exact H.
Defined.

Lemma CargoControl_show_never_answers_404_witness :
  let r := CargoControl.show
             (Cases.request (VObj []) (Cases.param "idCargo" "999"))
             Sample.world in
  outcome r =
  Ok (Send (mkResponse 200
              (success "Executado com sucesso"
                 [ ("data"%string, VObj [ ("cargos"%string, VNull) ]) ]))).
Proof.
  exact (proj1 (@CargoControl_show_never_answers_404 Sample.runtime
                  (Cases.request (VObj []) (Cases.param "idCargo" "999"))
                  (VStr (js "999")) 999 Sample.world eq_refl eq_refl eq_refl)).
Defined.

Lemma FuncionarioControl_show_hands_the_row_back_witness :
  let r := Server.serve [FuncionarioControl.show]
             (Cases.request (VObj []) (Cases.param "idFuncionario" "1"))
             Sample.world in
  exists f,
    Mysql.col_senha f
    = js "$2b$12$6ixafy0UKZx.A8ujEEDfnO2QH7IonQ/5/5UCqzQ51YvISdSO4VVle"
    /\ outcome r =
       Ok (mkResponse 200
             (success "Executado com sucesso"
                [ ("data"%string, Mysql.funcionario_object f) ]))
    /\ get (Mysql.funcionario_object f) "senha" = Ok (VStr (Mysql.col_senha f)).
Proof.
  intro r.
  destruct (@FuncionarioControl_show_hands_the_row_back Sample.runtime
              (Cases.request (VObj []) (Cases.param "idFuncionario" "1"))
              (VStr (js "1")) 1 Sample.world eq_refl eq_refl eq_refl) as [H _].
  fold r in H.
  destruct (filter (fun f => Mysql.col_idFuncionario f =? 1)
              (Mysql.funcionario (store Sample.world))) as [| f rest] eqn:E.
  - vm_compute in E. discriminate E.
  - exists f. split; [| exact H].
    vm_compute in E. injection E as <- _. reflexivity.
Defined.

Lemma FuncionarioControl_destroy_answers_by_presence_witness :
  let gone := fun f => Mysql.col_idFuncionario f =? 2 in
  let r := FuncionarioControl.destroy
             (Cases.request (VObj []) (Cases.param "idFuncionario" "2"))
             Sample.world in
  outcome r = Ok (Send (mkResponse 204 (success "Excluído com sucesso" [])))
  /\ existsb gone (Mysql.funcionario (store (after r))) = false.
Proof.
  cbv zeta.
  destruct (@FuncionarioControl_destroy_answers_by_presence Sample.runtime
              (Cases.request (VObj []) (Cases.param "idFuncionario" "2"))
              (VStr (js "2")) 2 Sample.world eq_refl eq_refl eq_refl)
    as (H1 & _ & H2 & _).
  split; [exact H1 | exact H2].
Defined.

Lemma FuncionarioControl_update_answers_200_without_a_row_witness :
  let request := Cases.request (VObj [ ("funcionario"%string, Sample.john 1) ])
                   (Cases.param "idFuncionario" "99") in
  outcome (FuncionarioService.updateFuncionario (VStr (js "99")) (body request)
             Sample.world)
  = Ok (VBool false)
  /\ (exists sent,
         outcome (FuncionarioControl.update request Sample.world)
         = Ok (Send (mkResponse 200 sent)))
  /\ store (after (FuncionarioControl.update request Sample.world))
     = store Sample.world.
Proof.
  cbv zeta.
  destruct (@FuncionarioControl_update_answers_200_without_a_row
              Sample.runtime Sample.bcrypt
              (Cases.request (VObj [ ("funcionario"%string, Sample.john 1) ])
                 (Cases.param "idFuncionario" "99"))
              (VStr (js "99")) 99 (Sample.john 1)
              (js "John Smith") (js "john@x.com") (js "Pass@123")
              (VNum (JInt 1)) (VNum (JInt 1)) Sample.world)
    as (H1 & H2 & H3); try reflexivity.
  - unfold carries. repeat split; try reflexivity. eexists; split; reflexivity.
  - unfold well_formed. split; [vm_compute; discriminate |].
    split; [apply emailRegex_shape; vm_compute; reflexivity |].
    split; [apply password_checks; vm_compute; auto |].
    split; [right; reflexivity |]. exists 1. split; [reflexivity | lia].
  - split; [exact H1 |]. split; [eexists; exact H2 | exact H3].
Defined.

Lemma CargoControl_update_on_the_store_witness :
  let request :=
    Cases.request
      (VObj [ ("cargo"%string,
                VObj [ ("nomeCargo"%string, VStr (js "Administrador")) ]) ])
      (Cases.param "idCargo" "2") in
  let r := Server.serve [CargoControl.update] request Sample.world in
  (exists sent, outcome r = Ok (mkResponse 500 sent))
  /\ store (after r) = store Sample.world.
Proof.
  pose proof (@CargoControl_update_on_the_store Sample.runtime
                (Cases.request
                   (VObj [ ("cargo"%string,
                             VObj [ ("nomeCargo"%string,
                                      VStr (js "Administrador")) ]) ])
                   (Cases.param "idCargo" "2"))
                (VStr (js "2")) 2
                (VObj [ ("nomeCargo"%string, VStr (js "Administrador")) ])
                (js "Administrador") Sample.world
                eq_refl eq_refl eq_refl eq_refl eq_refl) as H.
  cbv zeta in H. apply H. vm_compute. split; discriminate.
Defined.

Lemma an_invalid_id_never_reaches_the_store_witness :
  (exists msg,
      outcome (CargoService.findById (VStr (js "abc")) Sample.world)
      = Throw (Error msg None))
  /\ after (CargoService.findById (VStr (js "abc")) Sample.world) = Sample.world
  /\ effects (events (CargoService.findById (VStr (js "abc")) Sample.world)) = [].
Proof.
  refine (proj1 (@an_invalid_id_never_reaches_the_store Sample.runtime
                   (VStr (js "abc")) Sample.world _)).
  intros (z & H & _). vm_compute in H. discriminate H.
Defined.

Lemma login_needs_exactly_one_row_witness :
  List.length (matching (store Cases.world_with_twins) (js "john@x.com")) = 2%nat
  /\ outcome (FuncionarioService.loginFuncionario
                (Cases.login "john@x.com" "Pass@123") Cases.world_with_twins)
     = Throw unauthorized
  /\ outcome (FuncionarioService.loginFuncionario
                (Cases.login "john@x.com" "Word#456") Cases.world_with_twins)
     = Throw unauthorized.
Proof.
  assert (Hc : forall senha,
             password_policy (trim (js senha)) ->
             credentials (Cases.login "john@x.com" senha) (js "john@x.com")
               (js senha)).
  { intros senha Hp. split; [reflexivity |]. split; [reflexivity |].
    split; [apply emailRegex_shape; vm_compute; reflexivity | exact Hp]. }
  assert (Hn : List.length (matching (store Cases.world_with_twins)
                              (trim (js "john@x.com"))) <> 1%nat)
    by (vm_compute; discriminate).
  split; [vm_compute; reflexivity |]. split.
  - refine (proj1 (@login_needs_exactly_one_row Sample.runtime Sample.bcrypt
                     Sample.token _ (js "john@x.com") (js "Pass@123")
                     Cases.world_with_twins (Hc "Pass@123"%string _) Hn)).
    apply password_checks. vm_compute. auto.
  - refine (proj1 (@login_needs_exactly_one_row Sample.runtime Sample.bcrypt
                     Sample.token _ (js "john@x.com") (js "Word#456")
                     Cases.world_with_twins (Hc "Word#456"%string _) Hn)).
    apply password_checks. vm_compute. auto.
Defined.

Lemma a_matching_password_logs_in_witness :
  exists f c,
    matching (store Sample.world_with_john) (js "john@x.com")
    = [Mysql.joined_object true f c]
    /\ outcome (FuncionarioService.loginFuncionario
                  (Cases.login "john@x.com" "Pass@123") Sample.world_with_john)
       = Ok (login_answer (clock Sample.world_with_john) f c)
    /\ login_claims f c
       = VObj [ ("email"%string, VStr (js "john@x.com"));
                ("role"%string, VStr (js "Administrador"));
                ("name"%string, VStr (js "John Smith"));
                ("idFuncionario"%string, VNum (JInt 3)) ].
Proof.
  exists (Mysql.mkFuncionarioRow 3 (js "John Smith") (js "john@x.com")
            (Sample.bcrypt_hash 0 (js "Pass@123") 12) 1 1),
         (Mysql.mkCargoRow 1 (js "Administrador")).
  assert (Hrows : matching (store Sample.world_with_john) (trim (js "john@x.com"))
                  = [Mysql.joined_object true
                       (Mysql.mkFuncionarioRow 3 (js "John Smith") (js "john@x.com")
                          (Sample.bcrypt_hash 0 (js "Pass@123") 12) 1 1)
                       (Mysql.mkCargoRow 1 (js "Administrador"))])
    by (vm_compute; reflexivity).
  split; [vm_compute; reflexivity |]. split; [| vm_compute; reflexivity].
  refine (proj1 (@a_matching_password_logs_in Sample.runtime Sample.bcrypt
                   Sample.token (Cases.login "john@x.com" "Pass@123")
                   (js "john@x.com") (js "Pass@123") _ _ Sample.world_with_john
                   _ Hrows _ _ _ _)).
  - split; [reflexivity |]. split; [reflexivity |].
    split; [apply emailRegex_shape; vm_compute; reflexivity |].
    apply password_checks. vm_compute. auto.
  - vm_compute. reflexivity.
  - reflexivity.
  - split; [cbn; lia |]. split; [vm_compute; discriminate |].
    split; [apply emailRegex_shape; vm_compute; reflexivity | right; reflexivity].
  - split; [cbn; lia |]. vm_compute. split; discriminate.
Defined.

Lemma a_created_role_is_found_witness :
  exists w1,
    outcome (CargoService.createCargo Cases.gerente Sample.world)
    = Ok (VNum (JInt 5))
    /\ after (CargoService.createCargo Cases.gerente Sample.world) = w1
    /\ outcome (CargoService.findById (VNum (JInt 5)) w1)
       = Ok (VObj [ ("idCargo"%string, VNum (JInt 5));
                    ("nomeCargo"%string, VStr (js "Gerente")) ]).
Proof.
  destruct (CargoService.createCargo Cases.gerente Sample.world)
    as [[o w1] t] eqn:Hrun.
  assert (Ho : o = Ok (VNum (JInt 5))).
  { change o with (fst (fst (o, w1, t))). rewrite <- Hrun. vm_compute. reflexivity. }
  subst o. exists w1. split; [reflexivity |]. split; [reflexivity |].
  assert (Hfresh : fresh_role_ids (store Sample.world)).
  { split; [cbn; lia |]. repeat constructor. }
  destruct (@a_created_role_is_found Sample.runtime Cases.gerente Sample.world
              (VNum (JInt 5)) w1 t Hfresh Hrun)
    as (s & Hs & Hfound & _).
  vm_compute in Hs. injection Hs as <-. exact Hfound.
Defined.

Lemma a_created_employee_can_log_in_witness :
  exists row role,
    In row (Mysql.funcionario (store Sample.world_with_john))
    /\ In role (Mysql.cargo (store Sample.world_with_john))
    /\ Mysql.col_Cargo_idCargo row = Mysql.col_idCargo role
    /\ outcome (FuncionarioService.loginFuncionario (Sample.john 1)
                  Sample.world_with_john)
       = Ok (login_answer (clock Sample.world_with_john) row role).
Proof.
  assert (Hrun : exists f t,
             FuncionarioService.createFuncionario (Sample.john 1) Sample.world
             = (Ok f, Sample.world_with_john, t)).
  { do 2 eexists. vm_compute. reflexivity. }
  destruct Hrun as (f & t & Hrun).
  destruct (@a_created_employee_can_log_in Sample.runtime Sample.bcrypt Sample.token
              (Sample.john 1) Sample.world f Sample.world_with_john t Hrun)
    as (row & role & H1 & H2 & _ & H3 & H4).
  - vm_compute. repeat (constructor; [cbn; intuition discriminate |]). constructor.
  - vm_compute. repeat constructor; intros H; discriminate H.
  - intros z. reflexivity.
  - intros senha Hs. vm_compute in Hs. injection Hs as <-. vm_compute. reflexivity.
  - exists row, role. exact (conj H1 (conj H2 (conj H3 H4))).
Defined.

Lemma a_digest_off_policy_stops_the_creation_witness :
  let f := mkFuncionario None (Some (mkCargo (Some (JInt 1)) None))
             (Some (js "John Smith")) (Some (js "john@x.com"))
             (Some (js "Pass@123")) (Some (VNum (JInt 1))) in
  let r := @FuncionarioDAO.create Cases.plain_bcrypt f Sample.world in
  (exists msg, outcome r = Throw (Error msg None))
  /\ store (after r) = store Sample.world
  /\ effects (events r) = [Hash (js "Pass@123") 12].
Proof.
  refine (@a_digest_off_policy_stops_the_creation Cases.plain_bcrypt
            (mkFuncionario None (Some (mkCargo (Some (JInt 1)) None))
               (Some (js "John Smith")) (Some (js "john@x.com"))
               (Some (js "Pass@123")) (Some (VNum (JInt 1))))
            (js "Pass@123") Sample.world eq_refl _).
  intros H. apply password_checks in H. vm_compute in H.
  destruct H as (_ & _ & H & _). discriminate H.
Defined.

